(** * Winter Cheer: trait generator, prompt builder, mint hook and
      API routes

    A shallow embedding of
    - [src/lib/trait-generator.ts]  (catalogs, [seededRandom], [pickRandom],
      [generateTraits], [traitsToAttributes], [hexToColorName],
      [buildPromptFromTraits]; the token store of [notification-tokens.ts]
      and the queries of [db-operations.ts] that the file also holds),
    - [src/hooks/useWinterCheerMint.ts]  ([mintNFT]) with the render
      conditions of the [MintInterface] component,
    - [src/app/api/send-notification/route.ts]  ([POST]),
    - [src/lib/pfp-analyzer.ts]  ([hexToRgb], [rgbToHex],
      [enhanceColorForChristmas]),
    - [src/app/api/generate-nft/route.ts]  ([POST]),
    - [src/pinata-media-api.ts]  ([slugify]),
    - [src/app/api/farcaster-webhook/route.ts]  ([POST],
      [extractFidFromPayload], and the record-mint [POST] the file also
      holds),
    - the check-mint-status route  ([GET]).

    JavaScript numbers are IEEE-754 binary64 values, so they are modelled
    by Rocq's primitive floats, whose operations round exactly as the
    JavaScript ones do.  Strings are sequences of code units below 256. *)

From Stdlib Require Import ZArith Floats String Ascii List Bool Lia DecimalString
  Permutation.
From Stdlib Require HexadecimalString.
Import ListNotations.

Set Warnings "-inexact-float".
Set Implicit Arguments.

(* ===================================================================== *)
(** * The parts of the JavaScript runtime the sources rely on *)
(* ===================================================================== *)

Module JS.

Local Open Scope float_scope.

(** The number for an integer below [2^63] in magnitude. *)
Definition number_of_Z (z : Z) : float :=
  if (z <? 0)%Z then - PrimFloat.of_uint63 (Uint63.of_Z (- z))
  else PrimFloat.of_uint63 (Uint63.of_Z z).

Definition number_of_nat (n : nat) : float := number_of_Z (Z.of_nat n).

(** [Math.floor]: NaN, the infinities, the zeros and every value whose
    exponent is non-negative are returned as they are; otherwise the
    fraction bits are dropped, towards minus infinity. *)
Definition Math_floor (x : float) : float :=
  match Prim2SF x with
  | S754_finite s m e =>
      if (0 <=? e)%Z then x
      else
        let d := (2 ^ (- e))%Z in
        let q := (Zpos m / d)%Z in
        if (Zpos m mod d =? 0)%Z then x
        else if s then number_of_Z (- (q + 1)) else number_of_Z q
  | _ => x
  end.

(** [Math.max] and [Math.min] of two numbers: NaN is contagious and
    [+0] is larger than [-0]. *)
Definition Math_max2 (a b : float) : float :=
  if is_nan a || is_nan b then nan
  else if a <? b then b
  else if b <? a then a
  else if get_sign a then b else a.

Definition Math_min2 (a b : float) : float :=
  if is_nan a || is_nan b then nan
  else if a <? b then a
  else if b <? a then b
  else if get_sign a then a else b.

Definition Math_max (a b c : float) : float := Math_max2 (Math_max2 a b) c.
Definition Math_min (a b c : float) : float := Math_min2 (Math_min2 a b) c.

(** The integer a number denotes when it is a non-negative integer, the
    only numbers whose property key can be an array index ([-0] prints
    as ["0"]). *)
Definition index_of_number (i : float) : option Z :=
  match Prim2SF i with
  | S754_zero _ => Some 0%Z
  | S754_finite false m e =>
      if (0 <=? e)%Z then Some (Zpos m * 2 ^ e)%Z
      else
        let d := (2 ^ (- e))%Z in
        if (Zpos m mod d =? 0)%Z then Some (Zpos m / d)%Z else None
  | _ => None
  end.

(** [array[i]]: [None] is JavaScript's [undefined], the value of a read
    at anything but an index below the length. *)
Definition array_get {T : Type} (array : list T) (i : float) : option T :=
  match index_of_number i with
  | Some z =>
      if (z <? Z.of_nat (length array))%Z then nth_error array (Z.to_nat z)
      else None
  | None => None
  end.

(** ** Strings *)

Local Open Scope string_scope.

(** [s.replace(c, '')] for a one-character pattern: the first occurrence
    only. *)
Fixpoint remove_first (c : ascii) (s : string) : string :=
  match s with
  | EmptyString => EmptyString
  | String a s' => if Ascii.eqb a c then s' else String a (remove_first c s')
  end.

(** [s.substring(from, to)] for [from <= to]. *)
Definition substring (from to : nat) (s : string) : string :=
  String.substring from (to - from) s.

(** [String.prototype.toLowerCase] on code units below 256: the ASCII
    capitals and the Latin-1 capitals (all of C0..DE but the
    multiplication sign D7) move up by 32. *)
Definition lower_unit (c : ascii) : ascii :=
  let n := nat_of_ascii c in
  if ((65 <=? n) && (n <=? 90))%nat then ascii_of_nat (n + 32)
  else if ((192 <=? n) && (n <=? 222) && negb (n =? 215))%nat
       then ascii_of_nat (n + 32)
  else c.

Fixpoint toLowerCase (s : string) : string :=
  match s with
  | EmptyString => EmptyString
  | String c s' => String (lower_unit c) (toLowerCase s')
  end.

(** White space that [parseInt] skips (tab, LF, VT, FF, CR, space,
    no-break space). *)
Definition is_white_space (c : ascii) : bool :=
  let n := nat_of_ascii c in
  ((9 <=? n) && (n <=? 13) || (n =? 32) || (n =? 160))%nat.

Fixpoint trim_start (s : string) : string :=
  match s with
  | String c s' => if is_white_space c then trim_start s' else s
  | EmptyString => s
  end.

Definition hex_digit (c : ascii) : option Z :=
  let n := Z.of_nat (nat_of_ascii c) in
  if ((48 <=? n) && (n <=? 57))%Z then Some (n - 48)%Z
  else if ((65 <=? n) && (n <=? 70))%Z then Some (n - 55)%Z
  else if ((97 <=? n) && (n <=? 102))%Z then Some (n - 87)%Z
  else None.

(** The longest prefix of hexadecimal digits, read as an integer;
    [None] when the prefix is empty. *)
Fixpoint hex_prefix (acc : option Z) (s : string) : option Z :=
  match s with
  | EmptyString => acc
  | String c s' =>
      match hex_digit c with
      | Some d =>
          hex_prefix (Some (match acc with Some a => 16 * a + d | None => d end)%Z) s'
      | None => acc
      end
  end.

Definition strip_sign (s : string) : bool * string :=
  match s with
  | String "-" s' => (true, s')
  | String "+" s' => (false, s')
  | _ => (false, s)
  end.

Definition strip_0x (s : string) : string :=
  match s with
  | String "0" (String "x" s') => s'
  | String "0" (String "X" s') => s'
  | _ => s
  end.

(** [parseInt(s, 16)], exact while the digits denote less than [2^53]. *)
Definition parseInt16 (s : string) : float :=
  let (neg, s1) := strip_sign (trim_start s) in
  match hex_prefix None (strip_0x s1) with
  | None => nan
  | Some z => if neg then (- number_of_Z z)%float else number_of_Z z
  end.

End JS.

(* ===================================================================== *)
(** * [src/lib/trait-generator.ts] *)
(* ===================================================================== *)

Module TraitGenerator.

Import JS.
Local Open Scope string_scope.

Inductive Gender : Type := Male | Female.

Definition gender_string (g : Gender) : string :=
  match g with Male => "Male" | Female => "Female" end.

(** [interface WinterCheerTraits].  The eight picked fields are what
    [pickRandom] hands back, and an array read past the end is
    [undefined] in JavaScript: [None] stands for it. *)
Record WinterCheerTraits : Type := mkTraits {
  gender : Gender;
  skinTone : option string;
  hairStyle : option string;
  hairColor : string;
  eyeStyle : option string;
  outfit : option string;
  outfitColor : string;
  accessory : option string;
  headAccessory : option string;
  background : option string;
  specialEffect : option string
}.

Definition SKIN_TONES : list string :=
  ["Porcelain"; "Fair"; "Light"; "Medium"; "Tan"; "Deep"].

Definition HAIR_STYLES : list string :=
  ["Short Spiky"; "Wavy Bob"; "Long Straight"; "Twin Tails"; "Ponytail";
   "Messy Bun"; "Braided Crown"; "Side Part"; "Curly Afro"; "Pixie Cut";
   "Long Wavy"; "Straight Bang"; "Side Swept"; "High Ponytail";
   "Low Pigtails"; "Shoulder Length"; "Wolf Cut"; "Mullet"; "Buzz Cut";
   "Dreadlocks"].

Definition EYE_STYLES : list string :=
  ["Round Sparkle"; "Sleepy"; "Cat Eyes"; "Wide Innocent"; "Sharp";
   "Determined"; "Gentle"; "Mysterious"; "Happy Crescent"; "Serious";
   "Cute Dot"; "Starry"; "Sad"; "Closed Smile"; "Intense"].

Definition OUTFITS : list string :=
  ["Santa Suit"; "Ski Outfit"; "Rudolf Costume"; "Elf Outfit";
   "Snowman Costume"; "Gingerbread Costume"; "Ice Royalty";
   "Candy Cane Striped"; "Mrs. Claus Dress"; "Winter Warrior"].

Definition ACCESSORIES : list string :=
  ["Candy Cane"; "Teddy Bear"; "Gift Box"; "Snowflake Wand";
   "Ornament Ball"; "Jingle Bells"; "Mistletoe Branch"; "Winter Scarf";
   "Snow Globe"; "Holiday Wreath"; "Hot Cocoa Mug"; "Gingerbread Cookie";
   "String Lights"; "Poinsettia"; "None"].

Definition HEAD_ACCESSORIES : list string :=
  ["Santa Hat"; "Reindeer Antlers"; "Elf Hat"; "Winter Beanie";
   "Fuzzy Earmuffs"; "Holly Crown"; "Snowflake Tiara"; "Knit Cap";
   "Aviator Hat"; "Halo"; "Festive Headband"; "None"].

Definition BACKGROUNDS : list string :=
  ["Snowy Forest"; "Cozy Fireplace Room"; "North Pole Workshop";
   "Snow-Covered Village"; "Starry Winter Night"; "Aurora Borealis";
   "Candy Cane Land"; "Santa's Workshop Interior"; "Ice Castle";
   "Christmas Tree Farm"].

Definition SPECIAL_EFFECTS : list string :=
  ["Falling Snowflakes"; "Magic Sparkles"; "Festive Glow";
   "Frost Particles"; "Golden Light"; "Star Dust"; "Aurora Shimmer";
   "None"].

Section Platform.

(** [Math.sin] is "implementation-approximated" in ECMAScript: the engine
    chooses the value, so it is taken as given. *)
Variable Math_sin : float -> float.

Local Open Scope float_scope.

Definition seededRandom (fid seed : float) : float :=
  let x := Math_sin (fid * 12.9898 + seed * 78.233) * 43758.5453 in
  x - Math_floor x.

Definition pickRandom {T : Type} (array : list T) (fid seed : float) : option T :=
  let index := Math_floor (seededRandom fid seed * number_of_nat (length array)) in
  array_get array index.

Definition generateTraits (fid : float) (gender : Gender) (dominantColor : string)
  : WinterCheerTraits :=
  {| gender := gender;
     skinTone := pickRandom SKIN_TONES fid 1;
     hairStyle := pickRandom HAIR_STYLES fid 2;
     hairColor := dominantColor;
     eyeStyle := pickRandom EYE_STYLES fid 3;
     outfit := pickRandom OUTFITS fid 4;
     outfitColor := dominantColor;
     accessory := pickRandom ACCESSORIES fid 5;
     headAccessory := pickRandom HEAD_ACCESSORIES fid 6;
     background := pickRandom BACKGROUNDS fid 7;
     specialEffect := pickRandom SPECIAL_EFFECTS fid 8 |}.

End Platform.

(** One entry of the marketplace attribute list. *)
Record Attribute : Type := mkAttribute {
  trait_type : string;
  value : option string
}.

Definition traitsToAttributes (traits : WinterCheerTraits) : list Attribute :=
  [ {| trait_type := "Gender"; value := Some (gender_string (gender traits)) |};
    {| trait_type := "Skin Tone"; value := skinTone traits |};
    {| trait_type := "Hair Style"; value := hairStyle traits |};
    {| trait_type := "Hair Color"; value := Some (hairColor traits) |};
    {| trait_type := "Eye Style"; value := eyeStyle traits |};
    {| trait_type := "Outfit"; value := outfit traits |};
    {| trait_type := "Outfit Color"; value := Some (outfitColor traits) |};
    {| trait_type := "Accessory"; value := accessory traits |};
    {| trait_type := "Head Accessory"; value := headAccessory traits |};
    {| trait_type := "Background"; value := background traits |};
    {| trait_type := "Special Effect"; value := specialEffect traits |} ].

(** ** [hexToColorName] *)

Section ColorName.

Local Open Scope float_scope.

(** The first half of [hexToColorName]: hex to RGB to HSL.  The result is
    [(h, s, l)] as the three variables stand when the descriptors are
    chosen. *)
Definition hexToHsl (hex : string) : float * float * float :=
  let cleanHex := remove_first "#"%char hex in
  let r := parseInt16 (substring 0 2 cleanHex) in
  let g := parseInt16 (substring 2 4 cleanHex) in
  let b := parseInt16 (substring 4 6 cleanHex) in
  let rNorm := r / 255 in
  let gNorm := g / 255 in
  let bNorm := b / 255 in
  let max := Math_max rNorm gNorm bNorm in
  let min := Math_min rNorm gNorm bNorm in
  let delta := max - min in
  let l := (max + min) / 2 in
  if negb (delta =? 0) then
    let s := if 0.5 <? l then delta / (2 - max - min) else delta / (max + min) in
    let h :=
      if max =? rNorm then
        ((gNorm - bNorm) / delta + (if gNorm <? bNorm then 6 else 0)) / 6
      else if max =? gNorm then ((bNorm - rNorm) / delta + 2) / 6
      else ((rNorm - gNorm) / delta + 4) / 6 in
    (h, s, l)
  else (0, 0, l).

Definition brightnessOf (l : float) : string :=
  if 0.8 <? l then "very light"
  else if 0.6 <? l then "light"
  else if 0.4 <? l then "medium"
  else if 0.2 <? l then "deep"
  else "very dark".

Definition saturationOf (s : float) : string :=
  if 0.8 <? s then "vivid"
  else if 0.5 <? s then "vibrant"
  else if 0.2 <? s then "muted"
  else "pale".

Definition grayscaleOf (l : float) : string :=
  if 0.9 <? l then "pure white"
  else if 0.7 <? l then "light gray"
  else if 0.5 <? l then "medium gray"
  else if 0.3 <? l then "dark gray"
  else "black".

Definition colorFamilyOf (hue : float) : string :=
  if (hue <? 15) || (345 <=? hue) then "red"
  else if hue <? 45 then "orange-red"
  else if hue <? 70 then "orange"
  else if hue <? 90 then "yellow-orange"
  else if hue <? 150 then "yellow-green"
  else if hue <? 170 then "green"
  else if hue <? 200 then "cyan-green"
  else if hue <? 220 then "cyan"
  else if hue <? 250 then "blue"
  else if hue <? 280 then "purple-blue"
  else if hue <? 310 then "purple"
  else if hue <? 330 then "magenta"
  else "pink-red".

(** [s < 0.1], the test that sends a colour to the grayscale names. *)
Definition isGrayscale (s : float) : bool := s <? 0.1.

Definition hexToColorName (hex : string) : string :=
  let '(h, s, l) := hexToHsl hex in
  let brightness := brightnessOf l in
  let saturation := saturationOf s in
  let hue := h * 360 in
  if isGrayscale s then grayscaleOf l
  else (saturation ++ " " ++ brightness ++ " " ++ colorFamilyOf hue)%string.

(** The hue (in degrees), saturation and lightness [hexToColorName]
    computes for a colour. *)
Definition hslHue (hex : string) : float := fst (fst (hexToHsl hex)) * 360.
Definition hslSaturation (hex : string) : float := snd (fst (hexToHsl hex)).
Definition hslLightness (hex : string) : float := snd (hexToHsl hex).

End ColorName.

(** The names the four descriptor chains of [hexToColorName] hand out,
    in the order of their branches. *)
Definition colorFamilies : list string :=
  ["red"; "orange-red"; "orange"; "yellow-orange"; "yellow-green"; "green";
   "cyan-green"; "cyan"; "blue"; "purple-blue"; "purple"; "magenta";
   "pink-red"].

Definition brightnessBands : list string :=
  ["very light"; "light"; "medium"; "deep"; "very dark"].

Definition saturationBands : list string :=
  ["vivid"; "vibrant"; "muted"; "pale"].

Definition grayscaleNames : list string :=
  ["pure white"; "light gray"; "medium gray"; "dark gray"; "black"].

(** A colour that is not sent to the grayscale names and whose hue falls
    in the given family. *)
Definition in_family (fam hex : string) : Prop :=
  isGrayscale (hslSaturation hex) = false
  /\ colorFamilyOf (hslHue hex) = fam.

(** The [trait_type] labels of [traitsToAttributes], in order. *)
Definition attributeLabels : list string :=
  ["Gender"; "Skin Tone"; "Hair Style"; "Hair Color"; "Eye Style"; "Outfit";
   "Outfit Color"; "Accessory"; "Head Accessory"; "Background";
   "Special Effect"].

(** The values of the eleven fields of a trait record, in the order of
    [attributeLabels]. *)
Definition fieldValues (traits : WinterCheerTraits) : list (option string) :=
  [Some (gender_string (gender traits)); skinTone traits; hairStyle traits;
   Some (hairColor traits); eyeStyle traits; outfit traits;
   Some (outfitColor traits); accessory traits; headAccessory traits;
   background traits; specialEffect traits].

(** A trait record with another [outfitColor] and nothing else changed. *)
Definition withOutfitColor (c : string) (traits : WinterCheerTraits)
  : WinterCheerTraits :=
  {| gender := gender traits; skinTone := skinTone traits;
     hairStyle := hairStyle traits; hairColor := hairColor traits;
     eyeStyle := eyeStyle traits; outfit := outfit traits;
     outfitColor := c; accessory := accessory traits;
     headAccessory := headAccessory traits; background := background traits;
     specialEffect := specialEffect traits |}.

(** ** [buildPromptFromTraits] *)

(** [v.toLowerCase()] on a value that may be [undefined]; [None] is the
    [TypeError] the call then throws. *)
Definition lowered (v : option string) : option string :=
  option_map toLowerCase v.

Notation "x <- e ;; k" :=
  (match e with Some x => k | None => None end)
  (at level 61, e at next level, right associativity, only parsing).

Definition buildPromptFromTraits (traits : WinterCheerTraits) : option string :=
  let genderDesc :=
    match gender traits with
    | Male => "masculine anime boy with sharp facial features, defined jawline, broader shoulders, boyish charm"
    | Female => "feminine anime girl with soft delicate features, gentle expression, graceful appearance, cute demeanor"
    end in
  let styleDesc := "cute anime chibi character" in
  let descriptiveColor := hexToColorName (hairColor traits) in
  let hairColorEmphasis :=
    "BRIGHT " ++ descriptiveColor ++ " colored hair, the hair MUST be EXACTLY this "
      ++ descriptiveColor ++ " shade" in
  outfit_ <- lowered (outfit traits) ;;
  let outfitColorEmphasis :=
    outfit_ ++ " outfit that MUST be PRECISELY " ++ descriptiveColor
      ++ " color, matching the hair color EXACTLY" in
  skinTone_ <- lowered (skinTone traits) ;;
  hairStyle_ <- lowered (hairStyle traits) ;;
  eyeStyle_ <- lowered (eyeStyle traits) ;;
  accessory_ <- lowered (accessory traits) ;;
  headAccessory_ <- lowered (headAccessory traits) ;;
  background_ <- lowered (background traits) ;;
  specialEffect_ <- lowered (specialEffect traits) ;;
  Some (styleDesc ++ " " ++ genderDesc ++ ", " ++ skinTone_ ++ " skin tone, "
        ++ hairStyle_ ++ " hairstyle with " ++ hairColorEmphasis ++ ", "
        ++ eyeStyle_ ++ " eyes, wearing " ++ outfitColorEmphasis
        ++ ". CRITICAL: Both the hair AND outfit MUST be " ++ descriptiveColor
        ++ " color. Holding " ++ accessory_ ++ ", wearing " ++ headAccessory_
        ++ ", " ++ background_ ++ " background, " ++ specialEffect_
        ++ ", kawaii Christmas aesthetic, Seal Online game character style, professional anime illustration, 4k quality, detailed and colorful. THE PRIMARY COLOR SCHEME MUST BE "
        ++ descriptiveColor ++ " for both hair and outfit - this is MANDATORY.").

End TraitGenerator.

(* ===================================================================== *)
(** * [src/app/api/send-notification/route.ts] *)
(* ===================================================================== *)

Module SendNotification.

Local Open Scope string_scope.
Local Open Scope list_scope.

(** The JSON body of the request; a key that is absent reads as
    [undefined], here [None]. *)
Record SendNotificationRequest : Type := mkRequest {
  fids : option (list Z);
  broadcast : option bool;
  notificationId : option string;
  title : option string;
  body : option string;
  targetUrl : option string
}.

(** [!v] on a value that is a string or [undefined]. *)
Definition falsy (v : option string) : bool :=
  match v with
  | None => true
  | Some EmptyString => true
  | Some _ => false
  end.

(** [v.length > n]; the guards before it have excluded [undefined]. *)
Definition longer_than (n : nat) (v : option string) : bool :=
  match v with
  | Some s => (n <? String.length s)%nat
  | None => false
  end.

(** A row of [notification_tokens], with the columns the route reads. *)
Record NotificationToken : Type := mkRow {
  row_token : string;
  row_notification_url : string
}.

Record ActiveTokensResult : Type := mkActive {
  active_success : bool;
  active_tokens : option (list NotificationToken);
  active_error : option string
}.

Record TokenByFidResult : Type := mkByFid {
  byfid_success : bool;
  byfid_token : option NotificationToken
}.

(** An entry of [tokensToSend]. *)
Record Recipient : Type := mkRecipient {
  token : string;
  notificationUrl : string
}.

(** The body posted to a relay. *)
Record Payload : Type := mkPayload {
  p_notificationId : option string;
  p_title : option string;
  p_body : option string;
  p_targetUrl : option string;
  tokens : list string
}.

(** What a [fetch] to a relay comes to: the promise rejects (or the
    answer is not JSON), the status is not ok, or the relay answers with
    its three token lists. *)
Inductive FetchOutcome : Type :=
| FetchRejected (message : string)
| FetchNotOk (status errorText : string)
| FetchOk (successfulTokens invalidTokens rateLimitedTokens : list string).

(** What the route does to the outside, in the order it does it. *)
Inductive Effect : Type :=
| QueryActiveTokens
| QueryTokenByFid (fid : Z)
| RelayPost (url : string) (payload : Payload).

(** The answer of the route. *)
Inductive Response : Type :=
| Failure (status : Z) (error : string)
| NoTokens
| Delivered (sent failed totalRecipients : nat) (errors : list string).

Definition status_of (r : Response) : Z :=
  match r with
  | Failure status _ => status
  | NoTokens => 200
  | Delivered _ _ _ _ => 200
  end.

Definition success_of (r : Response) : bool :=
  match r with
  | Failure _ _ => false
  | _ => true
  end.

Definition batchSize : nat := 100.

(** [array.slice(from, to)]. *)
Definition slice {T : Type} (from to : nat) (array : list T) : list T :=
  firstn (to - from) (skipn from array).

(** The batching loop [for (let i = 0; i < n; i += batchSize)], started
    at [i] with the batches pushed so far; [fuel] bounds the number of
    iterations, and the length of the array is enough of it. *)
Fixpoint batch_loop {T : Type} (fuel i : nat) (array : list T)
  (batches : list (list T)) : list (list T) :=
  match fuel with
  | O => batches
  | S fuel' =>
      if (i <? length array)%nat
      then batch_loop fuel' (i + batchSize) array
             (batches ++ [slice i (i + batchSize) array])
      else batches
  end.

Definition make_batches {T : Type} (array : list T) : list (list T) :=
  batch_loop (length array) 0 array [].

(** [urlGroups], a [Map] in insertion order: the item joins the group of
    its URL, or opens a new last group. *)
Fixpoint group_push (item : Recipient) (groups : list (string * list Recipient))
  : list (string * list Recipient) :=
  match groups with
  | [] => [(notificationUrl item, [item])]
  | (url, existing) :: rest =>
      if String.eqb url (notificationUrl item)
      then (url, existing ++ [item]) :: rest
      else (url, existing) :: group_push item rest
  end.

Definition group_by_url (batch : list Recipient) : list (string * list Recipient) :=
  fold_left (fun groups item => group_push item groups) batch [].

(** The counters of one batch: [(successfulCount, failedCount, errors)]. *)
Definition tally (batch_length : nat) (acc : nat * nat * list string)
  (result : FetchOutcome) : nat * nat * list string :=
  let '(successfulCount, failedCount, errors) := acc in
  match result with
  | FetchOk successful invalid rateLimited =>
      (successfulCount + length successful,
       failedCount + (length invalid + length rateLimited), errors)
  | FetchNotOk status errorText =>
      (successfulCount, failedCount + batch_length,
       errors ++ [("Failed to send notification batch: " ++ status ++ " " ++ errorText)%string])
  | FetchRejected message =>
      (successfulCount, failedCount + batch_length, errors ++ [message])
  end.

Section Route.

(** The token store and the relays, as they answer this request. *)
Variable getActiveNotificationTokens : ActiveTokensResult.
Variable getNotificationTokenByFid : Z -> TokenByFidResult.
Variable fetch : string -> Payload -> FetchOutcome.

Definition payload_for (req : SendNotificationRequest) (items : list Recipient)
  : Payload :=
  {| p_notificationId := notificationId req;
     p_title := title req;
     p_body := body req;
     p_targetUrl := targetUrl req;
     tokens := map token items |}.

(** The relay calls of one batch, one per notification URL. *)
Definition batch_calls (req : SendNotificationRequest) (batch : list Recipient)
  : list (string * Payload) :=
  map (fun group => (fst group, payload_for req (snd group))) (group_by_url batch).

Definition send_batch (req : SendNotificationRequest) (batch : list Recipient)
  : nat * nat * list string :=
  fold_left (tally (length batch))
    (map (fun call => fetch (fst call) (snd call)) (batch_calls req batch))
    (0, 0, []).

(** Everything after the recipients are known. *)
Definition deliver (req : SendNotificationRequest) (tokensToSend : list Recipient)
  : Response * list Effect :=
  match tokensToSend with
  | [] => (NoTokens, [])
  | _ =>
      let batches := make_batches tokensToSend in
      let results := map (send_batch req) batches in
      let totals :=
        fold_left
          (fun acc r =>
             let '(totalSuccessful, totalFailed, allErrors) := acc in
             let '(successfulCount, failedCount, errors) := r in
             (totalSuccessful + successfulCount, totalFailed + failedCount,
              allErrors ++ errors))
          results (0, 0, []) in
      let '(totalSuccessful, totalFailed, allErrors) := totals in
      (Delivered totalSuccessful totalFailed (length tokensToSend) allErrors,
       map (fun call => RelayPost (fst call) (snd call))
           (flat_map (batch_calls req) batches))
  end.

(** The recipients of a request for specific FIDs: the tokens found, in
    the order of the FIDs. *)
Definition tokens_for_fids (ids : list Z) : list Recipient :=
  flat_map
    (fun fid =>
       let result := getNotificationTokenByFid fid in
       match byfid_success result, byfid_token result with
       | true, Some t =>
           [ {| token := row_token t; notificationUrl := row_notification_url t |} ]
       | _, _ => []
       end)
    ids.

Definition POST (req : SendNotificationRequest) : Response * list Effect :=
  if falsy (title req) || falsy (body req) then
    (Failure 400 "Title and body are required", [])
  else if falsy (notificationId req) then
    (Failure 400 "notificationId is required for idempotency", [])
  else if falsy (targetUrl req) then
    (Failure 400 "targetUrl is required", [])
  else if longer_than 32 (title req) then
    (Failure 400 "Title must be max 32 characters", [])
  else if longer_than 128 (body req) then
    (Failure 400 "Body must be max 128 characters", [])
  else if longer_than 1024 (targetUrl req) then
    (Failure 400 "targetUrl must be max 1024 characters", [])
  else
    match broadcast req, fids req with
    | Some true, _ =>
        let result := getActiveNotificationTokens in
        match active_success result, active_tokens result with
        | true, Some rows =>
            let tokensToSend :=
              map (fun t => {| token := row_token t;
                               notificationUrl := row_notification_url t |}) rows in
            let '(response, effects) := deliver req tokensToSend in
            (response, QueryActiveTokens :: effects)
        | _, _ =>
            (Failure 500
               (match active_error result with
                | Some (String c e) => String c e
                | _ => "Failed to fetch active tokens"
                end),
             [QueryActiveTokens])
        end
    | _, Some (fid :: ids) =>
        let '(response, effects) := deliver req (tokens_for_fids (fid :: ids)) in
        (response, map QueryTokenByFid (fid :: ids) ++ effects)
    | _, _ =>
        (Failure 400 "Either broadcast must be true or fids array must be provided", [])
    end.

(** The relay calls among the effects of a request. *)
Definition relay_calls (effects : list Effect) : list (string * Payload) :=
  flat_map
    (fun e => match e with RelayPost url payload => [(url, payload)] | _ => [] end)
    effects.

End Route.

(** A request without [notificationId], and a token store and relay
    to run it against. *)
Definition sample_request : SendNotificationRequest :=
  {| fids := None; broadcast := Some true; notificationId := None;
     title := Some "Winter Cheer"; body := Some "Minting is open";
     targetUrl := Some "https://example.com/" |}.

Definition sample_store : ActiveTokensResult :=
  {| active_success := true;
     active_tokens :=
       Some [ {| row_token := "token-1";
                 row_notification_url := "https://relay.example/notify" |} ];
     active_error := None |}.

Definition sample_lookup (fid : Z) : TokenByFidResult :=
  {| byfid_success := true; byfid_token := None |}.

Definition sample_fetch (url : string) (payload : Payload) : FetchOutcome :=
  FetchOk (tokens payload) [] [].

(** The number of recipients held by the groups of [urlGroups]. *)
Fixpoint grouped (groups : list (string * list Recipient)) : nat :=
  match groups with
  | [] => 0
  | g :: rest => length (snd g) + grouped rest
  end.

(** A request without its idempotency key, or with a title, body or
    target URL over the length the relay accepts. *)
Definition invalid (req : SendNotificationRequest) : Prop :=
  notificationId req = None
  \/ (exists s, title req = Some s /\ 32 < String.length s)
  \/ (exists s, body req = Some s /\ 128 < String.length s)
  \/ (exists s, targetUrl req = Some s /\ 1024 < String.length s).

(** The six validation guards of [POST] all let the request pass. *)
Definition well_formed (req : SendNotificationRequest) : bool :=
  negb (falsy (title req) || falsy (body req) || falsy (notificationId req)
        || falsy (targetUrl req) || longer_than 32 (title req)
        || longer_than 128 (body req) || longer_than 1024 (targetUrl req)).



(** The recipients [POST] settles on, for a request it does not refuse:
    every active row for a broadcast, the tokens found for the FIDs
    otherwise. *)
Definition recipients (store : ActiveTokensResult)
  (lookup : Z -> TokenByFidResult) (req : SendNotificationRequest)
  : list Recipient :=
  match broadcast req with
  | Some true =>
      match active_tokens store with
      | Some rows =>
          map (fun t => {| token := row_token t;
                           notificationUrl := row_notification_url t |}) rows
      | None => []
      end
  | _ =>
      match fids req with
      | Some ids => tokens_for_fids lookup ids
      | None => []
      end
  end.


(** The groups are never empty and carry pairwise distinct URLs. *)
Definition groups_ok (groups : list (string * list Recipient)) : Prop :=
  NoDup (map fst groups) /\ Forall (fun g => snd g <> []) groups.

(** A request for two FIDs that share a relay, and a relay that is down. *)
Definition sample_targeted : SendNotificationRequest :=
  {| fids := Some [1; 2]%Z; broadcast := None;
     notificationId := Some "winter-2025"; title := Some "Winter Cheer";
     body := Some "Minting is open"; targetUrl := Some "https://example.com/" |}.

Definition sample_found (fid : Z) : TokenByFidResult :=
  {| byfid_success := true;
     byfid_token :=
       Some {| row_token := if (fid =? 1)%Z then "token-1" else "token-2";
               row_notification_url := "https://relay.example/notify" |} |}.

Definition sample_down (url : string) (payload : Payload) : FetchOutcome :=
  FetchRejected "fetch failed".

End SendNotification.

(* ===================================================================== *)
(** * [src/hooks/useWinterCheerMint.ts] and the [MintInterface] component *)
(* ===================================================================== *)

Module MintHook.

Local Open Scope string_scope.
Local Open Scope list_scope.

(** The values of [MintState.step]. *)
Module Step.

Inductive t : Type :=
| idle | analyzing | generating | uploading | minting | success | error.

Definition eqb (a b : t) : bool :=
  match a, b with
  | idle, idle | analyzing, analyzing | generating, generating
  | uploading, uploading | minting, minting | success, success
  | error, error => true
  | _, _ => false
  end.

End Step.

(** What a [throw] carries: an [Error] with its message, or anything else. *)
Inductive Thrown : Type :=
| ErrorObject (message : string)
| NotAnError.

(** A call either returns or throws (an awaited promise either fulfils
    or rejects). *)
Inductive Outcome (A : Type) : Type :=
| Returned (a : A)
| Threw (t : Thrown).

Arguments Returned {A} a.
Arguments Threw {A} t.

Record ColorAnalysis : Type := mkColorAnalysis {
  hexColor : string;
  dominantColor : string
}.

Record GeneratedImage : Type := mkGeneratedImage {
  compressedDataUrl : string
}.

Record PinataResult : Type := mkPinataResult {
  image_gatewayUrl : string;
  metadata_ipfsUri : string
}.

(** The collaborators the hook calls, named as in its imports. *)
Inductive Collaborator : Type :=
| analyzePfpColor | adjustColorForWinter | generateTraits | buildAIPrompt
| generateNFTImage | generateTokenId | dataUrlToBlob | generateMetadata
| pinataUploadImageWithMetadata | prepareMintTransaction | sendTransaction
| waitForTransactionReceipt | recordNewMint | saveNftMetadata.

Section Hook.

(** The modules [@/lib/trait-generator] (as the hook imports it),
    [@/lib/image-generator], [@/lib/nft-contract], the wallet and the
    database are outside this file: their data are opaque and their
    functions are given. *)
Variables NFTTraits Blob Metadata MintTransaction : Type.

Record MintState : Type := mkMintState {
  step : Step.t;
  message : string;
  progress : nat;
  traits : option NFTTraits;
  previewImageUrl : option string;
  txHash : option string;
  tokenId : option Z;
  error : option string
}.

Record Collaborators : Type := mkCollaborators {
  do_analyzePfpColor : string -> Outcome ColorAnalysis;
  do_adjustColorForWinter : string -> Outcome string;
  do_generateTraits : TraitGenerator.Gender -> string -> Z -> Outcome NFTTraits;
  set_outfitColor : NFTTraits -> string -> NFTTraits;
  do_buildAIPrompt : NFTTraits -> Outcome string;
  do_generateNFTImage : string -> Outcome GeneratedImage;
  do_generateTokenId : Z -> Outcome Z;
  do_dataUrlToBlob : string -> Outcome Blob;
  do_generateMetadata : Z -> Z -> NFTTraits -> string -> Outcome Metadata;
  do_pinataUploadImageWithMetadata : Blob -> string -> Metadata -> Outcome PinataResult;
  do_prepareMintTransaction : string -> Z -> Outcome MintTransaction;
  do_sendTransaction : MintTransaction -> Outcome string;
  do_waitForTransactionReceipt : string -> Outcome unit;
  do_recordNewMint : Z -> Z -> string -> Outcome unit;
  do_saveNftMetadata : Z -> Z -> Metadata -> string -> string -> Outcome unit
}.

(** What a run of [mintNFT] does, in order: state updates (with the
    state they produce), collaborator calls, and [console.error]. *)
Inductive Effect : Type :=
| SetMintState (next : MintState)
| Invoke (c : Collaborator)
| ConsoleError.

Record World : Type := mkWorld {
  ui : MintState;
  trace : list Effect
}.

(** State, trace and exceptions. *)
Definition M (A : Type) : Type := World -> Outcome A * World.

Definition ret {A : Type} (a : A) : M A := fun w => (Returned a, w).

Definition bind {A B : Type} (m : M A) (k : A -> M B) : M B :=
  fun w =>
    match m w with
    | (Returned a, w') => k a w'
    | (Threw t, w') => (Threw t, w')
    end.

Notation "x <- e ;; k" := (bind e (fun x => k))
  (at level 61, e at next level, right associativity).
Notation "e ;; k" := (bind e (fun _ => k))
  (at level 61, right associativity).

Definition record (e : Effect) (w : World) : World :=
  {| ui := ui w; trace := trace w ++ [e] |}.

(** [setMintState(prev => f(prev))]. *)
Definition setMintState (f : MintState -> MintState) : M unit :=
  fun w =>
    let next := f (ui w) in
    (Returned tt, {| ui := next; trace := trace w ++ [SetMintState next] |}).

(** A call to a collaborator, with the outcome it has. *)
Definition invoke {A : Type} (c : Collaborator) (outcome : Outcome A) : M A :=
  fun w => (outcome, record (Invoke c) w).

Definition console_error : M unit :=
  fun w => (Returned tt, record ConsoleError w).

Definition try_catch (body : M unit) (handler : Thrown -> M unit) : M unit :=
  fun w =>
    match body w with
    | (Returned a, w') => (Returned a, w')
    | (Threw t, w') => handler t w'
    end.

(** A computation that only adds to the trace it is started with. *)
Definition extends (A : Type) (m : M A) : Prop :=
  forall w, exists added, trace (snd (m w)) = trace w ++ added.

(** The values the hook closes over when [mintNFT] is created. *)
Record HookValues : Type := mkHookValues {
  isConnected : bool;
  address : option string;
  walletClient : bool;
  publicClient : bool;
  fid : option Z;
  pfpUrl : option string;
  selectedGender : TraitGenerator.Gender;
  hasAlreadyMinted : bool;
  connection : bool
}.

Definition nonempty (v : option string) : option string :=
  match v with
  | Some (String c s) => Some (String c s)
  | _ => None
  end.

(** The first guard of [mintNFT],
    [!isConnected || !address || !walletClient || !fid || !pfpUrl],
    read positively: the address, FID and picture URL when all five are
    truthy. *)
Definition context_loaded (h : HookValues) : option (string * Z * string) :=
  if isConnected h && walletClient h then
    match nonempty (address h), fid h, nonempty (pfpUrl h) with
    | Some a, Some f, Some u => if (f =? 0)%Z then None else Some (a, f, u)
    | _, _, _ => None
    end
  else None.

(** [`${fid}`] for an integer FID. *)
Definition fid_string (f : Z) : string := NilZero.string_of_int (Z.to_int f).

Definition with_error (e : option string) (prev : MintState) : MintState :=
  {| step := step prev; message := message prev; progress := progress prev;
     traits := traits prev; previewImageUrl := previewImageUrl prev;
     txHash := txHash prev; tokenId := tokenId prev; error := e |}.

Definition with_progress (m : string) (p : nat) (prev : MintState) : MintState :=
  {| step := step prev; message := m; progress := p;
     traits := traits prev; previewImageUrl := previewImageUrl prev;
     txHash := txHash prev; tokenId := tokenId prev; error := error prev |}.

Definition with_step (s : Step.t) (m : string) (p : nat) (prev : MintState) : MintState :=
  {| step := s; message := m; progress := p;
     traits := traits prev; previewImageUrl := previewImageUrl prev;
     txHash := txHash prev; tokenId := tokenId prev; error := error prev |}.

Variable deps : Collaborators.

(** The body of the [try] block. *)
Definition pipeline (h : HookValues) (address : string) (fid : Z) (pfpUrl : string)
  : M unit :=
  (* Step 1: Analyze PFP *)
  setMintState (fun _ =>
    {| step := Step.analyzing; message := "Analyzing your profile picture...";
       progress := 10; traits := None; previewImageUrl := None;
       txHash := None; tokenId := None; error := None |}) ;;
  colorAnalysis <- invoke analyzePfpColor (do_analyzePfpColor deps pfpUrl) ;;
  adjustedColor <- invoke adjustColorForWinter
                     (do_adjustColorForWinter deps (hexColor colorAnalysis)) ;;
  (* Step 2: Generate traits *)
  setMintState (fun prev =>
    with_progress "Generating unique traits..." 20 prev) ;;
  traits0 <- invoke generateTraits
               (do_generateTraits deps (selectedGender h)
                  (dominantColor colorAnalysis) fid) ;;
  let traits_ := set_outfitColor deps traits0 adjustedColor in
  setMintState (fun prev =>
    {| step := step prev; message := message prev; progress := 30;
       traits := Some traits_; previewImageUrl := previewImageUrl prev;
       txHash := txHash prev; tokenId := tokenId prev; error := error prev |}) ;;
  (* Step 3: Generate image with AI *)
  setMintState (fun prev =>
    with_step Step.generating "Creating your unique character with AI..." 40 prev) ;;
  aiPrompt <- invoke buildAIPrompt (do_buildAIPrompt deps traits_) ;;
  generatedImage <- invoke generateNFTImage (do_generateNFTImage deps aiPrompt) ;;
  setMintState (fun prev =>
    {| step := step prev; message := message prev; progress := 60;
       traits := traits prev;
       previewImageUrl := Some (compressedDataUrl generatedImage);
       txHash := txHash prev; tokenId := tokenId prev; error := error prev |}) ;;
  (* Step 4: Upload to IPFS *)
  setMintState (fun prev => with_step Step.uploading "Uploading to IPFS..." 70 prev) ;;
  tokenId_ <- invoke generateTokenId (do_generateTokenId deps fid) ;;
  imageBlob <- invoke dataUrlToBlob
                 (do_dataUrlToBlob deps (compressedDataUrl generatedImage)) ;;
  metadata <- invoke generateMetadata
                (do_generateMetadata deps tokenId_ fid traits_ EmptyString) ;;
  ipfsResult <- invoke pinataUploadImageWithMetadata
                  (do_pinataUploadImageWithMetadata deps imageBlob
                     ("winter-cheer-" ++ fid_string fid ++ ".png")%string metadata) ;;
  let metadataUri := metadata_ipfsUri ipfsResult in
  setMintState (fun prev => with_progress (message prev) 80 prev) ;;
  (* Step 5: Mint NFT *)
  setMintState (fun prev => with_step Step.minting "Minting your NFT on Base..." 85 prev) ;;
  mintTx <- invoke prepareMintTransaction
              (do_prepareMintTransaction deps address fid) ;;
  hash <- invoke sendTransaction (do_sendTransaction deps mintTx) ;;
  setMintState (fun prev => with_progress "Waiting for confirmation..." 90 prev) ;;
  (if publicClient h
   then invoke waitForTransactionReceipt (do_waitForTransactionReceipt deps hash)
   else ret tt) ;;
  (* Step 6: Record in SpacetimeDB *)
  (if connection h
   then
     invoke recordNewMint (do_recordNewMint deps fid tokenId_ address) ;;
     invoke saveNftMetadata
       (do_saveNftMetadata deps tokenId_ fid metadata
          (image_gatewayUrl ipfsResult) metadataUri)
   else ret tt) ;;
  (* Success! *)
  setMintState (fun _ =>
    {| step := Step.success; message := "NFT minted successfully!"; progress := 100;
       traits := Some traits_;
       previewImageUrl := Some (compressedDataUrl generatedImage);
       txHash := Some hash; tokenId := Some tokenId_; error := None |}).

(** The [catch] block. *)
Definition on_error (t : Thrown) : M unit :=
  console_error ;;
  setMintState (fun prev =>
    {| step := Step.error; message := message prev; progress := progress prev;
       traits := traits prev; previewImageUrl := previewImageUrl prev;
       txHash := txHash prev; tokenId := tokenId prev;
       error := Some (match t with
                      | ErrorObject m => m
                      | NotAnError => "Unknown error occurred"
                      end) |}).

Definition mintNFT (h : HookValues) : M unit :=
  match context_loaded h with
  | None =>
      setMintState
        (with_error (Some "Please connect wallet and ensure Farcaster context is loaded"))
  | Some (address, fid, pfpUrl) =>
      if hasAlreadyMinted h then
        setMintState
          (with_error
             (Some ("FID " ++ fid_string fid
                    ++ " has already minted a Winter Cheer NFT")%string))
      else try_catch (pipeline h address fid pfpUrl) on_error
  end.

(** The state the hook starts with. *)
Definition initialMintState : MintState :=
  {| step := Step.idle; message := EmptyString; progress := 0; traits := None;
     previewImageUrl := None; txHash := None; tokenId := None; error := None |}.

(** The [error] message of the two guards of [mintNFT]. *)
Definition guard_message (h : HookValues) : string :=
  match context_loaded h with
  | None => "Please connect wallet and ensure Farcaster context is loaded"
  | Some (_, fid, _) =>
      "FID " ++ fid_string fid ++ " has already minted a Winter Cheer NFT"
  end.

(** One click on the mint button: [mintNFT] run on the current state,
    with an empty trace. *)
Definition run_mintNFT (h : HookValues) (current : MintState) : World :=
  snd (mintNFT h {| ui := current; trace := [] |}).

(** The collaborators called in a trace. *)
Definition invoked (t : list Effect) : list Collaborator :=
  flat_map (fun e => match e with Invoke c => [c] | _ => [] end) t.

(** The steps the state went through in a trace. *)
Definition steps_entered (t : list Effect) : list Step.t :=
  flat_map (fun e => match e with SetMintState s => [step s] | _ => [] end) t.

(** ** What [MintInterface] renders *)

Definition isLoading (s : MintState) : bool :=
  existsb (Step.eqb (step s)) [Step.analyzing; Step.generating; Step.uploading; Step.minting].

Record View : Type := mkView {
  alreadyMintedWarning : bool;
  genderSelection : bool;
  mintProgress : bool;
  previewAndTraits : bool;
  successCard : bool;
  errorCard : option string;
  mintButton : bool
}.

Definition MintInterface (h : HookValues) (s : MintState) : View :=
  {| alreadyMintedWarning := hasAlreadyMinted h;
     genderSelection := negb (hasAlreadyMinted h) && Step.eqb (step s) Step.idle;
     mintProgress := isLoading s;
     previewAndTraits :=
       match nonempty (previewImageUrl s), traits s with
       | Some _, Some _ => true
       | _, _ => false
       end;
     successCard :=
       Step.eqb (step s) Step.success
       && match nonempty (txHash s) with Some _ => true | None => false end;
     errorCard := nonempty (error s);
     mintButton := negb (hasAlreadyMinted h) && negb (Step.eqb (step s) Step.success) |}.

End Hook.

(** The order in which the [try] block of [mintNFT] reaches its
    collaborators; the receipt is awaited only with a [publicClient] and
    the two reducers are called only with a database connection. *)
Definition call_order (h : HookValues) : list Collaborator :=
  [analyzePfpColor; adjustColorForWinter; generateTraits; buildAIPrompt;
   generateNFTImage; generateTokenId; dataUrlToBlob; generateMetadata;
   pinataUploadImageWithMetadata; prepareMintTransaction; sendTransaction]
  ++ (if publicClient h then [waitForTransactionReceipt] else [])
  ++ (if connection h then [recordNewMint; saveNftMetadata] else []).

(** The states a trace published, oldest first. *)
Definition published (NFTTraits : Type) (t : list (Effect NFTTraits))
  : list (MintState NFTTraits) :=
  flat_map (fun e => match e with SetMintState s => [s] | _ => [] end) t.

(** The position of a step in the progress of a mint. *)
Definition rank (s : Step.t) : nat :=
  match s with
  | Step.idle => 0
  | Step.analyzing => 1
  | Step.generating => 2
  | Step.uploading => 3
  | Step.minting => 4
  | Step.success => 5
  | Step.error => 6
  end.

(** [l] is in non-decreasing order. *)
Fixpoint ascending (l : list nat) : bool :=
  match l with
  | a :: (b :: _) as rest => (a <=? b)%nat && ascending rest
  | _ => true
  end.

(** The run of the [try] block of [mintNFT] with its [catch], from a
    state and an empty trace. *)
Definition run_pipeline (NFTTraits Blob Metadata MintTransaction : Type)
  (deps : Collaborators NFTTraits Blob Metadata MintTransaction)
  (h : HookValues) (address : string) (fid : Z) (pfpUrl : string)
  (current : MintState NFTTraits) : World NFTTraits :=
  snd (try_catch (pipeline deps h address fid pfpUrl) (@on_error NFTTraits)
         {| ui := current; trace := [] |}).

(** The first guard of [mintNFT] as the source writes it. *)
Definition missing_context (h : HookValues) : bool :=
  negb (isConnected h)
  || match nonempty (address h) with Some _ => false | None => true end
  || negb (walletClient h)
  || match fid h with Some f => (f =? 0)%Z | None => true end
  || match nonempty (pfpUrl h) with Some _ => false | None => true end.

(** A hook whose FID is marked as minted, with collaborators that all
    answer (over one-element data). *)
Definition sample_values : HookValues :=
  {| isConnected := true; address := Some "0x1234"; walletClient := true;
     publicClient := true; fid := Some 235940%Z;
     pfpUrl := Some "https://example.com/pfp.png";
     selectedGender := TraitGenerator.Male; hasAlreadyMinted := true;
     connection := true |}.

Definition sample_collaborators : Collaborators unit unit unit unit :=
  {| do_analyzePfpColor := fun _ =>
       Returned {| hexColor := "#DC2626"; dominantColor := "#DC2626" |};
     do_adjustColorForWinter := fun c => Returned c;
     do_generateTraits := fun _ _ _ => Returned tt;
     set_outfitColor := fun t _ => t;
     do_buildAIPrompt := fun _ => Returned "prompt";
     do_generateNFTImage := fun _ =>
       Returned {| compressedDataUrl := "data:image/png;base64," |};
     do_generateTokenId := fun f => Returned f;
     do_dataUrlToBlob := fun _ => Returned tt;
     do_generateMetadata := fun _ _ _ _ => Returned tt;
     do_pinataUploadImageWithMetadata := fun _ _ _ =>
       Returned {| image_gatewayUrl := "https://gateway.example/image";
                   metadata_ipfsUri := "ipfs://metadata" |};
     do_prepareMintTransaction := fun _ _ => Returned tt;
     do_sendTransaction := fun _ => Returned "0xhash";
     do_waitForTransactionReceipt := fun _ => Returned tt;
     do_recordNewMint := fun _ _ _ => Returned tt;
     do_saveNftMetadata := fun _ _ _ _ _ => Returned tt |}.

(** The same hook before its FID has minted. *)
Definition sample_ready : HookValues :=
  {| isConnected := true; address := Some "0x1234"; walletClient := true;
     publicClient := true; fid := Some 235940%Z;
     pfpUrl := Some "https://example.com/pfp.png";
     selectedGender := TraitGenerator.Male; hasAlreadyMinted := false;
     connection := true |}.

(** A hook without a connected wallet. *)
Definition sample_disconnected : HookValues :=
  {| isConnected := false; address := None; walletClient := false;
     publicClient := true; fid := Some 235940%Z;
     pfpUrl := Some "https://example.com/pfp.png";
     selectedGender := TraitGenerator.Male; hasAlreadyMinted := true;
     connection := true |}.

(** Collaborators among which the image generation throws. *)
Definition sample_image_fails : Collaborators unit unit unit unit :=
  {| do_analyzePfpColor := do_analyzePfpColor sample_collaborators;
     do_adjustColorForWinter := do_adjustColorForWinter sample_collaborators;
     do_generateTraits := do_generateTraits sample_collaborators;
     set_outfitColor := set_outfitColor sample_collaborators;
     do_buildAIPrompt := do_buildAIPrompt sample_collaborators;
     do_generateNFTImage := fun _ => Threw (ErrorObject "No images generated");
     do_generateTokenId := do_generateTokenId sample_collaborators;
     do_dataUrlToBlob := do_dataUrlToBlob sample_collaborators;
     do_generateMetadata := do_generateMetadata sample_collaborators;
     do_pinataUploadImageWithMetadata :=
       do_pinataUploadImageWithMetadata sample_collaborators;
     do_prepareMintTransaction := do_prepareMintTransaction sample_collaborators;
     do_sendTransaction := do_sendTransaction sample_collaborators;
     do_waitForTransactionReceipt :=
       do_waitForTransactionReceipt sample_collaborators;
     do_recordNewMint := do_recordNewMint sample_collaborators;
     do_saveNftMetadata := do_saveNftMetadata sample_collaborators |}.

(** Collaborators among which the [recordNewMint] reducer throws. *)
Definition sample_record_fails : Collaborators unit unit unit unit :=
  {| do_analyzePfpColor := do_analyzePfpColor sample_collaborators;
     do_adjustColorForWinter := do_adjustColorForWinter sample_collaborators;
     do_generateTraits := do_generateTraits sample_collaborators;
     set_outfitColor := set_outfitColor sample_collaborators;
     do_buildAIPrompt := do_buildAIPrompt sample_collaborators;
     do_generateNFTImage := do_generateNFTImage sample_collaborators;
     do_generateTokenId := do_generateTokenId sample_collaborators;
     do_dataUrlToBlob := do_dataUrlToBlob sample_collaborators;
     do_generateMetadata := do_generateMetadata sample_collaborators;
     do_pinataUploadImageWithMetadata :=
       do_pinataUploadImageWithMetadata sample_collaborators;
     do_prepareMintTransaction := do_prepareMintTransaction sample_collaborators;
     do_sendTransaction := do_sendTransaction sample_collaborators;
     do_waitForTransactionReceipt :=
       do_waitForTransactionReceipt sample_collaborators;
     do_recordNewMint := fun _ _ _ => Threw (ErrorObject "reducer failed");
     do_saveNftMetadata := do_saveNftMetadata sample_collaborators |}.

End MintHook.

(* ===================================================================== *)
(** * The database modules of [src/lib]: notification tokens and mints *)
(* ===================================================================== *)

Module Database.

Import MintHook.
Local Open Scope string_scope.
Local Open Scope list_scope.

(** The [error] of a Supabase answer. *)
Record DbError : Type := mkDbError {
  code : string;
  db_message : string
}.

(** The [{ data, error }] a Supabase query resolves to. *)
Record QueryResult (A : Type) : Type := mkQueryResult {
  data : option A;
  db_error : option DbError
}.

Arguments mkQueryResult {A} data db_error.

(** [error instanceof Error ? error.message : 'Unknown error']. *)
Definition caught_message (t : Thrown) : string :=
  match t with
  | ErrorObject m => m
  | NotAnError => "Unknown error"
  end.

Definition isSupabaseConfigured : bool := true.

(** ** [notification-tokens.ts] *)

Record TokenResult : Type := mkTokenResult {
  tr_success : bool;
  tr_token : option SendNotification.NotificationToken;
  tr_error : option string
}.

(** [getNotificationTokenByFid], given what its query comes to. *)
Definition getNotificationTokenByFid
  (query : Outcome (QueryResult SendNotification.NotificationToken))
  : TokenResult :=
  if negb isSupabaseConfigured then
    {| tr_success := false; tr_token := None;
       tr_error := Some "Supabase not configured" |}
  else
    match query with
    | Returned r =>
        match db_error r with
        | Some e =>
            if String.eqb (code e) "PGRST116"
            then {| tr_success := true; tr_token := None; tr_error := None |}
            else {| tr_success := false; tr_token := None;
                    tr_error := Some (db_message e) |}
        | None =>
            {| tr_success := true; tr_token := data r; tr_error := None |}
        end
    | Threw t =>
        {| tr_success := false; tr_token := None;
           tr_error := Some (caught_message t) |}
    end.

(** [getActiveNotificationTokens], given what its query comes to. *)
Definition getActiveNotificationTokens
  (query : Outcome (QueryResult (list SendNotification.NotificationToken)))
  : SendNotification.ActiveTokensResult :=
  if negb isSupabaseConfigured then
    {| SendNotification.active_success := false;
       SendNotification.active_tokens := Some [];
       SendNotification.active_error := Some "Supabase not configured" |}
  else
    match query with
    | Returned r =>
        match db_error r with
        | Some e =>
            {| SendNotification.active_success := false;
               SendNotification.active_tokens := None;
               SendNotification.active_error := Some (db_message e) |}
        | None =>
            {| SendNotification.active_success := true;
               SendNotification.active_tokens :=
                 Some (match data r with Some rows => rows | None => [] end);
               SendNotification.active_error := None |}
        end
    | Threw t =>
        {| SendNotification.active_success := false;
           SendNotification.active_tokens := None;
           SendNotification.active_error := Some (caught_message t) |}
    end.

(** The part of a [TokenResult] the send-notification route reads. *)
Definition as_lookup (r : TokenResult) : SendNotification.TokenByFidResult :=
  {| SendNotification.byfid_success := tr_success r;
     SendNotification.byfid_token := tr_token r |}.

(** A query is answered with an error, or rejects. *)
Definition query_fails (A : Type) (query : Outcome (QueryResult A)) : Prop :=
  (exists r e, query = Returned r /\ db_error r = Some e)
  \/ (exists t, query = Threw t).

(** The message the wrappers report for a failed query. *)
Definition failure_message (A : Type) (query : Outcome (QueryResult A)) : string :=
  match query with
  | Returned r =>
      match db_error r with Some e => db_message e | None => EmptyString end
  | Threw t => caught_message t
  end.

(** A token table that answers every query with an error. *)
Definition sample_broken (A : Type) : Outcome (QueryResult A) :=
  Returned {| data := None;
              db_error := Some {| code := "08006";
                                  db_message := "connection failure" |} |}.

End Database.

(* ===================================================================== *)
(** * [src/lib/pfp-analyzer.ts]: the colour helpers *)
(* ===================================================================== *)

Module PfpAnalyzer.

Import JS.
Local Open Scope string_scope.

(** [Math.round]: the nearest integer, a tie going up; [-0] for a
    negative number that rounds to zero. *)
Definition Math_round (x : float) : float :=
  let f := Math_floor x in
  if (0.5 <=? x - f)%float
  then (if (f + 1 =? 0) && (x <? 0) then - 0 else f + 1)%float
  else f.

(** [parseInt(s, 16)] of a string of two hexadecimal digits, which is
    what the groups of the pattern of [hexToRgb] hold. *)
Definition channel (a b : ascii) : option Z :=
  match hex_digit a, hex_digit b with
  | Some _, Some _ => hex_prefix None (String a (String b EmptyString))
  | _, _ => None
  end.

(** [hexToRgb]: the pattern is an optional [#], six hexadecimal digits
    of either case, and the end of the string; [None] is [null]. *)
Definition hexToRgb (hex : string) : option (Z * Z * Z) :=
  let digits := match hex with String "#" rest => rest | _ => hex end in
  match digits with
  | String a (String b (String c (String d (String e (String f EmptyString))))) =>
      match channel a b, channel c d, channel e f with
      | Some r, Some g, Some b => Some (r, g, b)
      | _, _, _ => None
      end
  | _ => None
  end.

(** [x.toString(16)] for an integer [x]. *)
Definition toString16 (x : Z) : string :=
  HexadecimalString.NilZero.string_of_int (Z.to_hex_int x).

(** [s.padStart(2, '0')]. *)
Definition padStart2 (s : string) : string :=
  match s with
  | EmptyString => "00"
  | String a EmptyString => String "0" (String a EmptyString)
  | _ => s
  end.

(** [rgbToHex], on integers. *)
Definition rgbToHex (r g b : Z) : string :=
  "#" ++ padStart2 (toString16 r) ++ padStart2 (toString16 g)
      ++ padStart2 (toString16 b).

(** [Math.min(255, Math.round(x + (x - min) * boost))] with
    [boost = 1.3], as a number. *)
Definition boosted_number (x min : Z) : float :=
  Math_min2 255
    (Math_round (number_of_Z x + (number_of_Z x - number_of_Z min) * 1.3))%float.

(** The same as the integer it is: for a channel and a minimum between
    0 and 255 the number is a non-negative integer (see
    [boosted_number_is_integer]). *)
Definition boosted (x min : Z) : Z :=
  match index_of_number (boosted_number x min) with
  | Some z => z
  | None => 0%Z
  end.

Definition enhanceColorForChristmas (hex : string) : string :=
  match hexToRgb hex with
  | None => hex
  | Some (r, g, b) =>
      let max := Z.max (Z.max r g) b in
      let min := Z.min (Z.min r g) b in
      let delta := (max - min)%Z in
      if (delta =? 0)%Z then "#DC2626"
      else rgbToHex (boosted r min) (boosted g min) (boosted b min)
  end.

(** The integers from 0 to 255, and the 256 code units of a string. *)
Definition bytes : list Z := map Z.of_nat (seq 0 256).
Definition code_units : list ascii := map ascii_of_nat (seq 0 256).

(** The six digits of a colour, without its [#]. *)
Definition digits_of (hex : string) : string :=
  match hex with String "#" rest => rest | _ => hex end.

Local Open Scope Z_scope.

(** Written with two digits, the integer reads back as itself. *)
Definition pair_ok (z : Z) : bool :=
  match padStart2 (toString16 z) with
  | String a (String b EmptyString) =>
      match channel a b with
      | Some z' => (z' =? z)
      | None => false
      end
  | _ => false
  end.

(** Two digits that read as an integer are written back in lower case. *)
Definition digits_ok (a b : ascii) : bool :=
  match channel a b with
  | None => true
  | Some z =>
      (0 <=? z) && (z <=? 255)
      && String.eqb (padStart2 (toString16 z))
                    (String (lower_unit a) (String (lower_unit b) EmptyString))
  end.

(** The boosted number is the integer the rounding rule gives. *)
Definition boost_ok (x min : Z) : bool :=
  if min <=? x then
    match index_of_number (boosted_number x min) with
    | Some z => z =? Z.min 255 (x + (13 * (x - min) + 5) / 10)
    | None => false
    end
  else true.

End PfpAnalyzer.

(* ===================================================================== *)
(** * [src/app/api/generate-nft/route.ts] *)
(* ===================================================================== *)

Module GenerateNft.

Import JS MintHook TraitGenerator.
Local Open Scope string_scope.
Local Open Scope list_scope.

(** The fields the route reads from the JSON body, at the types
    [generateTraits] declares for them; [None] is a missing key. *)
Record Body : Type := mkBody {
  fid : option float;
  gender : option Gender;
  dominantColor : option string
}.

(** [!fid] for a number: zero of either sign and NaN. *)
Definition falsy_number (x : option float) : bool :=
  match x with
  | None => true
  | Some n => (n =? 0)%float || is_nan n
  end.

(** The calls to the image service, in order. *)
Inductive FluxCall : Type :=
| Submit (prompt : string)
| PollStatus (requestId : string)
| FetchImages (requestId : string).

Inductive Response : Type :=
| Generated (imageUrl : string) (traits : WinterCheerTraits)
    (attributes : list Attribute)
| Failed (status : Z) (error : string).

Section Route.

Variable Math_sin : float -> float.

(** The image service; [fluxproFetchImages] may resolve to nothing
    ([None]) or to the URLs of the images. *)
Variable fluxproSubmit : string -> Outcome string.
Variable fluxproPollStatus : string -> Outcome unit.
Variable fluxproFetchImages : string -> Outcome (option (list string)).

(** The message of the [TypeError] the engine throws for
    [undefined.toLowerCase()]. *)
Variable type_error_message : string.

(** The [catch] block. *)
Definition failure (t : Thrown) : Response :=
  Failed 500
    ("Failed to generate NFT: "
     ++ match t with
        | ErrorObject message => message
        | NotAnError => "Unknown error"
        end)%string.

Definition POST (body : Body) : Response * list FluxCall :=
  match fid body, gender body, dominantColor body with
  | Some fid_, Some gender_, Some (String c color) =>
      if falsy_number (Some fid_) then
        (Failed 400 "Missing required fields: fid, gender, dominantColor", [])
      else
        let traits := generateTraits Math_sin fid_ gender_ (String c color) in
        match buildPromptFromTraits traits with
        | None => (failure (ErrorObject type_error_message), [])
        | Some prompt =>
            match fluxproSubmit prompt with
            | Threw t => (failure t, [Submit prompt])
            | Returned requestId =>
                match fluxproPollStatus requestId with
                | Threw t => (failure t, [Submit prompt; PollStatus requestId])
                | Returned _ =>
                    let calls :=
                      [Submit prompt; PollStatus requestId; FetchImages requestId] in
                    match fluxproFetchImages requestId with
                    | Threw t => (failure t, calls)
                    | Returned (Some (imageUrl :: _)) =>
                        (Generated imageUrl traits (traitsToAttributes traits), calls)
                    | Returned _ =>
                        (failure (ErrorObject "No images generated"), calls)
                    end
                end
            end
        end
  | _, _, _ =>
      (Failed 400 "Missing required fields: fid, gender, dominantColor", [])
  end.

End Route.

(** A request for FID 0, and an image service that answers. *)
Definition sample_zero : Body :=
  {| fid := Some 0%float; gender := Some Male; dominantColor := Some "#DC2626" |}.

Definition sample_body : Body :=
  {| fid := Some 5%float; gender := Some Male; dominantColor := Some "#DC2626" |}.

Definition sample_sine (x : float) : float := 0.5%float.
Definition sample_submit (prompt : string) : Outcome string := Returned "request-1".
Definition sample_poll (requestId : string) : Outcome unit := Returned tt.
Definition sample_images (requestId : string) : Outcome (option (list string)) :=
  Returned (Some ["https://images.example/1.png"]).
Definition sample_no_images (requestId : string) : Outcome (option (list string)) :=
  Returned (Some []).

End GenerateNft.

(* ===================================================================== *)
(** * [src/pinata-media-api.ts]: [slugify] *)
(* ===================================================================== *)

Module Pinata.

Import JS.
Local Open Scope string_scope.

Definition is_dash (c : ascii) : bool := Ascii.eqb c "-".

(** The class [[a-z0-9]]. *)
Definition is_alnum (c : ascii) : bool :=
  let n := nat_of_ascii c in
  ((97 <=? n) && (n <=? 122) || (48 <=? n) && (n <=? 57))%nat.

(** [.replace(/[^a-z0-9]+/g, '-')]: every run of other characters
    becomes one dash; [in_run] tells that the run has begun. *)
Fixpoint dash_runs (in_run : bool) (s : string) : string :=
  match s with
  | EmptyString => EmptyString
  | String c rest =>
      if is_alnum c then String c (dash_runs false rest)
      else if in_run then dash_runs true rest
      else String "-" (dash_runs true rest)
  end.

(** [.replace(/^-+|-+$/g, '')]: the dashes at the start and at the end
    go. *)
Fixpoint strip_leading (s : string) : string :=
  match s with
  | String c rest => if is_dash c then strip_leading rest else s
  | EmptyString => s
  end.

Fixpoint strip_trailing (s : string) : string :=
  match s with
  | EmptyString => EmptyString
  | String c rest =>
      match strip_trailing rest with
      | EmptyString => if is_dash c then EmptyString else String c EmptyString
      | kept => String c kept
      end
  end.

Definition starts_with_dash (s : string) : bool :=
  match s with
  | String c _ => is_dash c
  | EmptyString => false
  end.

(** [.replace(/-{2,}/g, '-')]: a dash before a dash goes. *)
Fixpoint collapse (s : string) : string :=
  match s with
  | EmptyString => EmptyString
  | String c rest =>
      if is_dash c && starts_with_dash rest then collapse rest
      else String c (collapse rest)
  end.

Definition slugify (value : string) : string :=
  match
    collapse (strip_trailing (strip_leading (dash_runs false (toLowerCase value))))
  with
  | EmptyString => "metadata"
  | slug => slug
  end.

(** ** Slugs *)

Fixpoint all_slug_chars (s : string) : bool :=
  match s with
  | EmptyString => true
  | String c rest => (is_alnum c || is_dash c) && all_slug_chars rest
  end.

Fixpoint no_double_dash (s : string) : bool :=
  match s with
  | EmptyString => true
  | String c rest => negb (is_dash c && starts_with_dash rest) && no_double_dash rest
  end.

Fixpoint ends_with_dash (s : string) : bool :=
  match s with
  | EmptyString => false
  | String c EmptyString => is_dash c
  | String _ rest => ends_with_dash rest
  end.

(** A slug: not empty, made of lower-case letters, digits and single
    dashes, none of them first or last. *)
Definition is_slug (s : string) : bool :=
  match s with
  | EmptyString => false
  | _ => all_slug_chars s && no_double_dash s
         && negb (starts_with_dash s) && negb (ends_with_dash s)
  end.

End Pinata.

(* ===================================================================== *)
(** * JSON values *)
(* ===================================================================== *)

Module Json.

Local Open Scope string_scope.

(** What [JSON.parse] returns.  The fields of an object are its own
    properties, each key once. *)
#[local] Unset Elimination Schemes.

Inductive value : Type :=
| Null
| Bool (b : bool)
| Number (n : float)
| Str (s : string)
| Array (items : list value)
| Object (fields : list (string * value)).

#[local] Set Elimination Schemes.

Fixpoint lookup (key : string) (fields : list (string * value)) : option value :=
  match fields with
  | [] => None
  | (k, v) :: rest => if String.eqb k key then Some v else lookup key rest
  end.

(** [v.key] for a [v] other than [null], and a key that is neither
    [length] nor an index nor a method: [None] is [undefined]. *)
Definition get (key : string) (v : value) : option value :=
  match v with
  | Object fields => lookup key fields
  | _ => None
  end.

(** [v.key] where [v] itself may be [undefined]. *)
Definition get_opt (key : string) (v : option value) : option value :=
  match v with
  | Some v => get key v
  | None => None
  end.

(** [Boolean(v)]. *)
Definition truthy (v : option value) : bool :=
  match v with
  | None | Some Null => false
  | Some (Bool b) => b
  | Some (Number n) => negb ((n =? 0)%float || is_nan n)
  | Some (Str s) => negb (String.eqb s EmptyString)
  | Some (Array _) | Some (Object _) => true
  end.

(** [typeof v === 'object' && v !== null]. *)
Definition is_object (v : option value) : bool :=
  match v with
  | Some (Array _) | Some (Object _) => true
  | _ => false
  end.

(** [typeof v === 'number' ? v : undefined]. *)
Definition as_number (v : option value) : option float :=
  match v with
  | Some (Number n) => Some n
  | _ => None
  end.

(** [v === s] for a string literal [s]. *)
Definition is_string (s : string) (v : option value) : bool :=
  match v with
  | Some (Str s') => String.eqb s' s
  | _ => false
  end.

End Json.

(* ===================================================================== *)
(** * [src/app/api/farcaster-webhook/route.ts] *)
(* ===================================================================== *)

Module Webhook.

Import Json.
Local Open Scope string_scope.
Local Open Scope list_scope.

(** What [parseWebhookEvent] rejects with: an object whose [name] is a
    string, an object or primitive without one, or [undefined] / [null]. *)
Inductive Rejection : Type :=
| Named (name message : string)
| Nameless
| Nullish.

Inductive Verification : Type :=
| Verified (data : value)
| Rejected (e : Rejection).

(** The calls to [notification-tokens.ts]. *)
Inductive StoreCall : Type :=
| SaveToken (fid : float) (token notificationUrl : option value)
| DeactivateToken (fid : float).

(** The response: its status, and the [success], [error], [event] and
    [verified] fields of its body ([timestamp] is left out). *)
Record Response : Type := mkResponse {
  status : Z;
  success : bool;
  error : option string;
  event : option value;
  verified : option bool
}.

Definition refuse (status_ : Z) (message : string) : Response :=
  {| status := status_; success := false; error := Some message;
     event := None; verified := None |}.

(** [extractFidFromPayload], for a payload other than [null]. *)
Definition extractFidFromPayload (payload : value) : option float :=
  match as_number (get "fid" payload) with
  | Some fid => Some fid
  | None =>
      match
        (if is_object (get "user" payload)
         then as_number (get_opt "fid" (get "user" payload)) else None)
      with
      | Some fid => Some fid
      | None =>
          match
            (if is_object (get "data" payload)
             then as_number (get_opt "fid" (get "data" payload)) else None)
          with
          | Some fid => Some fid
          | None =>
              if is_object (get "untrustedData" payload)
              then as_number (get_opt "fid" (get "untrustedData" payload))
              else None
          end
      end
  end.

(** [if (... && fid)] for the extracted FID: a number other than zero
    and NaN. *)
Definition usable (fid : option float) : option float :=
  match fid with
  | Some n => if (n =? 0)%float || is_nan n then None else Some n
  | None => None
  end.

Section Route.

(** [process.env.NEYNAR_API_KEY]. *)
Variable NEYNAR_API_KEY : option string.

(** [parseWebhookEvent(requestJson, verifyAppKeyWithNeynar)]. *)
Variable parseWebhookEvent : value -> Verification.

(** The message of the [TypeError] the engine throws for reading or
    calling [property] of [receiver]. *)
Variable type_error_message : option value -> string -> string.

Definition key_is_set : bool :=
  match NEYNAR_API_KEY with
  | Some (String _ _) => true
  | _ => false
  end.

(** The outer [catch], reached with a [TypeError]. *)
Definition processing_error (receiver : option value) (property : string)
  : Response :=
  refuse 500 (type_error_message receiver property).

Definition received (verifiedData : value) : Response :=
  {| status := 200; success := true; error := None;
     event := get "event" verifiedData; verified := Some key_is_set |}.

(** The [switch] on the event of the verified payload. *)
Definition handle (verifiedData : value) : Response * list StoreCall :=
  let fid := usable (extractFidFromPayload verifiedData) in
  let details := get "notificationDetails" verifiedData in
  let event_ := get "event" verifiedData in
  if is_string "miniapp_added" event_ then
    match truthy details, fid with
    | true, Some fid =>
        let url := get_opt "url" details in
        let token := get_opt "token" details in
        match url with
        | Some (Str _) =>
            match token with
            | None | Some Null => (processing_error token "length", [])
            | Some _ =>
                (received verifiedData, [SaveToken fid token url])
            end
        | _ => (processing_error url "substring", [])
        end
    | _, _ => (received verifiedData, [])
    end
  else if is_string "miniapp_removed" event_ then
    match fid with
    | Some fid => (received verifiedData, [DeactivateToken fid])
    | None => (received verifiedData, [])
    end
  else if is_string "notifications_enabled" event_ then
    match truthy details, fid with
    | true, Some fid =>
        (received verifiedData,
         [SaveToken fid (get_opt "token" details) (get_opt "url" details)])
    | _, _ => (received verifiedData, [])
    end
  else if is_string "notifications_disabled" event_ then
    match fid with
    | Some fid => (received verifiedData, [DeactivateToken fid])
    | None => (received verifiedData, [])
    end
  else (received verifiedData, []).

(** The [switch] on the name of what the verification threw. *)
Definition verification_failure (e : Rejection) : Response :=
  match e with
  | Named name _ =>
      if String.eqb name "VerifyJsonFarcasterSignature.InvalidDataError"
         || String.eqb name "VerifyJsonFarcasterSignature.InvalidEventDataError"
      then refuse 400 "Invalid request data"
      else if String.eqb name "VerifyJsonFarcasterSignature.InvalidAppKeyError"
      then refuse 401 "Invalid app key"
      else if String.eqb name "VerifyJsonFarcasterSignature.VerifyAppKeyError"
      then refuse 500 "Verification error"
      else refuse 500 "Verification failed"
  | Nameless => refuse 500 "Verification failed"
  | Nullish => processing_error None "name"
  end.

(** [POST], given what [JSON.parse] makes of the body ([None] when it
    throws): the response and the calls to the token store. *)
Definition POST (requestJson : option value) : Response * list StoreCall :=
  match requestJson with
  | None => (refuse 400 "Invalid JSON", [])
  | Some Null => (processing_error (Some Null) "event", [])
  | Some requestJson =>
      if key_is_set then
        match parseWebhookEvent requestJson with
        | Rejected e => (verification_failure e, [])
        | Verified Null => (processing_error (Some Null) "fid", [])
        | Verified verifiedData => handle verifiedData
        end
      else handle requestJson
  end.

End Route.

(** The body that asks to forget the notification token of [fid]. *)
Definition removal (fid : float) : value :=
  Object [("event", Str "miniapp_removed"); ("fid", Number fid)].

(** [verifiedData] is what the route goes on with for [requestJson]. *)
Definition goes_on_with (NEYNAR_API_KEY : option string)
  (parseWebhookEvent : value -> Verification) (requestJson verifiedData : value)
  : Prop :=
  requestJson <> Null /\ verifiedData <> Null
  /\ (key_is_set NEYNAR_API_KEY = false /\ verifiedData = requestJson
      \/ key_is_set NEYNAR_API_KEY = true
         /\ parseWebhookEvent requestJson = Verified verifiedData).

(** Notification details without a URL. *)
Definition sample_enabled : value :=
  Object [("event", Str "notifications_enabled"); ("fid", Number 7);
          ("notificationDetails", Object [("token", Str "t-7")])].

Definition sample_added : value :=
  Object [("event", Str "miniapp_added"); ("fid", Number 7);
          ("notificationDetails", Object [("token", Str "t-7")])].

(** A removal whose top-level FID is 0 while the user object names 7. *)
Definition sample_zero_fid : value :=
  Object [("event", Str "miniapp_removed"); ("fid", Number 0);
          ("user", Object [("fid", Number 7)])].

Definition sample_reject (requestJson : value) : Verification :=
  Rejected (Named "VerifyJsonFarcasterSignature.InvalidAppKeyError" "bad key").

Definition sample_type_error (receiver : option value) (property : string)
  : string := "TypeError".

(** The events that end in a call to the token store. *)
Definition saving_event (v : option value) : bool :=
  is_string "miniapp_added" v || is_string "notifications_enabled" v.

Definition removing_event (v : option value) : bool :=
  is_string "miniapp_removed" v || is_string "notifications_disabled" v.

End Webhook.

(* ===================================================================== *)
(** * [db-operations.ts] *)
(* ===================================================================== *)

Module DbOperations.

Import MintHook Database.
Local Open Scope string_scope.
Local Open Scope list_scope.

(** [interface MintStats]. *)
Record MintStats : Type := mkMintStats {
  id : float;
  total_minted : float;
  max_supply : float;
  updated_at : string
}.

(** The answer is an error other than "no rows". *)
Definition other_error (A : Type) (r : QueryResult A) : bool :=
  match db_error r with
  | Some e => negb (String.eqb (code e) "PGRST116")
  | None => false
  end.

(** [checkFIDMinted], given what its query comes to. *)
Definition checkFIDMinted (query : Outcome (QueryResult float)) : bool :=
  if negb isSupabaseConfigured then false
  else
    match query with
    | Returned r =>
        if other_error r then false
        else match data r with Some _ => true | None => false end
    | Threw _ => false
    end.

(** [getMintStats]; [now] is the current time as an ISO string. *)
Definition getMintStats (now : string) (query : Outcome (QueryResult MintStats))
  : option MintStats :=
  if negb isSupabaseConfigured then
    Some {| id := 1; total_minted := 0; max_supply := 10000; updated_at := now |}
  else
    match query with
    | Returned r =>
        match db_error r with
        | Some _ => None
        | None => data r
        end
    | Threw _ => None
    end.

(** [getNFTByFID]. *)
Definition getNFTByFID (MintedNFT : Type)
  (query : Outcome (QueryResult MintedNFT)) : option MintedNFT :=
  if negb isSupabaseConfigured then None
  else
    match query with
    | Returned r => if other_error r then None else data r
    | Threw _ => None
    end.

(** The calls [recordMint] makes. *)
Inductive Write (MintData : Type) : Type :=
| Insert (mintData : MintData)
| IncrementMintedCount.

Arguments IncrementMintedCount {MintData}.

(** [recordMint]: the insert, then the counter; an insert answered with
    an error throws, a counter answered with an error is logged. *)
Definition recordMint (MintData : Type)
  (insert : MintData -> Outcome (option DbError))
  (increment_minted_count : Outcome (option DbError))
  (mintData : MintData) : Outcome unit * list (Write MintData) :=
  if negb isSupabaseConfigured then (Returned tt, [])
  else
    match insert mintData with
    | Threw t => (Threw t, [Insert mintData])
    | Returned (Some mintError) =>
        (Threw (ErrorObject ("Failed to record mint: " ++ db_message mintError)),
         [Insert mintData])
    | Returned None =>
        match increment_minted_count with
        | Threw t => (Threw t, [Insert mintData; IncrementMintedCount])
        | Returned _ => (Returned tt, [Insert mintData; IncrementMintedCount])
        end
    end.

End DbOperations.

(* ===================================================================== *)
(** * [src/app/api/check-mint-status/route.ts] *)
(* ===================================================================== *)

Module CheckMintStatus.

Import JS MintHook Database DbOperations.
Local Open Scope string_scope.
Local Open Scope list_scope.

(** The number nearest to a non-negative integer, ties to even. *)
Definition number_of_integer (z : Z) : float :=
  if (z <? 2 ^ 63)%Z then PrimFloat.of_uint63 (Uint63.of_Z z)
  else
    let e := (Z.log2 z - 62)%Z in
    let q := (z / 2 ^ e)%Z in
    let sticky := if (z mod 2 ^ e =? 0)%Z then 0%Z else 1%Z in
    Z.ldexp (PrimFloat.of_uint63 (Uint63.of_Z (Z.lor q sticky))) e.

Definition dec_digit (c : ascii) : option Z :=
  let n := Z.of_nat (nat_of_ascii c) in
  if ((48 <=? n) && (n <=? 57))%Z then Some (n - 48)%Z else None.

(** The longest prefix of decimal digits, read as an integer; [None]
    when the prefix is empty. *)
Fixpoint dec_prefix (acc : option Z) (s : string) : option Z :=
  match s with
  | EmptyString => acc
  | String c s' =>
      match dec_digit c with
      | Some d =>
          dec_prefix (Some (match acc with Some a => 10 * a + d | None => d end)%Z) s'
      | None => acc
      end
  end.

(** [parseInt(s, 10)]. *)
Definition parseInt10 (s : string) : float :=
  let (neg, s1) := strip_sign (trim_start s) in
  match dec_prefix None s1 with
  | None => nan
  | Some z => if neg then (- number_of_integer z)%float else number_of_integer z
  end.

(** [x || fallback] for a number [x]. *)
Definition or_number (x : option float) (fallback : float) : float :=
  match x with
  | Some n => if (n =? 0)%float || is_nan n then fallback else n
  | None => fallback
  end.

Inductive Query : Type :=
| CheckMinted (fid : float)
| Stats
| NftByFid (fid : float).

Section Route.

Variable MintedNFT : Type.

Inductive Response : Type :=
| Status (fid : float) (hasMinted : bool) (nft : option MintedNFT)
    (totalMinted maxSupply remaining : float)
| Refused (status : Z) (error : string).

(** What the three queries come to. *)
Variable minted_query : float -> Outcome (QueryResult float).
Variable stats_query : Outcome (QueryResult MintStats).
Variable nft_query : float -> Outcome (QueryResult MintedNFT).
Variable now : string.

(** [GET], given [searchParams.get('fid')] ([None] is [null]): the
    response and the queries made. *)
Definition GET (fidParam : option string) : Response * list Query :=
  match fidParam with
  | None | Some EmptyString => (Refused 400 "Missing FID parameter", [])
  | Some fidParam =>
      let fid := parseInt10 fidParam in
      if is_nan fid then (Refused 400 "Invalid FID", [])
      else
        let hasMinted := checkFIDMinted (minted_query fid) in
        let stats := getMintStats now stats_query in
        let nft := if hasMinted then getNFTByFID (nft_query fid) else None in
        let totalMinted := or_number (option_map total_minted stats) 0 in
        let maxSupply := or_number (option_map max_supply stats) 10000 in
        (Status fid hasMinted nft totalMinted maxSupply
           (or_number (option_map max_supply stats) 10000
            - or_number (option_map total_minted stats) 0)%float,
         [CheckMinted fid; Stats] ++ (if hasMinted then [NftByFid fid] else []))
  end.

End Route.

Arguments Refused {MintedNFT} status error.

(** The minted row was found: the query resolved with a row and with no
    error, or with the "no rows" error. *)
Definition row_found (query : Outcome (QueryResult float)) : Prop :=
  exists r row, query = Returned r /\ data r = Some row /\ other_error r = false.

(** A table that answers every query with an error. *)
Definition sample_down (A : Type) : Outcome (QueryResult A) :=
  Returned {| data := None;
              db_error := Some {| code := "500"; db_message := "down" |} |}.

(** Statistics whose supply is zero. *)
Definition sample_stats : Outcome (QueryResult MintStats) :=
  Returned {| data := Some {| id := 1; total_minted := 3; max_supply := 0;
                              updated_at := "2025-12-01" |};
              db_error := None |}.

End CheckMintStatus.

(* ===================================================================== *)
(** * The record-mint route *)
(* ===================================================================== *)

Module RecordMint.

Import Json MintHook Database DbOperations.
Local Open Scope string_scope.
Local Open Scope list_scope.

(** The nine fields handed to [recordMint]; [None] is [undefined]. *)
Record MintData : Type := mkMintData {
  fid : option value;
  username : option value;
  token_id : option value;
  image_ipfs_uri : option value;
  image_gateway_url : option value;
  metadata_ipfs_uri : option value;
  metadata_gateway_url : option value;
  traits : option value;
  tx_hash : option value
}.

(** The destructuring of the body. *)
Definition fields_of (body : value) : MintData :=
  {| fid := get "fid" body;
     username := get "username" body;
     token_id := get "token_id" body;
     image_ipfs_uri := get "image_ipfs_uri" body;
     image_gateway_url := get "image_gateway_url" body;
     metadata_ipfs_uri := get "metadata_ipfs_uri" body;
     metadata_gateway_url := get "metadata_gateway_url" body;
     traits := get "traits" body;
     tx_hash := get "tx_hash" body |}.

Definition is_undefined (v : option value) : bool :=
  match v with None => true | Some _ => false end.

(** The condition of the 400 answer. *)
Definition incomplete (d : MintData) : bool :=
  negb (truthy (fid d)) || negb (truthy (username d))
  || is_undefined (token_id d)
  || negb (truthy (image_ipfs_uri d)) || negb (truthy (image_gateway_url d))
  || negb (truthy (metadata_ipfs_uri d)) || negb (truthy (metadata_gateway_url d))
  || negb (truthy (traits d)) || negb (truthy (tx_hash d)).

Inductive Response : Type :=
| Recorded
| Refused (status : Z) (error : string).

Section Route.

Variable insert : MintData -> Outcome (option DbError).
Variable increment_minted_count : Outcome (option DbError).

(** The message of the [TypeError] for destructuring [null]. *)
Variable type_error_message : string.

(** The [catch] block. *)
Definition failure (t : Thrown) : Response :=
  Refused 500 ("Failed to record mint: " ++ caught_message t).

(** [POST], given what [request.json()] comes to. *)
Definition POST (body : Outcome value) : Response * list (Write MintData) :=
  match body with
  | Threw t => (failure t, [])
  | Returned Null => (failure (ErrorObject type_error_message), [])
  | Returned body =>
      let d := fields_of body in
      if incomplete d then (Refused 400 "Missing required fields", [])
      else
        match recordMint insert increment_minted_count d with
        | (Returned _, writes) => (Recorded, writes)
        | (Threw t, writes) => (failure t, writes)
        end
  end.

End Route.

Definition sample_mint : value :=
  Object [("fid", Number 7); ("username", Str "frosty"); ("token_id", Number 0);
          ("image_ipfs_uri", Str "ipfs://image");
          ("image_gateway_url", Str "https://gateway/image");
          ("metadata_ipfs_uri", Str "ipfs://metadata");
          ("metadata_gateway_url", Str "https://gateway/metadata");
          ("traits", Object []); ("tx_hash", Str "0xabc")].

(** The same mint for FID 0. *)
Definition sample_mint_zero : value :=
  Object [("fid", Number 0); ("username", Str "frosty"); ("token_id", Number 0);
          ("image_ipfs_uri", Str "ipfs://image");
          ("image_gateway_url", Str "https://gateway/image");
          ("metadata_ipfs_uri", Str "ipfs://metadata");
          ("metadata_gateway_url", Str "https://gateway/metadata");
          ("traits", Object []); ("tx_hash", Str "0xabc")].

Definition sample_insert_ok (d : MintData) : Outcome (option DbError) :=
  Returned None.

Definition sample_insert_refused (d : MintData) : Outcome (option DbError) :=
  Returned (Some {| code := "23505"; db_message := "duplicate key" |}).

Definition sample_counter_refused : Outcome (option DbError) :=
  Returned (Some {| code := "42883"; db_message := "no such function" |}).

End RecordMint.

(* ===================================================================== *)
(** * Properties of the trait generator and the prompt builder *)
(* ===================================================================== *)

Section TraitGeneratorFacts.

Import JS TraitGenerator.
Local Open Scope string_scope.

(** ** Picks *)

(** Whatever [Math.sin] returns, a pick that is not [undefined] is an
    element of the array it was taken from. *)
Lemma pickRandom_In (Math_sin : float -> float) (T : Type) (array : list T)
  (fid seed : float) (v : T) :
  pickRandom Math_sin array fid seed = Some v -> In v array.
Proof.
  unfold pickRandom, array_get.
  destruct (index_of_number _) as [z|]; [|discriminate].
  destruct (z <? _)%Z; [|discriminate].
  apply nth_error_In.
Qed.

(** The subtraction [x - Math.floor(x)] rounds: for a negative [x] of
    tiny magnitude it is [1], not a value below [1]. *)
Remark fraction_rounds_to_one :
  let x := (- 0x1p-60)%float in
  (x - Math_floor x)%float = 1%float.
Proof. vm_compute. reflexivity. Qed.

(** With a sine that returns such a value, [seededRandom] is [1], the
    index is the length of the array and the pick is [undefined]: that
    a pick is never [undefined] rests on the values of the engine's
    [Math.sin], which are not part of this development. *)
Remark pickRandom_undefined_for_tiny_negative_sine :
  let Math_sin := fun _ : float => (- 0x1p-80)%float in
  seededRandom Math_sin 5 1 = 1%float
  /\ pickRandom Math_sin SKIN_TONES 5 1 = None.
Proof. vm_compute. split; reflexivity. Qed.

(** C2 -- determinism of [generateTraits]: the record it returns is
    fixed by its three arguments and by the values of the engine's
    [Math.sin] at the eight points [fid * 12.9898 + seed * 78.233],
    [seed] from 1 to 8, and by nothing else.  Two calls with the same
    identifier, gender and colour return the same record, field by
    field, whatever else differs between them, the rest of the sine
    included. *)
Theorem generateTraits_reads_sine_at_eight_points
  (sin1 sin2 : float -> float) (fid : float) (g : Gender) (color : string) :
  Forall (fun seed : float =>
            sin1 (fid * 12.9898 + seed * 78.233)%float
            = sin2 (fid * 12.9898 + seed * 78.233)%float)
         [1; 2; 3; 4; 5; 6; 7; 8]%float ->
  generateTraits sin1 fid g color = generateTraits sin2 fid g color.
Proof.
  intros H.
  repeat match goal with
         | H : Forall _ (_ :: _) |- _ => inversion H; clear H; subst
         end.
  unfold generateTraits, pickRandom, seededRandom.
  repeat match goal with
         | E : sin1 _ = sin2 _ |- _ => rewrite E; clear E
         end.
  reflexivity.
Qed.

(** C2 at FID 5, for two sines that agree at the eight points and
    differ elsewhere. *)
Lemma generateTraits_reads_sine_at_eight_points_witness :
  (if (2000 <? 1000)%float then 0.5%float else 0.9%float) <> 0.5%float
  /\ generateTraits (fun _ => 0.5%float) 5 Male "#DC2626"
     = generateTraits
         (fun x => if (x <? 1000)%float then 0.5%float else 0.9%float)
         5 Male "#DC2626".
Proof.
  split.
  - vm_compute. intros H.
    assert (E : (0.9 =? 0.5)%float = true) by (rewrite H; reflexivity).
    vm_compute in E. discriminate E.
  - apply generateTraits_reads_sine_at_eight_points.
    repeat (apply Forall_cons; [vm_compute; reflexivity|]).
    apply Forall_nil.
Defined.

(** C3 -- colour mirroring: both colour fields of the record returned by
    [generateTraits] are the supplied colour. *)
Theorem generateTraits_mirrors_color (Math_sin : float -> float)
  (fid : float) (g : Gender) (color : string) :
  let traits := generateTraits Math_sin fid g color in
  hairColor traits = color /\ outfitColor traits = color
  /\ hairColor traits = outfitColor traits.
Proof. intros traits. repeat split. Qed.

(** C4 -- the eight picked fields depend on the identifier alone: calls
    that differ in gender, in colour, or in both agree on all eight. *)
Theorem generateTraits_picks_ignore_gender_and_color
  (Math_sin : float -> float) (fid : float) (g1 g2 : Gender)
  (color1 color2 : string) :
  let a := generateTraits Math_sin fid g1 color1 in
  let b := generateTraits Math_sin fid g2 color2 in
  skinTone a = skinTone b /\ hairStyle a = hairStyle b
  /\ eyeStyle a = eyeStyle b /\ outfit a = outfit b
  /\ accessory a = accessory b /\ headAccessory a = headAccessory b
  /\ background a = background b /\ specialEffect a = specialEffect b.
Proof. intros a b. repeat split. Qed.

(** C7 -- [traitsToAttributes] returns eleven entries, one per field of
    the record and in the order of the fields: the labels are the fixed
    (pairwise distinct) label list and each value is the field it
    stands for. *)
Theorem traitsToAttributes_complete (traits : WinterCheerTraits) :
  let attributes := traitsToAttributes traits in
  length attributes = 11
  /\ 10 <= length attributes <= 11
  /\ map trait_type attributes = attributeLabels
  /\ map value attributes = fieldValues traits
  /\ NoDup attributeLabels.
Proof.
  intros attributes. repeat split; try (cbn; lia).
  unfold attributeLabels.
  repeat (constructor; [cbn; intuition discriminate|]).
  constructor.
Qed.

(** ** The colour descriptor *)

Lemma hexToColorName_unfold (hex : string) :
  hexToColorName hex =
  if isGrayscale (hslSaturation hex) then grayscaleOf (hslLightness hex)
  else saturationOf (hslSaturation hex) ++ " "
       ++ brightnessOf (hslLightness hex) ++ " "
       ++ colorFamilyOf (hslHue hex).
Proof.
  unfold hexToColorName, hslSaturation, hslLightness, hslHue.
  destruct (hexToHsl hex) as [[h s] l]. reflexivity.
Qed.

Ltac split_ifs :=
  repeat match goal with
         | |- context [if ?b then _ else _] => destruct b
         end.

Lemma grayscaleOf_In (l : float) : In (grayscaleOf l) grayscaleNames.
Proof. unfold grayscaleOf, grayscaleNames. split_ifs; cbn; tauto. Qed.

Lemma brightnessOf_In (l : float) : In (brightnessOf l) brightnessBands.
Proof. unfold brightnessOf, brightnessBands. split_ifs; cbn; tauto. Qed.

Lemma saturationOf_In (s : float) : In (saturationOf s) saturationBands.
Proof. unfold saturationOf, saturationBands. split_ifs; cbn; tauto. Qed.

Lemma colorFamilyOf_In (hue : float) : In (colorFamilyOf hue) colorFamilies.
Proof. unfold colorFamilyOf, colorFamilies. split_ifs; cbn; tauto. Qed.

Lemma colorFamilies_NoDup : NoDup colorFamilies.
Proof.
  unfold colorFamilies.
  repeat (constructor; [cbn; intuition discriminate|]).
  constructor.
Qed.

(** Every one of the thirteen families is the family of some colour. *)
Lemma colorFamilies_attained :
  Forall (fun fam => exists hex, in_family fam hex) colorFamilies.
Proof.
  unfold colorFamilies.
  repeat apply Forall_cons; [ .. | apply Forall_nil ].
  - exists "#FF0000". split; vm_compute; reflexivity.
  - exists "#FF8000". split; vm_compute; reflexivity.
  - exists "#FFFF00". split; vm_compute; reflexivity.
  - exists "#BFFF00". split; vm_compute; reflexivity.
  - exists "#00FF00". split; vm_compute; reflexivity.
  - exists "#00FFAA". split; vm_compute; reflexivity.
  - exists "#00FFFF". split; vm_compute; reflexivity.
  - exists "#0099FF". split; vm_compute; reflexivity.
  - exists "#0000FF". split; vm_compute; reflexivity.
  - exists "#4400FF". split; vm_compute; reflexivity.
  - exists "#CC00FF". split; vm_compute; reflexivity.
  - exists "#FF00CC". split; vm_compute; reflexivity.
  - exists "#FF0055". split; vm_compute; reflexivity.
Qed.

(** The same for the brightness and saturation bands (on colours that
    are not sent to the grayscale names) and for the grayscale names. *)
Lemma brightnessBands_attained :
  Forall (fun band => exists hex,
            isGrayscale (hslSaturation hex) = false
            /\ brightnessOf (hslLightness hex) = band) brightnessBands.
Proof.
  unfold brightnessBands.
  repeat apply Forall_cons; [ .. | apply Forall_nil ].
  - exists "#FFCCCC". split; vm_compute; reflexivity.
  - exists "#FF6666". split; vm_compute; reflexivity.
  - exists "#FF0000". split; vm_compute; reflexivity.
  - exists "#990000". split; vm_compute; reflexivity.
  - exists "#330000". split; vm_compute; reflexivity.
Qed.

Lemma saturationBands_attained :
  Forall (fun band => exists hex,
            isGrayscale (hslSaturation hex) = false
            /\ saturationOf (hslSaturation hex) = band) saturationBands.
Proof.
  unfold saturationBands.
  repeat apply Forall_cons; [ .. | apply Forall_nil ].
  - exists "#FF0000". split; vm_compute; reflexivity.
  - exists "#DC2626". split; vm_compute; reflexivity.
  - exists "#BF4040". split; vm_compute; reflexivity.
  - exists "#807060". split; vm_compute; reflexivity.
Qed.

Lemma grayscaleNames_attained :
  Forall (fun name => exists hex,
            isGrayscale (hslSaturation hex) = true
            /\ hexToColorName hex = name) grayscaleNames.
Proof.
  unfold grayscaleNames.
  repeat apply Forall_cons; [ .. | apply Forall_nil ].
  - exists "#FFFFFF". split; vm_compute; reflexivity.
  - exists "#C0C0C0". split; vm_compute; reflexivity.
  - exists "#808080". split; vm_compute; reflexivity.
  - exists "#555555". split; vm_compute; reflexivity.
  - exists "#000000". split; vm_compute; reflexivity.
Qed.

(** C5, as the code has it -- [hexToColorName] sorts the hue into
    exactly thirteen families (red, orange-red, orange, yellow-orange,
    yellow-green, green, cyan-green, cyan, blue, purple-blue, purple,
    magenta, pink-red), the lightness into exactly five bands and the
    saturation into exactly four, each name distinct and each one
    produced for some colour; a colour whose saturation is below 0.1
    gets one of the five grayscale names, and every other colour gets
    "saturation brightness family" built from those names. *)
Theorem hexToColorName_descriptors :
  (length colorFamilies = 13 /\ NoDup colorFamilies
   /\ Forall (fun fam => exists hex, in_family fam hex) colorFamilies)
  /\ (length brightnessBands = 5 /\ NoDup brightnessBands
      /\ Forall (fun band => exists hex,
                   isGrayscale (hslSaturation hex) = false
                   /\ brightnessOf (hslLightness hex) = band) brightnessBands)
  /\ (length saturationBands = 4 /\ NoDup saturationBands
      /\ Forall (fun band => exists hex,
                   isGrayscale (hslSaturation hex) = false
                   /\ saturationOf (hslSaturation hex) = band) saturationBands)
  /\ (length grayscaleNames = 5
      /\ Forall (fun name => exists hex,
                   isGrayscale (hslSaturation hex) = true
                   /\ hexToColorName hex = name) grayscaleNames)
  /\ (forall hex : string,
        if isGrayscale (hslSaturation hex)
        then In (hexToColorName hex) grayscaleNames
        else exists saturation brightness family,
               In saturation saturationBands
               /\ In brightness brightnessBands
               /\ In family colorFamilies
               /\ family = colorFamilyOf (hslHue hex)
               /\ hexToColorName hex
                  = saturation ++ " " ++ brightness ++ " " ++ family).
Proof.
  split; [|split; [|split; [|split]]].
  - split; [reflexivity|]. split;
      [apply colorFamilies_NoDup | apply colorFamilies_attained].
  - split; [reflexivity|]. split; [|apply brightnessBands_attained].
    unfold brightnessBands.
    repeat (constructor; [cbn; intuition discriminate|]). constructor.
  - split; [reflexivity|]. split; [|apply saturationBands_attained].
    unfold saturationBands.
    repeat (constructor; [cbn; intuition discriminate|]). constructor.
  - split; [reflexivity | apply grayscaleNames_attained].
  - intros hex. rewrite hexToColorName_unfold.
    destruct (isGrayscale (hslSaturation hex)).
    + apply grayscaleOf_In.
    + exists (saturationOf (hslSaturation hex)),
             (brightnessOf (hslLightness hex)),
             (colorFamilyOf (hslHue hex)).
      split; [apply saturationOf_In|].
      split; [apply brightnessOf_In|].
      split; [apply colorFamilyOf_In|].
      split; reflexivity.
Qed.

(** C5, as stated, fails on the number of families: no list of twelve
    names holds the hue family of every colour that is not sent to the
    grayscale names. *)
Lemma twelve_families_do_not_cover :
  ~ (exists families : list string,
       length families = 12
       /\ forall hex, isGrayscale (hslSaturation hex) = false ->
                      In (colorFamilyOf (hslHue hex)) families).
Proof.
  intros [families [Hlen Hall]].
  assert (Hincl : incl colorFamilies families).
  { intros fam Hfam.
    pose proof colorFamilies_attained as Hatt.
    rewrite Forall_forall in Hatt.
    destruct (Hatt fam Hfam) as [hex [Hgray Hhue]].
    rewrite <- Hhue. apply Hall. exact Hgray. }
  pose proof (NoDup_incl_length colorFamilies_NoDup Hincl) as Hle.
  rewrite Hlen in Hle. cbn in Hle. lia.
Qed.

(** C6 -- pure black is "black" and pure white is "pure white", both
    through the grayscale case; pure red is not a grayscale colour, its
    hue family is "red" and its descriptor is "vivid medium red". *)
Theorem hexToColorName_black_white_red :
  hexToColorName "#000000" = "black"
  /\ hexToColorName "#FFFFFF" = "pure white"
  /\ hexToColorName "#FF0000" = "vivid medium red"
  /\ isGrayscale (hslSaturation "#000000") = true
  /\ isGrayscale (hslSaturation "#FFFFFF") = true
  /\ isGrayscale (hslSaturation "#FF0000") = false
  /\ colorFamilyOf (hslHue "#FF0000") = "red".
Proof. repeat split; vm_compute; reflexivity. Qed.

(** ** The prompt *)

(** The prompt is produced exactly when none of the eight picked fields
    is [undefined]. *)
Lemma buildPromptFromTraits_defined (traits : WinterCheerTraits) :
  (exists prompt, buildPromptFromTraits traits = Some prompt)
  <-> Forall (fun v => v <> None) (fieldValues traits).
Proof.
  destruct traits as [g sk hs hc es ou oc ac ha bg se].
  unfold buildPromptFromTraits, fieldValues, lowered; cbn.
  split.
  - intros [prompt H].
    destruct ou, sk, hs, es, ac, ha, bg, se; try discriminate.
    repeat (constructor; [discriminate|]). constructor.
  - intros H.
    repeat match goal with
           | H : Forall _ (_ :: _) |- _ => inversion H; clear H; subst
           end.
    destruct ou, sk, hs, es, ac, ha, bg, se; try congruence.
    eexists. reflexivity.
Qed.

(** C10 -- the prompt does not depend on [outfitColor]: replacing that
    field by any other colour leaves the outcome of
    [buildPromptFromTraits] unchanged, character for character. *)
Theorem buildPromptFromTraits_ignores_outfitColor
  (traits : WinterCheerTraits) (c : string) :
  buildPromptFromTraits (withOutfitColor c traits)
  = buildPromptFromTraits traits.
Proof. destruct traits. reflexivity. Qed.

End TraitGeneratorFacts.

(* ===================================================================== *)
(** * Properties of the send-notification route *)
(* ===================================================================== *)

Section SendNotificationFacts.

Import SendNotification.
Local Open Scope string_scope.
Local Open Scope list_scope.

(** ** Batching *)

Lemma slice_length (T : Type) (from : nat) (array : list T) :
  length (slice from (from + batchSize) array) <= batchSize.
Proof.
  unfold slice. rewrite length_firstn. lia.
Qed.

Lemma batch_loop_bounded (T : Type) (array : list T) :
  forall fuel i batches,
    Forall (fun b => length b <= batchSize) batches ->
    Forall (fun b => length b <= batchSize) (batch_loop fuel i array batches).
Proof.
  induction fuel as [|fuel IH]; intros i batches Hb; cbn [batch_loop].
  - exact Hb.
  - destruct (i <? length array)%nat; [|exact Hb].
    apply IH. apply Forall_app. split; [exact Hb|].
    constructor; [apply slice_length | constructor].
Qed.

(** With fuel for every remaining element the loop runs to its exit
    test, and the batches are the array cut in order. *)
Lemma batch_loop_concat (T : Type) (array : list T) :
  forall fuel i batches,
    length array <= i + fuel ->
    concat (batch_loop fuel i array batches) = concat batches ++ skipn i array.
Proof.
  induction fuel as [|fuel IH]; intros i batches Hfuel; cbn [batch_loop].
  - rewrite skipn_all2 by lia. now rewrite app_nil_r.
  - destruct (Nat.ltb_spec i (length array)) as [Hlt|Hge].
    + rewrite IH by (unfold batchSize; lia).
      rewrite concat_app. cbn [concat]. rewrite app_nil_r.
      rewrite <- app_assoc. f_equal.
      unfold slice. replace (i + batchSize - i) with batchSize by lia.
      rewrite Nat.add_comm, <- skipn_skipn.
      apply firstn_skipn.
    + rewrite skipn_all2 by lia. now rewrite app_nil_r.
Qed.

Lemma make_batches_partition (T : Type) (array : list T) :
  concat (make_batches array) = array
  /\ Forall (fun b => length b <= batchSize) (make_batches array).
Proof.
  unfold make_batches. split.
  - rewrite batch_loop_concat by lia. reflexivity.
  - apply batch_loop_bounded. constructor.
Qed.

(** ** Grouping by notification URL *)

Lemma group_push_grouped (item : Recipient) :
  forall groups, grouped (group_push item groups) = S (grouped groups).
Proof.
  induction groups as [|[url existing] rest IH]; cbn.
  - reflexivity.
  - destruct (String.eqb url (notificationUrl item)); cbn.
    + rewrite length_app. cbn. lia.
    + rewrite IH. lia.
Qed.

Lemma group_by_url_grouped (batch : list Recipient) :
  grouped (group_by_url batch) = length batch.
Proof.
  unfold group_by_url.
  assert (H : forall groups,
             grouped (fold_left (fun gs item => group_push item gs) batch groups)
             = grouped groups + length batch).
  { induction batch as [|item batch IH]; intros groups; cbn.
    - lia.
    - rewrite IH, group_push_grouped. lia. }
  rewrite H. reflexivity.
Qed.

Lemma grouped_bounds (groups : list (string * list Recipient)) :
  Forall (fun g => length (snd g) <= grouped groups) groups.
Proof.
  induction groups as [|g rest IH]; cbn; constructor.
  - lia.
  - eapply Forall_impl; [|exact IH]. cbn. intros; lia.
Qed.

(** No relay call of a batch carries more tokens than the batch has. *)
Lemma batch_calls_bounded (req : SendNotificationRequest) (batch : list Recipient) :
  Forall (fun call => length (tokens (snd call)) <= length batch)
         (batch_calls req batch).
Proof.
  unfold batch_calls. apply Forall_map.
  pose proof (grouped_bounds (group_by_url batch)) as H.
  rewrite group_by_url_grouped in H.
  eapply Forall_impl; [|exact H].
  intros g Hg. cbn. rewrite length_map. exact Hg.
Qed.

Lemma relay_calls_app (a b : list Effect) :
  relay_calls (a ++ b) = relay_calls a ++ relay_calls b.
Proof. unfold relay_calls. apply flat_map_app. Qed.

Lemma relay_calls_posts (calls : list (string * Payload)) :
  relay_calls (map (fun call => RelayPost (fst call) (snd call)) calls) = calls.
Proof.
  induction calls as [|[url payload] calls IH]; cbn.
  - reflexivity.
  - f_equal. exact IH.
Qed.

Lemma relay_calls_queries (ids : list Z) :
  relay_calls (map QueryTokenByFid ids) = [].
Proof. induction ids; cbn; auto. Qed.

Section Answers.

Variable getActiveNotificationTokens : ActiveTokensResult.
Variable getNotificationTokenByFid : Z -> TokenByFidResult.
Variable fetch : string -> Payload -> FetchOutcome.

Lemma deliver_calls_bounded (req : SendNotificationRequest)
  (tokensToSend : list Recipient) :
  Forall (fun call => length (tokens (snd call)) <= 100)
         (relay_calls (snd (deliver fetch req tokensToSend))).
Proof.
  unfold deliver.
  destruct tokensToSend as [|r rest]; [constructor|].
  set (l := r :: rest).
  destruct (fold_left _ _ _) as [[totalSuccessful totalFailed] allErrors].
  cbn [snd]. rewrite relay_calls_posts.
  apply Forall_flat_map.
  destruct (make_batches_partition l) as [_ Hb].
  eapply Forall_impl; [|exact Hb].
  intros batch Hbatch.
  eapply Forall_impl; [|apply batch_calls_bounded].
  cbn. intros call Hcall. unfold batchSize in Hbatch. lia.
Qed.

Lemma POST_calls_bounded (req : SendNotificationRequest) :
  Forall (fun call => length (tokens (snd call)) <= 100)
         (relay_calls
            (snd (POST getActiveNotificationTokens getNotificationTokenByFid
                       fetch req))).
Proof.
  unfold POST.
  repeat match goal with
         | |- context [if ?b then _ else _] => destruct b; [constructor|]
         end.
  destruct (broadcast req) as [[|]|].
  - destruct (active_success _); [|constructor].
    destruct (active_tokens _) as [rows|]; [|constructor].
    pose proof (deliver_calls_bounded req
                  (map (fun t => {| token := row_token t;
                                    notificationUrl := row_notification_url t |})
                       rows)) as H.
    destruct (deliver _ _ _) as [response effects]. exact H.
  - destruct (fids req) as [[|fid ids]|]; try constructor.
    pose proof (deliver_calls_bounded req
                  (tokens_for_fids getNotificationTokenByFid (fid :: ids))) as H.
    destruct (deliver _ _ _) as [response effects]. cbn [snd] in *.
    rewrite relay_calls_app, relay_calls_queries. exact H.
  - destruct (fids req) as [[|fid ids]|]; try constructor.
    pose proof (deliver_calls_bounded req
                  (tokens_for_fids getNotificationTokenByFid (fid :: ids))) as H.
    destruct (deliver _ _ _) as [response effects]. cbn [snd] in *.
    rewrite relay_calls_app, relay_calls_queries. exact H.
Qed.

Lemma longer_than_true (n : nat) (s : string) :
  n < String.length s -> longer_than n (Some s) = true.
Proof. intros H. cbn. apply Nat.ltb_lt. exact H. Qed.

Lemma POST_rejects_invalid (req : SendNotificationRequest) :
  invalid req ->
  exists message,
    POST getActiveNotificationTokens getNotificationTokenByFid fetch req
    = (Failure 400 message, []).
Proof.
  intros Hinv. unfold POST.
  repeat match goal with
         | |- context [if ?b then _ else _] =>
             destruct b eqn:?; [eexists; reflexivity|]
         end.
  exfalso.
  destruct Hinv as [H|[[s [H Hlen]]|[[s [H Hlen]]|[s [H Hlen]]]]].
  - rewrite H in *. discriminate.
  - rewrite H in *. rewrite longer_than_true in * by assumption. discriminate.
  - rewrite H in *. rewrite longer_than_true in * by assumption. discriminate.
  - rewrite H in *. rewrite longer_than_true in * by assumption. discriminate.
Qed.

End Answers.

(** C9 -- whatever the token store and the relays answer: a request
    without [notificationId], or with a title over 32, a body over 128
    or a target URL over 1024 characters, is answered with status 400
    and [success: false] and causes no effect at all (no relay call, no
    token query); every relay call of any request carries at most 100
    tokens; and the batches are the recipients cut, in order, into
    pieces of at most 100. *)
Theorem POST_validates_and_batches
  (getActiveNotificationTokens : ActiveTokensResult)
  (getNotificationTokenByFid : Z -> TokenByFidResult)
  (fetch : string -> Payload -> FetchOutcome) :
  let post := POST getActiveNotificationTokens getNotificationTokenByFid fetch in
  (forall req, invalid req ->
     status_of (fst (post req)) = 400%Z
     /\ success_of (fst (post req)) = false
     /\ snd (post req) = []
     /\ relay_calls (snd (post req)) = [])
  /\ (forall req,
        Forall (fun call => length (tokens (snd call)) <= 100)
               (relay_calls (snd (post req))))
  /\ (forall tokensToSend : list Recipient,
        concat (make_batches tokensToSend) = tokensToSend
        /\ Forall (fun batch => length batch <= 100) (make_batches tokensToSend)).
Proof.
  intros post. split; [|split].
  - intros req Hinv.
    destruct (POST_rejects_invalid getActiveNotificationTokens
                getNotificationTokenByFid fetch Hinv) as [message E].
    unfold post. rewrite E. repeat split.
  - intros req. apply POST_calls_bounded.
  - intros tokensToSend. apply make_batches_partition.
Qed.

(** The theorem at a request that has no [notificationId]. *)
Lemma POST_validates_and_batches_witness :
  invalid sample_request
  /\ status_of (fst (POST sample_store sample_lookup sample_fetch sample_request))
     = 400%Z
  /\ snd (POST sample_store sample_lookup sample_fetch sample_request) = [].
Proof.
  assert (Hinv : invalid sample_request) by (left; reflexivity).
  split; [exact Hinv|].
  destruct (POST_validates_and_batches sample_store sample_lookup sample_fetch)
    as [Hreject _].
  destruct (Hreject sample_request Hinv) as (Hstatus & _ & Heffects & _).
  split; [exact Hstatus | exact Heffects].
Defined.

End SendNotificationFacts.

(* ===================================================================== *)
(** * Properties of the mint hook *)
(* ===================================================================== *)

Section MintHookFacts.

Import MintHook.
Local Open Scope string_scope.
Local Open Scope list_scope.

Variables NFTTraits Blob Metadata MintTransaction : Type.
Variable deps : Collaborators NFTTraits Blob Metadata MintTransaction.

(** ** The trace is append-only *)

Lemma extends_ret (A : Type) (a : A) : extends (ret (NFTTraits := NFTTraits) a).
Proof. intros w. exists []. cbn. now rewrite app_nil_r. Qed.

Lemma extends_setMintState (f : MintState NFTTraits -> MintState NFTTraits) :
  extends (setMintState f).
Proof. intros w. eexists. reflexivity. Qed.

Lemma extends_invoke (A : Type) (c : Collaborator) (o : Outcome A) :
  extends (invoke (NFTTraits := NFTTraits) c o).
Proof. intros w. eexists. reflexivity. Qed.

Lemma extends_console_error : extends (console_error (NFTTraits := NFTTraits)).
Proof. intros w. eexists. reflexivity. Qed.

Lemma extends_bind (A B : Type) (m : M NFTTraits A) (k : A -> M NFTTraits B) :
  extends m -> (forall a, extends (k a)) -> extends (bind m k).
Proof.
  intros Hm Hk w. unfold bind.
  destruct (Hm w) as [added1 E1].
  destruct (m w) as [[a|t] w1]; cbn [snd] in *.
  - destruct (Hk a w1) as [added2 E2].
    exists (added1 ++ added2). rewrite E2, E1. now rewrite app_assoc.
  - exists added1. exact E1.
Qed.

Lemma extends_try_catch (body : M NFTTraits unit)
  (handler : Thrown -> M NFTTraits unit) :
  extends body -> (forall t, extends (handler t)) ->
  extends (try_catch body handler).
Proof.
  intros Hb Hh w. unfold try_catch.
  destruct (Hb w) as [added1 E1].
  destruct (body w) as [[a|t] w1]; cbn [snd] in *.
  - exists added1. exact E1.
  - destruct (Hh t w1) as [added2 E2].
    exists (added1 ++ added2). rewrite E2, E1. now rewrite app_assoc.
Qed.

Ltac extends_step :=
  first [ apply extends_setMintState
        | apply extends_invoke
        | apply extends_console_error
        | apply extends_ret
        | apply extends_bind; [|intros ?]
        | match goal with
          | |- extends (if ?b then _ else _) => destruct b
          end ].

Lemma extends_on_error (t : Thrown) : extends (on_error (NFTTraits := NFTTraits) t).
Proof. unfold on_error. repeat extends_step. Qed.

Lemma extends_pipeline (h : HookValues) (a : string) (f : Z) (u : string) :
  extends (pipeline deps h a f u).
Proof. unfold pipeline. repeat extends_step. Qed.

(** ** The already-minted guard *)

(** With the flag set, a run is one state update that writes [error]
    and nothing else. *)
Lemma mintNFT_already_minted_run (h : HookValues) (current : MintState NFTTraits) :
  hasAlreadyMinted h = true ->
  run_mintNFT deps h current
  = {| ui := with_error (Some (guard_message h)) current;
       trace := [SetMintState (with_error (Some (guard_message h)) current)] |}.
Proof.
  intros Hminted. unfold run_mintNFT, mintNFT, guard_message.
  destruct (context_loaded h) as [[[a f] u]|].
  - rewrite Hminted. reflexivity.
  - reflexivity.
Qed.

(** Without the flag, and with wallet and context loaded, the run does
    enter [analyzing] and calls the colour analysis first: it is the
    guard that keeps the pipeline from starting. *)
Lemma mintNFT_starts_pipeline (h : HookValues) (current : MintState NFTTraits)
  (a : string) (f : Z) (u : string) :
  hasAlreadyMinted h = false ->
  context_loaded h = Some (a, f, u) ->
  exists rest,
    trace (run_mintNFT deps h current)
    = SetMintState
        {| step := Step.analyzing; message := "Analyzing your profile picture...";
           progress := 10; traits := None; previewImageUrl := None;
           txHash := None; tokenId := None; error := None |}
      :: Invoke NFTTraits analyzePfpColor :: rest.
Proof.
  intros Hminted Hctx. unfold run_mintNFT, mintNFT.
  rewrite Hctx, Hminted.
  pose proof (extends_pipeline h a f u) as Hp.
  unfold pipeline in *.
  match type of Hp with
  | extends (bind ?m1 (fun _ => bind ?m2 ?k)) =>
      assert (Hk : forall x, extends (k x))
        by (intros x; repeat extends_step);
      set (rest_of := k) in *
  end.
  unfold try_catch, bind at 1 2, setMintState at 1, invoke at 1, record.
  cbn [ui trace app fst snd].
  destruct (do_analyzePfpColor deps u) as [colorAnalysis|t].
  - match goal with
    | |- context [rest_of colorAnalysis ?w] =>
        destruct (Hk colorAnalysis w) as [added E];
        destruct (rest_of colorAnalysis w) as [[r|t] w1]; cbn [snd trace] in *
    end.
    + exists added. exact E.
    + destruct (extends_on_error t w1) as [added2 E2].
      rewrite E2, E. cbn. eexists. reflexivity.
  - match goal with
    | |- context [on_error t ?w] =>
        destruct (extends_on_error t w) as [added E]
    end.
    rewrite E. cbn. eexists. reflexivity.
Qed.

(** C8 -- the already-minted guard of [mintNFT].  When the external
    check has set [hasAlreadyMinted], a run of [mintNFT], from any
    state and whatever the collaborators would answer, calls no
    collaborator, publishes one state whose step is the step it found
    (so it enters none of analyzing, generating, uploading, minting),
    and leaves the state as it was but for the guard's message in
    [error]; [MintInterface] then shows the already-minted card, with
    neither the gender choice nor the mint button. *)
Theorem mintNFT_short_circuits_when_already_minted
  (h : HookValues) (current : MintState NFTTraits) :
  hasAlreadyMinted h = true ->
  let w := run_mintNFT deps h current in
  invoked (trace w) = []
  /\ steps_entered (trace w) = [step current]
  /\ ui w = with_error (Some (guard_message h)) current
  /\ step (ui w) = step current
  /\ alreadyMintedWarning (MintInterface h (ui w)) = true
  /\ genderSelection (MintInterface h (ui w)) = false
  /\ mintButton (MintInterface h (ui w)) = false
  /\ mintProgress (MintInterface h (ui w)) = isLoading current.
Proof.
  intros Hminted w. unfold w.
  rewrite mintNFT_already_minted_run by exact Hminted.
  cbn [ui trace]. unfold MintInterface. cbn. rewrite Hminted.
  repeat split.
Qed.

End MintHookFacts.

(** The theorem at a hook whose FID is marked as minted, started from
    the initial state. *)
Lemma mintNFT_short_circuits_when_already_minted_witness :
  MintHook.hasAlreadyMinted MintHook.sample_values = true
  /\ MintHook.invoked
       (MintHook.trace
          (MintHook.run_mintNFT MintHook.sample_collaborators
             MintHook.sample_values (MintHook.initialMintState unit))) = []
  /\ MintHook.ui
       (MintHook.run_mintNFT MintHook.sample_collaborators
          MintHook.sample_values (MintHook.initialMintState unit))
     = MintHook.with_error
         (Some "FID 235940 has already minted a Winter Cheer NFT"%string)
         (MintHook.initialMintState unit).
Proof.
  split; [reflexivity|].
  destruct (@mintNFT_short_circuits_when_already_minted unit unit unit unit
              MintHook.sample_collaborators MintHook.sample_values
              (MintHook.initialMintState unit) eq_refl)
    as (Hinvoked & _ & Hui & _).
  split; [exact Hinvoked | exact Hui].
Defined.

(* ===================================================================== *)
(** * Runs of the mint pipeline *)
(* ===================================================================== *)

Section MintRunFacts.

Import MintHook.
Local Open Scope string_scope.
Local Open Scope list_scope.

Variables NFTTraits Blob Metadata MintTransaction : Type.
Variable deps : Collaborators NFTTraits Blob Metadata MintTransaction.

Ltac crunch :=
  cbv beta iota zeta delta
    [run_pipeline try_catch pipeline on_error bind setMintState invoke
     console_error ret record ui trace app fst snd step message progress
     traits previewImageUrl txHash tokenId error with_progress with_step
     with_error publicClient connection selectedGender call_order].

Ltac run_step :=
  match goal with
  | |- context [match ?o with Returned _ => _ | Threw _ => _ end] =>
      destruct o eqn:?; crunch
  | |- context [if ?b then _ else _] => destruct b; crunch
  end.

(** What a run of the [try] block comes to, by cases on the answers of
    the collaborators. *)
Lemma pipeline_run_summary (h : HookValues) (a : string) (f : Z) (u : string)
  (current : MintState NFTTraits) :
  let w := run_pipeline deps h a f u current in
  ascending (map (@progress NFTTraits) (published (trace w))) = true
  /\ ascending (map rank (steps_entered (trace w))) = true
  /\ (In recordNewMint (invoked (trace w)) ->
      exists tx hash,
        do_prepareMintTransaction deps a f = Returned tx
        /\ do_sendTransaction deps tx = Returned hash
        /\ (publicClient h = true ->
            do_waitForTransactionReceipt deps hash = Returned tt))
  /\ ((step (ui w) = Step.success
       /\ invoked (trace w) = call_order h
       /\ error (ui w) = None /\ progress (ui w) = 100
       /\ (exists tx hash tok,
             do_prepareMintTransaction deps a f = Returned tx
             /\ do_sendTransaction deps tx = Returned hash
             /\ do_generateTokenId deps f = Returned tok
             /\ txHash (ui w) = Some hash /\ tokenId (ui w) = Some tok
             /\ (connection h = true ->
                 do_recordNewMint deps f tok a = Returned tt)))
      \/ (step (ui w) = Step.error
          /\ exists n msg, 0 < n /\ invoked (trace w) = firstn n (call_order h)
                           /\ error (ui w) = Some msg)).
Proof.
  destruct h as [ic ad wc pc fi pf sg am cn].
  crunch.
  repeat run_step.
  all: split; [reflexivity|]; split; [reflexivity|]; split;
    [ first [ intros _; eexists _, _; split; [reflexivity|];
              split; [eassumption|];
              intros Hpc;
              first [ discriminate Hpc
                    | match goal with
                      | H : do_waitForTransactionReceipt _ _ = Returned ?x |- _ =>
                          destruct x; exact H
                      end ]
            | intros Hin; exfalso; cbn in Hin; intuition discriminate ] |].
  all: first [ left; split; [reflexivity|]; split; [reflexivity|];
               split; [reflexivity|]; split; [reflexivity|];
               eexists _, _, _; split; [reflexivity|]; split; [eassumption|];
               split; [reflexivity|]; split; [reflexivity|];
               split; [reflexivity|];
               intros Hcn;
               first [ discriminate Hcn
                     | match goal with
                       | H : do_recordNewMint _ _ _ _ = Returned ?x |- _ =>
                           destruct x; exact H
                       end ]
             | right; split; [reflexivity|];
               match goal with
               | |- exists n msg, _ /\ ?l = _ /\ _ =>
                   let l' := eval cbn in l in
                   exists (length l'); eexists; cbn; repeat split;
                   try lia; try reflexivity
               end ].
Qed.

(** [mintNFT] as its three cases: either guard, or the [try] block. *)
Lemma run_mintNFT_cases (h : HookValues) (current : MintState NFTTraits) :
  (exists e, (context_loaded h = None \/ hasAlreadyMinted h = true)
             /\ run_mintNFT deps h current
                = {| ui := with_error (Some e) current;
                     trace := [SetMintState (with_error (Some e) current)] |})
  \/ (exists a f u, context_loaded h = Some (a, f, u)
                    /\ hasAlreadyMinted h = false
                    /\ run_mintNFT deps h current
                       = run_pipeline deps h a f u current).
Proof.
  unfold run_mintNFT, mintNFT, run_pipeline.
  destruct (context_loaded h) as [[[a f] u]|].
  - destruct (hasAlreadyMinted h).
    + left. eexists. split; [right; reflexivity | reflexivity].
    + right. exists a, f, u. repeat split.
  - left. eexists. split; [left; reflexivity | reflexivity].
Qed.

Lemma missing_context_spec (h : HookValues) :
  missing_context h = true <-> context_loaded h = None.
Proof.
  unfold missing_context, context_loaded.
  destruct (isConnected h), (walletClient h), (nonempty (address h)),
    (fid h) as [f|], (nonempty (pfpUrl h)); cbn;
    try (destruct (f =? 0)%Z); cbn; split; intros H;
    first [reflexivity | discriminate].
Qed.

(** X1 -- the first guard of [mintNFT].  When the wallet is not
    connected, or the address, the wallet client, the FID (also an FID
    of 0) or the picture URL is missing, a run calls no collaborator
    and publishes one state, equal to the one it found but for [error],
    which asks to connect the wallet -- also when the FID has minted
    already. *)
Theorem mintNFT_needs_wallet_and_context
  (h : HookValues) (current : MintState NFTTraits) :
  missing_context h = true ->
  run_mintNFT deps h current
  = {| ui := with_error
               (Some "Please connect wallet and ensure Farcaster context is loaded")
               current;
       trace := [SetMintState
                   (with_error
                      (Some "Please connect wallet and ensure Farcaster context is loaded")
                      current)] |}
  /\ invoked (trace (run_mintNFT deps h current)) = []
  /\ step (ui (run_mintNFT deps h current)) = step current.
Proof.
  intros H. apply missing_context_spec in H.
  unfold run_mintNFT, mintNFT. rewrite H. repeat split.
Qed.

(** X2 -- how a started mint ends.  With wallet and context loaded and
    the FID not minted, a run ends in [success] or in [error], never in
    between.  In [success] every collaborator of [call_order] was
    called, [error] is cleared, progress is 100 and the state holds the
    hash the wallet returned and the token id; in [error] the state
    holds a message and the calls are a non-empty initial part of
    [call_order]. *)
Theorem mintNFT_ends_in_success_or_error
  (h : HookValues) (current : MintState NFTTraits)
  (a : string) (f : Z) (u : string) :
  context_loaded h = Some (a, f, u) ->
  hasAlreadyMinted h = false ->
  let w := run_mintNFT deps h current in
  (step (ui w) = Step.success
   /\ invoked (trace w) = call_order h
   /\ error (ui w) = None /\ progress (ui w) = 100
   /\ exists tx hash tok,
        do_prepareMintTransaction deps a f = Returned tx
        /\ do_sendTransaction deps tx = Returned hash
        /\ do_generateTokenId deps f = Returned tok
        /\ txHash (ui w) = Some hash /\ tokenId (ui w) = Some tok)
  \/ (step (ui w) = Step.error
      /\ exists n msg, 0 < n /\ invoked (trace w) = firstn n (call_order h)
                       /\ error (ui w) = Some msg).
Proof.
  intros Hctx Hminted w. unfold w, run_mintNFT, mintNFT.
  rewrite Hctx, Hminted.
  destruct (pipeline_run_summary h a f u current) as (_ & _ & _ & [Hs|He]).
  - left. destruct Hs as (H1 & H2 & H3 & H4 & tx & hash & tok & H5 & H6 & H7 & H8 & H9 & _).
    repeat split; try assumption. exists tx, hash, tok. repeat split; assumption.
  - right. exact He.
Qed.

(** X3 -- the collaborators are called in one fixed order: the calls of
    any run of [mintNFT] are an initial part of [call_order] (empty when
    a guard fires), so none is called twice or ahead of an earlier
    one. *)
Theorem mintNFT_calls_in_order (h : HookValues) (current : MintState NFTTraits) :
  exists n, invoked (trace (run_mintNFT deps h current)) = firstn n (call_order h).
Proof.
  destruct (run_mintNFT_cases h current) as [[e [_ E]]|[a [f [u [_ [_ E]]]]]];
    rewrite E.
  - exists 0. reflexivity.
  - destruct (pipeline_run_summary h a f u current) as (_ & _ & _ & [Hs|He]).
    + exists (length (call_order h)). rewrite firstn_all. apply Hs.
    + destruct He as (_ & n & msg & _ & Hn & _). exists n. exact Hn.
Qed.

(** X4 -- the states a run publishes never go back: their progress
    values are in non-decreasing order, and so are their steps in the
    order idle, analyzing, generating, uploading, minting, success,
    error. *)
Theorem mintNFT_progress_never_decreases
  (h : HookValues) (current : MintState NFTTraits) :
  let t := trace (run_mintNFT deps h current) in
  ascending (map (@progress NFTTraits) (published t)) = true
  /\ ascending (map rank (steps_entered t)) = true.
Proof.
  intros t. unfold t.
  destruct (run_mintNFT_cases h current) as [[e [_ E]]|[a [f [u [_ [_ E]]]]]];
    rewrite E.
  - split; reflexivity.
  - destruct (pipeline_run_summary h a f u current) as (H1 & H2 & _).
    split; assumption.
Qed.

(** X5 -- a mint is recorded only after its transaction: whenever a run
    calls the [recordNewMint] reducer, the transaction was prepared, the
    wallet returned its hash and, with a public client, the receipt had
    arrived. *)
Theorem mintNFT_records_only_sent_transactions
  (h : HookValues) (current : MintState NFTTraits) :
  In recordNewMint (invoked (trace (run_mintNFT deps h current))) ->
  exists a f u tx hash,
    context_loaded h = Some (a, f, u)
    /\ do_prepareMintTransaction deps a f = Returned tx
    /\ do_sendTransaction deps tx = Returned hash
    /\ (publicClient h = true ->
        do_waitForTransactionReceipt deps hash = Returned tt).
Proof.
  destruct (run_mintNFT_cases h current) as [[e [_ E]]|[a [f [u [Hctx [_ E]]]]]];
    rewrite E; intros Hin.
  - cbn in Hin. contradiction.
  - destruct (pipeline_run_summary h a f u current) as (_ & _ & Hrec & _).
    destruct (Hrec Hin) as (tx & hash & H1 & H2 & H3).
    exists a, f, u, tx, hash. repeat split; assumption.
Qed.

(** X6 -- a failing reducer fails the mint.  With a database connection
    and a [recordNewMint] that throws, no run ends in [success]: a
    started mint ends in [error] with a message, also when the
    transaction before it went through. *)
Theorem mintNFT_fails_when_recording_throws
  (h : HookValues) (current : MintState NFTTraits)
  (a : string) (f : Z) (u : string) :
  context_loaded h = Some (a, f, u) ->
  hasAlreadyMinted h = false ->
  connection h = true ->
  (forall fid tok addr, exists t, do_recordNewMint deps fid tok addr = Threw t) ->
  let w := run_mintNFT deps h current in
  step (ui w) = Step.error /\ exists msg, error (ui w) = Some msg.
Proof.
  intros Hctx Hminted Hcn Hthrows w. unfold w, run_mintNFT, mintNFT.
  rewrite Hctx, Hminted.
  destruct (pipeline_run_summary h a f u current) as (_ & _ & _ & [Hs|He]).
  - exfalso.
    destruct Hs as (_ & _ & _ & _ & tx & hash & tok & _ & _ & _ & _ & _ & Hrec).
    destruct (Hthrows f tok a) as [t Ht].
    rewrite (Hrec Hcn) in Ht. discriminate.
  - destruct He as (Hstep & n & msg & _ & _ & Herr).
    split; [exact Hstep | exists msg; exact Herr].
Qed.

(** X7 -- a failed image generation is fatal: when [generateNFTImage]
    throws, a started mint ends in [error], its calls stop within the
    first five of [call_order] (nothing is uploaded, no transaction is
    prepared or sent, nothing is recorded) and the state holds neither
    hash nor token id. *)
Theorem mintNFT_stops_when_image_generation_fails
  (h : HookValues) (current : MintState NFTTraits)
  (a : string) (f : Z) (u : string) :
  context_loaded h = Some (a, f, u) ->
  hasAlreadyMinted h = false ->
  (forall prompt, exists t, do_generateNFTImage deps prompt = Threw t) ->
  let w := run_mintNFT deps h current in
  step (ui w) = Step.error
  /\ (exists n, n <= 5 /\ invoked (trace w) = firstn n (call_order h))
  /\ txHash (ui w) = None /\ tokenId (ui w) = None.
Proof.
  intros Hctx Hminted Hthrows w. unfold w, run_mintNFT, mintNFT.
  rewrite Hctx, Hminted.
  destruct h as [ic ad wc pc fi pf sg am cn].
  crunch.
  do 4 (run_step;
        [| split; [reflexivity|]; split; [|split; reflexivity];
           match goal with
           | |- exists n, _ /\ ?l = _ =>
               let l' := eval cbn in l in
               exists (length l'); cbn; split; [lia | reflexivity]
           end ]).
  match goal with
  | |- context [do_generateNFTImage deps ?p] =>
      destruct (Hthrows p) as [t Ht]; rewrite Ht
  end.
  crunch.
  split; [reflexivity|]. split; [|split; reflexivity].
  exists 5. split; [lia | reflexivity].
Qed.

End MintRunFacts.

(** X1 at a hook without a wallet whose FID has minted. *)
Lemma mintNFT_needs_wallet_and_context_witness :
  MintHook.missing_context MintHook.sample_disconnected = true
  /\ MintHook.invoked
       (MintHook.trace
          (MintHook.run_mintNFT MintHook.sample_collaborators
             MintHook.sample_disconnected (MintHook.initialMintState unit))) = [].
Proof.
  split; [reflexivity|].
  apply (@mintNFT_needs_wallet_and_context unit unit unit unit
           MintHook.sample_collaborators MintHook.sample_disconnected
           (MintHook.initialMintState unit) eq_refl).
Defined.

(** X2 at a hook that is ready to mint, all collaborators answering. *)
Lemma mintNFT_ends_in_success_or_error_witness :
  MintHook.context_loaded MintHook.sample_ready
  = Some ("0x1234", 235940%Z, "https://example.com/pfp.png")%string
  /\ MintHook.hasAlreadyMinted MintHook.sample_ready = false
  /\ (MintHook.step
        (MintHook.ui
           (MintHook.run_mintNFT MintHook.sample_collaborators
              MintHook.sample_ready (MintHook.initialMintState unit)))
      = MintHook.Step.success
      \/ MintHook.step
           (MintHook.ui
              (MintHook.run_mintNFT MintHook.sample_collaborators
                 MintHook.sample_ready (MintHook.initialMintState unit)))
         = MintHook.Step.error).
Proof.
  split; [reflexivity|]. split; [reflexivity|].
  destruct (@mintNFT_ends_in_success_or_error unit unit unit unit
              MintHook.sample_collaborators MintHook.sample_ready
              (MintHook.initialMintState unit) _ _ _ eq_refl eq_refl)
    as [[H _]|[H _]]; [left | right]; exact H.
Defined.

(** X5 at a run that reaches the reducer. *)
Lemma mintNFT_records_only_sent_transactions_witness :
  In MintHook.recordNewMint
     (MintHook.invoked
        (MintHook.trace
           (MintHook.run_mintNFT MintHook.sample_collaborators
              MintHook.sample_ready (MintHook.initialMintState unit))))
  /\ exists tx hash,
       MintHook.do_prepareMintTransaction MintHook.sample_collaborators
         "0x1234"%string 235940%Z = MintHook.Returned tx
       /\ MintHook.do_sendTransaction MintHook.sample_collaborators tx
          = MintHook.Returned hash.
Proof.
  assert (Hin : In MintHook.recordNewMint
                  (MintHook.invoked
                     (MintHook.trace
                        (MintHook.run_mintNFT MintHook.sample_collaborators
                           MintHook.sample_ready
                           (MintHook.initialMintState unit)))))
    by (vm_compute; tauto).
  split; [exact Hin|].
  destruct (@mintNFT_records_only_sent_transactions unit unit unit unit
              MintHook.sample_collaborators MintHook.sample_ready
              (MintHook.initialMintState unit) Hin)
    as (a & f & u & tx & hash & Hctx & H1 & H2 & _).
  injection Hctx as <- <- <-.
  exists tx, hash. split; assumption.
Defined.

(** X6 at a reducer that throws after the transaction was sent. *)
Lemma mintNFT_fails_when_recording_throws_witness :
  In MintHook.sendTransaction
     (MintHook.invoked
        (MintHook.trace
           (MintHook.run_mintNFT MintHook.sample_record_fails
              MintHook.sample_ready (MintHook.initialMintState unit))))
  /\ MintHook.step
       (MintHook.ui
          (MintHook.run_mintNFT MintHook.sample_record_fails
             MintHook.sample_ready (MintHook.initialMintState unit)))
     = MintHook.Step.error.
Proof.
  split; [vm_compute; tauto|].
  apply (@mintNFT_fails_when_recording_throws unit unit unit unit
           MintHook.sample_record_fails MintHook.sample_ready
           (MintHook.initialMintState unit) _ _ _ eq_refl eq_refl eq_refl).
  intros fid tok addr. eexists. reflexivity.
Defined.

(** X7 at an image generation that throws. *)
Lemma mintNFT_stops_when_image_generation_fails_witness :
  MintHook.step
    (MintHook.ui
       (MintHook.run_mintNFT MintHook.sample_image_fails
          MintHook.sample_ready (MintHook.initialMintState unit)))
  = MintHook.Step.error.
Proof.
  apply (@mintNFT_stops_when_image_generation_fails unit unit unit unit
           MintHook.sample_image_fails MintHook.sample_ready
           (MintHook.initialMintState unit) _ _ _ eq_refl eq_refl).
  intros prompt. eexists. reflexivity.
Defined.

(* ===================================================================== *)
(** * Deliveries of the send-notification route *)
(* ===================================================================== *)

Section DeliveryFacts.

Import SendNotification.
Local Open Scope string_scope.
Local Open Scope list_scope.

(** ** Groups *)






Lemma group_push_keys (item : Recipient) :
  forall groups url,
    In url (map fst (group_push item groups)) ->
    url = notificationUrl item \/ In url (map fst groups).
Proof.
  induction groups as [|[u existing] rest IH]; cbn; intros url Hin.
  - destruct Hin as [<-|[]]. left. reflexivity.
  - destruct (String.eqb u (notificationUrl item)); cbn in Hin.
    + right. exact Hin.
    + destruct Hin as [<-|Hin]; [right; left; reflexivity|].
      destruct (IH url Hin); [left|right; right]; assumption.
Qed.

Lemma group_push_ok (item : Recipient) :
  forall groups, groups_ok groups -> groups_ok (group_push item groups).
Proof.
  unfold groups_ok.
  induction groups as [|[u existing] rest IH]; cbn; intros [Hnd Hne].
  - split; constructor; cbn; try constructor; auto. discriminate.
  - inversion Hnd as [|? ? Hnotin Hnd']; subst.
    inversion Hne as [|? ? Hne1 Hne']; subst.
    destruct (String.eqb_spec u (notificationUrl item)) as [E|NE]; cbn.
    + split; [constructor; assumption|].
      constructor; [|assumption]. cbn. destruct existing; discriminate.
    + destruct (IH (conj Hnd' Hne')) as [IH1 IH2].
      split.
      * constructor; [|exact IH1].
        intros Hin. destruct (group_push_keys _ _ _ Hin) as [E|Hin'].
        -- apply NE. exact E.
        -- apply Hnotin. exact Hin'.
      * constructor; assumption.
Qed.

Lemma group_by_url_ok (batch : list Recipient) : groups_ok (group_by_url batch).
Proof.
  unfold group_by_url.
  assert (H : forall groups, groups_ok groups ->
                groups_ok (fold_left (fun gs item => group_push item gs) batch groups)).
  { induction batch as [|item batch IH]; intros groups Hok; cbn.
    - exact Hok.
    - apply IH. apply group_push_ok. exact Hok. }
  apply H. split; constructor.
Qed.

Section Answers.

Variable store : ActiveTokensResult.
Variable lookup : Z -> TokenByFidResult.
Variable fetch : string -> Payload -> FetchOutcome.

(** What [deliver] posts: the calls of the batches, in order. *)
Lemma deliver_calls (req : SendNotificationRequest) (l : list Recipient) :
  relay_calls (snd (deliver fetch req l))
  = flat_map (batch_calls req) (match l with [] => [] | _ => make_batches l end).
Proof.
  unfold deliver. destruct l as [|r rest]; [reflexivity|].
  destruct (fold_left _ _ _) as [[totalSuccessful totalFailed] allErrors].
  cbn [snd]. apply relay_calls_posts.
Qed.

(** A request that [POST] does not refuse passes the six guards and is
    delivered to [recipients]; the effects before the relay calls are
    the token queries. *)
Lemma POST_accepted (req : SendNotificationRequest) :
  success_of (fst (POST store lookup fetch req)) = true ->
  well_formed req = true
  /\ fst (POST store lookup fetch req)
     = fst (deliver fetch req (recipients store lookup req))
  /\ relay_calls (snd (POST store lookup fetch req))
     = relay_calls (snd (deliver fetch req (recipients store lookup req))).
Proof.
  unfold POST, well_formed, recipients.
  destruct (falsy (title req) || falsy (body req)) eqn:E1; [discriminate|].
  repeat match goal with
         | |- context [if ?b then _ else _] =>
             destruct b; [cbn; discriminate|]
         end.
  cbn [negb orb].
  destruct (broadcast req) as [[|]|].
  - destruct (active_success store); [|cbn; discriminate].
    destruct (active_tokens store) as [rows|]; [|cbn; discriminate].
    destruct (deliver _ _ _) as [response effects]. cbn.
    intros _. repeat split.
  - destruct (fids req) as [[|fid ids]|]; try (cbn; discriminate).
    destruct (deliver _ _ _) as [response effects]. cbn [fst snd].
    intros _. repeat split.
    rewrite relay_calls_app, relay_calls_queries. reflexivity.
  - destruct (fids req) as [[|fid ids]|]; try (cbn; discriminate).
    destruct (deliver _ _ _) as [response effects]. cbn [fst snd].
    intros _. repeat split.
    rewrite relay_calls_app, relay_calls_queries. reflexivity.
Qed.

Lemma deliver_succeeds (req : SendNotificationRequest) (l : list Recipient) :
  success_of (fst (deliver fetch req l)) = true.
Proof.
  unfold deliver. destruct l as [|r rest]; [reflexivity|].
  destruct (fold_left _ _ _) as [[totalSuccessful totalFailed] allErrors].
  reflexivity.
Qed.

(** A request that [POST] refuses reaches no relay. *)
Lemma POST_refused (req : SendNotificationRequest) :
  success_of (fst (POST store lookup fetch req)) = false ->
  relay_calls (snd (POST store lookup fetch req)) = [].
Proof.
  unfold POST.
  repeat match goal with
         | |- context [if ?b then _ else _] => destruct b; [reflexivity|]
         end.
  destruct (broadcast req) as [[|]|].
  - destruct (active_success store); [|reflexivity].
    destruct (active_tokens store) as [rows|]; [|reflexivity].
    match goal with
    | |- context [deliver fetch req ?l] =>
        pose proof (deliver_succeeds req l) as H;
        destruct (deliver fetch req l) as [response effects]
    end.
    cbn in *. congruence.
  - destruct (fids req) as [[|fid ids]|]; try reflexivity.
    match goal with
    | |- context [deliver fetch req ?l] =>
        pose proof (deliver_succeeds req l) as H;
        destruct (deliver fetch req l) as [response effects]
    end.
    cbn in *. congruence.
  - destruct (fids req) as [[|fid ids]|]; try reflexivity.
    match goal with
    | |- context [deliver fetch req ?l] =>
        pose proof (deliver_succeeds req l) as H;
        destruct (deliver fetch req l) as [response effects]
    end.
    cbn in *. congruence.
Qed.

End Answers.


(** X9 -- what a relay call carries.  Every relay call of any request
    has at least one token and the request's own title, body, target
    URL and [notificationId], the latter present and not empty; and
    within a batch no URL is called twice. *)
Theorem POST_calls_carry_the_request
  (store : ActiveTokensResult) (lookup : Z -> TokenByFidResult)
  (fetch : string -> Payload -> FetchOutcome) (req : SendNotificationRequest) :
  Forall (fun call =>
            tokens (snd call) <> []
            /\ p_title (snd call) = title req
            /\ p_body (snd call) = body req
            /\ p_targetUrl (snd call) = targetUrl req
            /\ p_notificationId (snd call) = notificationId req
            /\ falsy (notificationId req) = false)
         (relay_calls (snd (POST store lookup fetch req)))
  /\ (forall batch : list Recipient, NoDup (map fst (batch_calls req batch))).
Proof.
  assert (Hbatch : forall batch,
             NoDup (map fst (batch_calls req batch))
             /\ Forall (fun call => tokens (snd call) <> []
                          /\ p_title (snd call) = title req
                          /\ p_body (snd call) = body req
                          /\ p_targetUrl (snd call) = targetUrl req
                          /\ p_notificationId (snd call) = notificationId req)
                       (batch_calls req batch)).
  { intros batch. destruct (group_by_url_ok batch) as [Hnd Hne].
    unfold batch_calls. split.
    - rewrite map_map. cbn. exact Hnd.
    - apply Forall_map. eapply Forall_impl; [|exact Hne].
      intros [url items] Hitems. cbn in *. repeat split.
      destruct items; [contradiction|discriminate]. }
  split; [|intros batch; apply Hbatch].
  destruct (success_of (fst (POST store lookup fetch req))) eqn:Hok.
  - destruct (@POST_accepted store lookup fetch req Hok) as (Hwf & _ & E).
    rewrite E, deliver_calls.
    assert (Hid : falsy (notificationId req) = false).
    { unfold well_formed in Hwf. apply negb_true_iff in Hwf.
      repeat (apply orb_false_elim in Hwf; destruct Hwf as [Hwf ?]).
      assumption. }
    apply Forall_flat_map. apply Forall_forall. intros batch _.
    eapply Forall_impl; [|apply Hbatch].
    cbn. intros call H. intuition.
  - rewrite POST_refused by exact Hok. constructor.
Qed.

(** ** Counting *)

Lemma tally_failures (fetched : list FetchOutcome) (n : nat) :
  Forall (fun r => forall a b c, r <> FetchOk a b c) fetched ->
  forall s f (e : list string),
  exists e',
    fold_left (tally n) fetched (s, f, e) = (s, f + n * length fetched, e ++ e')
    /\ length e' = length fetched.
Proof.
  induction 1 as [|r rest Hr _ IH]; intros s f e; cbn [fold_left].
  - exists []. rewrite app_nil_r. split; [f_equal; f_equal; cbn; lia | reflexivity].
  - destruct r as [m|st tx|a b c]; [| |exfalso; apply (Hr a b c); reflexivity];
      cbn [tally];
      match goal with
      | |- context [fold_left _ rest (s, f + n, e ++ [?m])] =>
          destruct (IH s (f + n) (e ++ [m])) as [e' [E L]];
          exists (m :: e'); rewrite E, <- app_assoc; cbn;
          split; [f_equal; f_equal; cbn [length]; nia | lia]
      end.
Qed.

Lemma totals_fold (results : list (nat * nat * list string)) :
  forall s f (e : list string),
    fold_left
      (fun acc r =>
         let '(totalSuccessful, totalFailed, allErrors) := acc in
         let '(successfulCount, failedCount, errors) := r in
         (totalSuccessful + successfulCount, totalFailed + failedCount,
          allErrors ++ errors))
      results (s, f, e)
    = (s + list_sum (map (fun r => fst (fst r)) results),
       f + list_sum (map (fun r => snd (fst r)) results),
       e ++ concat (map snd results)).
Proof.
  induction results as [|[[x y] z] rest IH]; intros s f e; cbn [fold_left].
  - cbn. rewrite app_nil_r, !Nat.add_0_r. reflexivity.
  - rewrite IH. cbn. rewrite <- app_assoc, !Nat.add_assoc. reflexivity.
Qed.

Lemma batch_calls_nonempty (req : SendNotificationRequest) (batch : list Recipient) :
  batch <> [] -> 1 <= length (batch_calls req batch).
Proof.
  intros Hb. unfold batch_calls. rewrite length_map.
  pose proof (group_by_url_grouped batch) as Hg.
  destruct (group_by_url batch) as [|g gs]; cbn in *; [|lia].
  destruct batch; [contradiction | discriminate].
Qed.

(** A request that passes the six guards, finds its token store
    answering when it is a broadcast, and has recipients is not
    refused. *)
Lemma POST_delivers
  (store : ActiveTokensResult) (lookup : Z -> TokenByFidResult)
  (fetch : string -> Payload -> FetchOutcome) (req : SendNotificationRequest) :
  well_formed req = true ->
  (broadcast req = Some true -> active_success store = true) ->
  recipients store lookup req <> [] ->
  success_of (fst (POST store lookup fetch req)) = true.
Proof.
  intros Hw Hs Hne. unfold well_formed in Hw.
  apply negb_true_iff in Hw.
  repeat match type of Hw with
         | (_ || _) = false =>
             let H := fresh "G" in
             apply orb_false_iff in Hw; destruct Hw as [Hw H]
         end.
  unfold POST, recipients in *.
  rewrite Hw. cbn [orb].
  repeat match goal with
         | G : ?b = false |- context [if ?b then _ else _] => rewrite G
         end.
  destruct (broadcast req) as [[|]|].
  - rewrite (Hs eq_refl).
    destruct (active_tokens store) as [rows|]; [|contradiction Hne; reflexivity].
    match goal with
    | |- context [deliver fetch req ?l] =>
        pose proof (deliver_succeeds fetch req l) as H;
        destruct (deliver fetch req l) as [response effects]
    end.
    exact H.
  - destruct (fids req) as [[|fid ids]|];
      try (contradiction Hne; reflexivity).
    match goal with
    | |- context [deliver fetch req ?l] =>
        pose proof (deliver_succeeds fetch req l) as H;
        destruct (deliver fetch req l) as [response effects]
    end.
    exact H.
  - destruct (fids req) as [[|fid ids]|];
      try (contradiction Hne; reflexivity).
    match goal with
    | |- context [deliver fetch req ?l] =>
        pose proof (deliver_succeeds fetch req l) as H;
        destruct (deliver fetch req l) as [response effects]
    end.
    exact H.
Qed.

(** X10 -- the answer when every relay is down.  Take a request that
    passes the six validation guards, whose token store answers when it
    is a broadcast, and that has recipients.  If no relay call succeeds,
    it is still answered with [success: true]: zero sent, as many
    recipients as were found, one error message per relay call, and a
    failed count of at least the number of recipients (each failed call
    adds the size of its whole batch). *)
Theorem POST_counts_every_failed_call
  (store : ActiveTokensResult) (lookup : Z -> TokenByFidResult)
  (fetch : string -> Payload -> FetchOutcome) (req : SendNotificationRequest) :
  (forall url payload a b c, fetch url payload <> FetchOk a b c) ->
  well_formed req = true ->
  (broadcast req = Some true -> active_success store = true) ->
  recipients store lookup req <> [] ->
  exists failed errors,
    fst (POST store lookup fetch req)
    = Delivered 0 failed (length (recipients store lookup req)) errors
    /\ success_of (fst (POST store lookup fetch req)) = true
    /\ length (recipients store lookup req) <= failed
    /\ length errors = length (relay_calls (snd (POST store lookup fetch req))).
Proof.
  intros Hdown Hw Hs Hne.
  pose proof (@POST_delivers store lookup fetch req Hw Hs Hne) as Hok.
  rewrite Hok.
  destruct (@POST_accepted store lookup fetch req Hok) as (_ & E1 & E2).
  rewrite E1, E2, deliver_calls.
  destruct (recipients store lookup req) as [|r rest]; [contradiction|].
  set (l := r :: rest).
  unfold deliver. fold l. rewrite totals_fold. cbn [fst].
  destruct (make_batches_partition l) as [Hconcat _].
  assert (Hbatch : forall batch,
             exists e, send_batch fetch req batch
                       = (0, length batch * length (batch_calls req batch), e)
                       /\ length e = length (batch_calls req batch)).
  { intros batch. unfold send_batch.
    assert (Hall : Forall (fun r => forall a b c, r <> FetchOk a b c)
                     (map (fun call => fetch (fst call) (snd call))
                          (batch_calls req batch)))
      by (apply Forall_map, Forall_forall; intros; apply Hdown).
    destruct (@tally_failures _ (length batch) Hall 0 0 []) as [e [E L]].
    exists e. rewrite E, length_map in *. cbn. split; [reflexivity | exact L]. }
  assert (Hsum : forall batches,
             list_sum (map (fun r => fst (fst r)) (map (send_batch fetch req) batches)) = 0
             /\ length (concat batches)
                <= list_sum (map (fun r => snd (fst r)) (map (send_batch fetch req) batches))
             /\ length (concat (map snd (map (send_batch fetch req) batches)))
                = length (flat_map (batch_calls req) batches)).
  { induction batches as [|batch batches [IH1 [IH2 IH3]]]; cbn.
    - repeat split; lia.
    - destruct (Hbatch batch) as [e [E L]].
      unfold list_sum in *.
      cbn [map fold_right concat flat_map]. cbv beta. rewrite E. cbn [fst snd].
      rewrite !length_app, L. repeat split; try lia.
      destruct batch as [|x batch']; [cbn [length] in *; lia|].
      assert (Hx : x :: batch' <> []) by discriminate.
      pose proof (@batch_calls_nonempty req _ Hx).
      nia. }
  destruct (Hsum (make_batches l)) as [H1 [H2 H3]].
  rewrite Hconcat in H2.
  eexists _, _. split; [rewrite H1; reflexivity|].
  split; [reflexivity|]. split; [exact H2 | exact H3].
Qed.

End DeliveryFacts.

(* ===================================================================== *)
(** * The send-notification route over the token table *)
(* ===================================================================== *)

Section TokenTableFacts.

Import SendNotification.
Local Open Scope string_scope.
Local Open Scope list_scope.

Lemma tokens_for_fids_none (lookup : Z -> TokenByFidResult) (ids : list Z) :
  (forall i, byfid_token (lookup i) = None) -> tokens_for_fids lookup ids = [].
Proof.
  intros H. unfold tokens_for_fids.
  induction ids as [|i ids IH]; cbn; [reflexivity|].
  rewrite H, IH. destruct (byfid_success (lookup i)); reflexivity.
Qed.

Lemma failed_lookup_has_no_token
  (query : MintHook.Outcome (Database.QueryResult NotificationToken)) :
  Database.query_fails query ->
  byfid_token (Database.as_lookup (Database.getNotificationTokenByFid query)) = None.
Proof.
  intros [[r [e [-> He]]]|[t ->]]; cbn.
  - rewrite He. destruct (String.eqb _ _); reflexivity.
  - reflexivity.
Qed.

(** X11 -- a token table that is down is loud for a broadcast and
    silent for a targeted send.  For a request that passes the
    validation: when the query behind [getActiveNotificationTokens]
    fails, a broadcast is answered 500 with the failure's message (a
    fixed text when it is empty); when every query behind
    [getNotificationTokenByFid] fails, a send to specific FIDs is
    answered as a success with nothing to send.  Neither reaches a
    relay. *)
Theorem POST_store_failure_asymmetry
  (fetch : string -> Payload -> FetchOutcome) (req : SendNotificationRequest) :
  well_formed req = true ->
  (forall (query : MintHook.Outcome (Database.QueryResult (list NotificationToken)))
          (lookup : Z -> TokenByFidResult),
      broadcast req = Some true ->
      Database.query_fails query ->
      POST (Database.getActiveNotificationTokens query) lookup fetch req
      = (Failure 500
           (match Database.failure_message query with
            | EmptyString => "Failed to fetch active tokens"
            | message => message
            end),
         [QueryActiveTokens]))
  /\ (forall (store : ActiveTokensResult)
             (queries : Z -> MintHook.Outcome (Database.QueryResult NotificationToken))
             (fid : Z) (ids : list Z),
         broadcast req <> Some true ->
         fids req = Some (fid :: ids) ->
         (forall i, Database.query_fails (queries i)) ->
         POST store
              (fun i => Database.as_lookup
                          (Database.getNotificationTokenByFid (queries i)))
              fetch req
         = (NoTokens, map QueryTokenByFid (fid :: ids))).
Proof.
  intros Hwf. unfold well_formed in Hwf. apply negb_true_iff in Hwf.
  repeat (apply orb_false_elim in Hwf; destruct Hwf as [Hwf ?]).
  split.
  - intros query lookup Hb Hq. unfold POST.
    repeat match goal with
           | H : _ = false |- _ => rewrite H; clear H
           end.
    cbn [orb]. rewrite Hb.
    destruct Hq as [[r [e [-> He]]]|[t ->]]; cbn; [rewrite He; cbn|].
    + destruct (Database.db_message e); reflexivity.
    + destruct (Database.caught_message t); reflexivity.
  - intros store queries fid ids Hb Hf Hq. unfold POST.
    repeat match goal with
           | H : _ = false |- _ => rewrite H; clear H
           end.
    cbn [orb]. rewrite Hf.
    rewrite tokens_for_fids_none
      by (intros i; apply failed_lookup_has_no_token, Hq).
    destruct (broadcast req) as [[|]|]; [contradiction Hb; reflexivity| |];
      cbn; rewrite app_nil_r; reflexivity.
Qed.

End TokenTableFacts.


(** X10 at the same request with the relay down: two recipients, one
    failed call. *)
Lemma POST_counts_every_failed_call_witness :
  exists failed errors,
    fst (SendNotification.POST SendNotification.sample_store
           SendNotification.sample_found SendNotification.sample_down
           SendNotification.sample_targeted)
    = SendNotification.Delivered 0 failed 2 errors
    /\ 2 <= failed.
Proof.
  destruct (@POST_counts_every_failed_call SendNotification.sample_store
              SendNotification.sample_found SendNotification.sample_down
              SendNotification.sample_targeted)
    as (failed & errors & H1 & _ & H2 & _).
  - intros url payload a b c. discriminate.
  - reflexivity.
  - discriminate.
  - discriminate.
  - exists failed, errors. split; [exact H1 | exact H2].
Defined.

(** X11 at the same request over a token table that is down. *)
Lemma POST_store_failure_asymmetry_witness :
  SendNotification.well_formed SendNotification.sample_targeted = true
  /\ SendNotification.POST SendNotification.sample_store
       (fun i => Database.as_lookup
                   (Database.getNotificationTokenByFid
                      (Database.sample_broken SendNotification.NotificationToken)))
       SendNotification.sample_fetch SendNotification.sample_targeted
     = (SendNotification.NoTokens,
        [SendNotification.QueryTokenByFid 1; SendNotification.QueryTokenByFid 2]).
Proof.
  split; [reflexivity|].
  apply (proj2 (@POST_store_failure_asymmetry SendNotification.sample_fetch
                  SendNotification.sample_targeted eq_refl)
               SendNotification.sample_store
               (fun _ => Database.sample_broken SendNotification.NotificationToken)
               1%Z [2%Z]).
  - discriminate.
  - reflexivity.
  - intros i. left. eexists _, _. split; reflexivity.
Defined.

(* ===================================================================== *)
(** * Properties of the colour helpers *)
(* ===================================================================== *)

Section PfpAnalyzerFacts.

Import JS PfpAnalyzer.
Local Open Scope string_scope.
Local Open Scope Z_scope.

Lemma bytes_In (z : Z) : 0 <= z <= 255 -> In z bytes.
Proof.
  intros H. unfold bytes. apply in_map_iff.
  exists (Z.to_nat z). split; [lia|]. apply in_seq. lia.
Qed.

Lemma code_units_In (a : ascii) : In a code_units.
Proof.
  unfold code_units. apply in_map_iff.
  exists (nat_of_ascii a). split; [apply ascii_nat_embedding|].
  apply in_seq. pose proof (nat_ascii_bounded a). lia.
Qed.

(** ** Two digits and back *)

Lemma pairs_checked : forallb pair_ok bytes = true.
Proof. vm_compute. reflexivity. Qed.

Lemma two_digits (z : Z) :
  0 <= z <= 255 ->
  exists a b, padStart2 (toString16 z) = String a (String b EmptyString)
              /\ channel a b = Some z.
Proof.
  intros H. pose proof pairs_checked as Hall.
  rewrite forallb_forall in Hall. specialize (Hall z (bytes_In H)).
  unfold pair_ok in Hall.
  destruct (padStart2 (toString16 z)) as [|a [|b [|]]]; try discriminate.
  exists a, b. split; [reflexivity|].
  destruct (channel a b) as [z'|]; [|discriminate].
  apply Z.eqb_eq in Hall. subst. reflexivity.
Qed.

(** What [rgbToHex] writes for three bytes, [hexToRgb] reads. *)
Lemma written_bytes_read_back (r g b : Z) :
  0 <= r <= 255 -> 0 <= g <= 255 -> 0 <= b <= 255 ->
  hexToRgb (rgbToHex r g b) = Some (r, g, b).
Proof.
  intros Hr Hg Hb. unfold rgbToHex.
  destruct (two_digits Hr) as (r1 & r2 & -> & Er).
  destruct (two_digits Hg) as (g1 & g2 & -> & Eg).
  destruct (two_digits Hb) as (b1 & b2 & -> & Eb).
  cbn [append]. unfold hexToRgb.
  rewrite Er, Eg, Eb. reflexivity.
Qed.

(** X12 -- a colour survives being written and read: for channels
    between 0 and 255, [hexToRgb] reads back from [rgbToHex r g b]
    exactly [r], [g] and [b], and the text written is a [#] followed by
    six characters. *)
Theorem hexToRgb_rgbToHex (r g b : Z) :
  0 <= r <= 255 -> 0 <= g <= 255 -> 0 <= b <= 255 ->
  hexToRgb (rgbToHex r g b) = Some (r, g, b)
  /\ String.length (rgbToHex r g b) = 7%nat.
Proof.
  intros Hr Hg Hb. split; [apply written_bytes_read_back; assumption|].
  unfold rgbToHex.
  destruct (two_digits Hr) as (r1 & r2 & -> & _).
  destruct (two_digits Hg) as (g1 & g2 & -> & _).
  destruct (two_digits Hb) as (b1 & b2 & -> & _).
  reflexivity.
Qed.

(** ** Reading and writing back *)

Lemma digits_checked :
  forallb (fun a => forallb (digits_ok a) code_units) code_units = true.
Proof. vm_compute. reflexivity. Qed.

Lemma channel_written (a b : ascii) (z : Z) :
  channel a b = Some z ->
  0 <= z <= 255
  /\ padStart2 (toString16 z)
     = String (lower_unit a) (String (lower_unit b) EmptyString).
Proof.
  intros E. pose proof digits_checked as Hall.
  rewrite forallb_forall in Hall. specialize (Hall a (code_units_In a)).
  rewrite forallb_forall in Hall. specialize (Hall b (code_units_In b)).
  unfold digits_ok in Hall. rewrite E in Hall.
  apply andb_prop in Hall. destruct Hall as [Hall Hs].
  apply andb_prop in Hall. destruct Hall as [H0 H255].
  apply String.eqb_eq in Hs. split; [lia | exact Hs].
Qed.

Lemma hexToRgb_Some (hex : string) (r g b : Z) :
  hexToRgb hex = Some (r, g, b) ->
  exists a1 a2 a3 a4 a5 a6,
    digits_of hex
    = String a1 (String a2 (String a3 (String a4 (String a5 (String a6 EmptyString)))))
    /\ channel a1 a2 = Some r /\ channel a3 a4 = Some g /\ channel a5 a6 = Some b.
Proof.
  change (hexToRgb hex) with
    (match digits_of hex with
     | String a (String b (String c (String d (String e (String f EmptyString))))) =>
         match channel a b, channel c d, channel e f with
         | Some r, Some g, Some b => Some (r, g, b)
         | _, _, _ => None
         end
     | _ => None
     end).
  destruct (digits_of hex) as [|a1 [|a2 [|a3 [|a4 [|a5 [|a6 [|]]]]]]];
    try (intros H; discriminate H).
  destruct (channel a1 a2) as [r'|] eqn:Er; [|intros H; discriminate H].
  destruct (channel a3 a4) as [g'|] eqn:Eg; [|intros H; discriminate H].
  destruct (channel a5 a6) as [b'|] eqn:Eb; [|intros H; discriminate H].
  intros E. injection E as <- <- <-.
  exists a1, a2, a3, a4, a5, a6. repeat split; assumption.
Qed.

(** The channels [hexToRgb] reads are bytes. *)
Lemma read_channels_are_bytes (hex : string) (r g b : Z) :
  hexToRgb hex = Some (r, g, b) ->
  0 <= r <= 255 /\ 0 <= g <= 255 /\ 0 <= b <= 255.
Proof.
  intros E.
  destruct (hexToRgb_Some hex E) as (a1 & a2 & a3 & a4 & a5 & a6 & Ed & Er & Eg & Eb).
  destruct (channel_written _ _ Er) as [Hr _].
  destruct (channel_written _ _ Eg) as [Hg _].
  destruct (channel_written _ _ Eb) as [Hb _].
  repeat split; lia.
Qed.

(** X13 -- reading and writing back normalises a colour: when
    [hexToRgb] accepts a text, its three channels lie between 0 and 255
    and [rgbToHex] writes them as [#] followed by the six digits of the
    text in lower case. *)
Theorem rgbToHex_hexToRgb (hex : string) (r g b : Z) :
  hexToRgb hex = Some (r, g, b) ->
  (0 <= r <= 255 /\ 0 <= g <= 255 /\ 0 <= b <= 255)
  /\ rgbToHex r g b = String "#" (toLowerCase (digits_of hex)).
Proof.
  intros E.
  destruct (hexToRgb_Some hex E) as (a1 & a2 & a3 & a4 & a5 & a6 & Ed & Er & Eg & Eb).
  destruct (channel_written _ _ Er) as [Hr Hwr].
  destruct (channel_written _ _ Eg) as [Hg Hwg].
  destruct (channel_written _ _ Eb) as [Hb Hwb].
  split; [repeat split; lia|].
  unfold rgbToHex. rewrite Hwr, Hwg, Hwb, Ed. reflexivity.
Qed.

(** ** The festive boost *)

Lemma boosts_checked :
  forallb (fun x => forallb (boost_ok x) bytes) bytes = true.
Proof. vm_compute. reflexivity. Qed.

(** On channels, the rounded floating-point boost is an integer, and the
    integer is [x] plus thirteen tenths of its distance to the minimum,
    rounded half up and capped at 255. *)
Lemma boosted_number_is_integer (x min : Z) :
  0 <= min <= x -> x <= 255 ->
  index_of_number (boosted_number x min) = Some (boosted x min)
  /\ boosted x min = Z.min 255 (x + (13 * (x - min) + 5) / 10).
Proof.
  intros Hm Hx. pose proof boosts_checked as Hall.
  rewrite forallb_forall in Hall.
  specialize (Hall x (bytes_In (conj (Z.le_trans _ _ _ (proj1 Hm) (proj2 Hm)) Hx))).
  rewrite forallb_forall in Hall.
  specialize (Hall min (bytes_In (conj (proj1 Hm) (Z.le_trans _ _ _ (proj2 Hm) Hx)))).
  unfold boost_ok in Hall.
  destruct (Z.leb_spec min x); [|lia].
  unfold boosted.
  destruct (index_of_number (boosted_number x min)) as [z|]; [|discriminate].
  apply Z.eqb_eq in Hall. split; [reflexivity | exact Hall].
Qed.

Lemma boosted_bounds (x min : Z) :
  0 <= min <= x -> x <= 255 ->
  x <= boosted x min <= 255 /\ (x = min -> boosted x min = min).
Proof.
  intros Hm Hx.
  destruct (boosted_number_is_integer Hm Hx) as [_ ->].
  assert (0 <= (13 * (x - min) + 5) / 10) by (apply Z.div_pos; lia).
  split; [lia|]. intros ->.
  replace (13 * (min - min) + 5) with 5 by lia.
  change (5 / 10) with 0. lia.
Qed.

Lemma boosted_monotone (x y min : Z) :
  0 <= min <= x -> x <= y -> y <= 255 -> boosted x min <= boosted y min.
Proof.
  intros Hm Hxy Hy.
  destruct (@boosted_number_is_integer x min) as [_ ->]; [lia|lia|].
  destruct (@boosted_number_is_integer y min) as [_ ->]; [lia|lia|].
  assert ((13 * (x - min) + 5) / 10 <= (13 * (y - min) + 5) / 10)
    by (apply Z.div_le_mono; lia).
  lia.
Qed.

(** X14 -- what [enhanceColorForChristmas] does to a colour.  A text
    that [hexToRgb] does not accept is returned as it is and a gray
    (three equal channels) becomes ["#DC2626"].  Any other colour
    becomes a colour again, in which no channel is lower than before or
    above 255, the smallest channel keeps its value and the largest
    does not shrink: the spread between them can only grow. *)
Theorem enhanceColorForChristmas_brightens (hex : string) :
  match hexToRgb hex with
  | None => enhanceColorForChristmas hex = hex
  | Some (r, g, b) =>
      if (r =? g) && (g =? b) then enhanceColorForChristmas hex = "#DC2626"%string
      else
        exists r' g' b',
          hexToRgb (enhanceColorForChristmas hex) = Some (r', g', b')
          /\ r <= r' <= 255 /\ g <= g' <= 255 /\ b <= b' <= 255
          /\ Z.min (Z.min r' g') b' = Z.min (Z.min r g) b
          /\ Z.max (Z.max r g) b <= Z.max (Z.max r' g') b'
  end.
Proof.
  unfold enhanceColorForChristmas.
  destruct (hexToRgb hex) as [[[r g] b]|] eqn:E; [|reflexivity].
  destruct (read_channels_are_bytes hex E) as (Hr & Hg & Hb).
  set (mx := Z.max (Z.max r g) b). set (mn := Z.min (Z.min r g) b).
  destruct ((r =? g) && (g =? b)) eqn:Hgray.
  - apply andb_prop in Hgray. destruct Hgray as [H1 H2].
    apply Z.eqb_eq in H1, H2.
    replace (mx - mn =? 0) with true; [reflexivity|].
    symmetry. apply Z.eqb_eq. unfold mx, mn. lia.
  - replace (mx - mn =? 0) with false.
    2:{ symmetry. apply Z.eqb_neq. unfold mx, mn.
        apply andb_false_iff in Hgray.
        destruct Hgray as [H|H]; apply Z.eqb_neq in H; lia. }
    assert (Hmn : 0 <= mn) by (unfold mn; lia).
    destruct (@boosted_bounds r mn) as [Br Br']; [unfold mn; lia | lia |].
    destruct (@boosted_bounds g mn) as [Bg Bg']; [unfold mn; lia | lia |].
    destruct (@boosted_bounds b mn) as [Bb Bb']; [unfold mn; lia | lia |].
    exists (boosted r mn), (boosted g mn), (boosted b mn).
    split; [apply written_bytes_read_back; lia|].
    unfold mx, mn in *. repeat split; lia.
Qed.

End PfpAnalyzerFacts.

(** X12 at the festive red. *)
Lemma hexToRgb_rgbToHex_witness :
  PfpAnalyzer.hexToRgb (PfpAnalyzer.rgbToHex 220 38 38) = Some (220, 38, 38)%Z.
Proof.
  apply (@hexToRgb_rgbToHex 220 38 38); lia.
Defined.

(** X13 at the festive red in capitals. *)
Lemma rgbToHex_hexToRgb_witness :
  PfpAnalyzer.hexToRgb "#DC2626" = Some (220, 38, 38)%Z
  /\ PfpAnalyzer.rgbToHex 220 38 38 = "#dc2626"%string.
Proof.
  split; [reflexivity|].
  apply (@rgbToHex_hexToRgb "#DC2626" 220 38 38 eq_refl).
Defined.

(* ===================================================================== *)
(** * Properties of the generate-nft route *)
(* ===================================================================== *)

Section GenerateNftFacts.

Import JS MintHook TraitGenerator GenerateNft.
Local Open Scope string_scope.
Local Open Scope list_scope.

Variable Math_sin : float -> float.
Variable fluxproSubmit : string -> Outcome string.
Variable fluxproPollStatus : string -> Outcome unit.
Variable fluxproFetchImages : string -> Outcome (option (list string)).
Variable type_error_message : string.

Local Notation "'post'" :=
  (POST Math_sin fluxproSubmit fluxproPollStatus fluxproFetchImages
        type_error_message).

(** X15 -- the route refuses what it cannot name.  A body without FID,
    gender or colour, or with an FID of 0 or an empty colour, is
    answered 400 before any trait is picked, and the image service is
    not called. *)
Theorem generate_nft_rejects_incomplete_requests (body : Body) :
  falsy_number (fid body) = true
  \/ gender body = None
  \/ dominantColor body = None \/ dominantColor body = Some EmptyString ->
  post body
  = (Failed 400 "Missing required fields: fid, gender, dominantColor", []).
Proof.
  unfold POST.
  destruct (fid body) as [f|], (gender body) as [g|],
    (dominantColor body) as [[|c color]|]; try reflexivity.
  intros [H|[H|[H|H]]]; try discriminate.
  rewrite H. reflexivity.
Qed.

(** X16 -- what a generated answer holds.  When the route answers with
    an image, the traits are those [generateTraits] gives for the
    body's FID, gender and colour, both colour fields are the body's
    colour, none of the eight picks is [undefined], the attributes are
    [traitsToAttributes] of those traits, and the image service was
    called three times in order -- submit with the prompt
    [buildPromptFromTraits] builds from them, poll, fetch -- the image
    being the first one fetched. *)
Theorem generate_nft_answer (body : Body) (imageUrl : string)
  (traits : WinterCheerTraits) (attributes : list Attribute) :
  fst (post body) = Generated imageUrl traits attributes ->
  exists fid_ gender_ color prompt requestId more,
    fid body = Some fid_ /\ gender body = Some gender_
    /\ dominantColor body = Some color
    /\ traits = generateTraits Math_sin fid_ gender_ color
    /\ hairColor traits = color /\ outfitColor traits = color
    /\ Forall (fun v => v <> None) (fieldValues traits)
    /\ attributes = traitsToAttributes traits
    /\ buildPromptFromTraits traits = Some prompt
    /\ fluxproSubmit prompt = Returned requestId
    /\ fluxproFetchImages requestId = Returned (Some (imageUrl :: more))
    /\ snd (post body)
       = [Submit prompt; PollStatus requestId; FetchImages requestId].
Proof.
  unfold POST.
  destruct (fid body) as [f|]; [|discriminate].
  destruct (gender body) as [g|]; [|discriminate].
  destruct (dominantColor body) as [[|c color]|]; try discriminate.
  destruct (falsy_number (Some f)); [discriminate|].
  destruct (buildPromptFromTraits _) as [prompt|] eqn:Ep; [|discriminate].
  destruct (fluxproSubmit prompt) as [requestId|t] eqn:Es; [|discriminate].
  destruct (fluxproPollStatus requestId) as [u|t]; [|discriminate].
  destruct (fluxproFetchImages requestId) as [[[|url more]|]|t] eqn:Ef;
    try discriminate.
  cbn [fst snd]. intros E. injection E as <- <- <-.
  exists f, g, (String c color), prompt, requestId, more.
  repeat split; try assumption.
  apply buildPromptFromTraits_defined. exists prompt. exact Ep.
Qed.

(** X17 -- the answers of the route.  Every answer is an image (status
    200), a 400 with the missing-fields text, or a 500 whose text
    starts with "Failed to generate NFT: "; the image service is called
    at most three times; and when it returns no image the answer is
    the 500 "Failed to generate NFT: No images generated". *)
Theorem generate_nft_answers (body : Body) :
  (match fst (post body) with
   | Generated _ _ _ => True
   | Failed status message =>
       (status = 400%Z
        /\ message = "Missing required fields: fid, gender, dominantColor"
        /\ snd (post body) = [])
       \/ (status = 500%Z
           /\ exists reason, message = ("Failed to generate NFT: " ++ reason)%string)
   end)
  /\ length (snd (post body)) <= 3
  /\ (forall requestId,
        In (FetchImages requestId) (snd (post body)) ->
        fluxproFetchImages requestId = Returned None
        \/ fluxproFetchImages requestId = Returned (Some []) ->
        fst (post body) = Failed 500 "Failed to generate NFT: No images generated").
Proof.
  unfold POST, failure.
  destruct (fid body) as [f|], (gender body) as [g|],
    (dominantColor body) as [[|c color]|];
    try (cbn; split; [left; repeat split | split; [lia | intros r []]]).
  destruct (falsy_number (Some f));
    [cbn; split; [left; repeat split | split; [lia | intros r []]]|].
  destruct (buildPromptFromTraits _) as [prompt|].
  2:{ cbn. split; [right; split; [reflexivity | eexists; reflexivity]|].
      split; [lia | intros r []]. }
  destruct (fluxproSubmit prompt) as [requestId|t].
  2:{ cbn. split; [right; split; [reflexivity | eexists; reflexivity]|].
      split; [lia|]. intros r [H|[]]. discriminate H. }
  destruct (fluxproPollStatus requestId) as [u|t].
  2:{ cbn. split; [right; split; [reflexivity | eexists; reflexivity]|].
      split; [lia|]. intros r [H|[H|[]]]; discriminate H. }
  destruct (fluxproFetchImages requestId) as [[[|url more]|]|t] eqn:Ef;
    cbn [fst snd length].
  all: split;
    [first [exact I | right; split; [reflexivity | eexists; reflexivity]]|].
  all: split; [lia|].
  all: intros r [H|[H|[H|[]]]]; try discriminate H.
  all: injection H as <-; rewrite Ef; intros [H|H];
    first [discriminate H | reflexivity].
Qed.

End GenerateNftFacts.

(** X15 at FID 0. *)
Lemma generate_nft_rejects_incomplete_requests_witness :
  fst (GenerateNft.POST GenerateNft.sample_sine GenerateNft.sample_submit
         GenerateNft.sample_poll GenerateNft.sample_images "TypeError"
         GenerateNft.sample_zero)
  = GenerateNft.Failed 400 "Missing required fields: fid, gender, dominantColor".
Proof.
  rewrite (@generate_nft_rejects_incomplete_requests GenerateNft.sample_sine
             GenerateNft.sample_submit GenerateNft.sample_poll
             GenerateNft.sample_images "TypeError" GenerateNft.sample_zero
             (or_introl eq_refl)).
  reflexivity.
Defined.

(** X16 at FID 5. *)
Lemma generate_nft_answer_witness :
  exists traits attributes,
    fst (GenerateNft.POST GenerateNft.sample_sine GenerateNft.sample_submit
           GenerateNft.sample_poll GenerateNft.sample_images "TypeError"
           GenerateNft.sample_body)
    = GenerateNft.Generated "https://images.example/1.png" traits attributes
    /\ TraitGenerator.hairColor traits = "#DC2626"%string
    /\ length attributes = 11.
Proof.
  assert (H : exists traits attributes,
             fst (GenerateNft.POST GenerateNft.sample_sine
                    GenerateNft.sample_submit GenerateNft.sample_poll
                    GenerateNft.sample_images "TypeError" GenerateNft.sample_body)
             = GenerateNft.Generated "https://images.example/1.png" traits
                 attributes)
    by (eexists _, _; vm_compute; reflexivity).
  destruct H as (traits & attributes & E).
  exists traits, attributes. split; [exact E|].
  destruct (@generate_nft_answer GenerateNft.sample_sine GenerateNft.sample_submit
              GenerateNft.sample_poll GenerateNft.sample_images "TypeError"
              GenerateNft.sample_body _ _ _ E)
    as (f & g & color & prompt & requestId & more
        & _ & _ & Hc & _ & Hh & _ & _ & Ha & _).
  injection Hc as <-. split; [exact Hh | rewrite Ha; reflexivity].
Defined.

(* ===================================================================== *)
(** * Properties of [slugify] *)
(* ===================================================================== *)

Section SlugFacts.

Import JS Pinata.
Local Open Scope string_scope.

Lemma alnum_not_dash (c : ascii) : is_alnum c = true -> is_dash c = false.
Proof.
  unfold is_dash. destruct (Ascii.eqb_spec c "-") as [->|]; [|reflexivity].
  vm_compute. discriminate.
Qed.

Lemma lower_unit_slug_char (c : ascii) :
  is_alnum c || is_dash c = true -> lower_unit c = c.
Proof.
  destruct c as [[] [] [] [] [] [] [] []]; vm_compute; intros H;
    first [reflexivity | discriminate H].
Qed.

Lemma toLowerCase_slug (s : string) :
  all_slug_chars s = true -> toLowerCase s = s.
Proof.
  induction s as [|c s IH]; cbn; [reflexivity|].
  intros H. apply andb_prop in H. destruct H as [Hc Hs].
  rewrite (@lower_unit_slug_char c Hc), (IH Hs). reflexivity.
Qed.

(** ** What each replacement leaves *)

Lemma dash_runs_shape (s : string) :
  forall in_run,
    all_slug_chars (dash_runs in_run s) = true
    /\ no_double_dash (dash_runs in_run s) = true
    /\ (in_run = true -> starts_with_dash (dash_runs in_run s) = false).
Proof.
  induction s as [|c s IH]; intros in_run; cbn.
  - repeat split.
  - destruct (is_alnum c) eqn:Hc.
    + destruct (IH false) as (H1 & H2 & _).
      cbn [all_slug_chars no_double_dash starts_with_dash].
      rewrite Hc, H1, H2, (@alnum_not_dash c Hc). repeat split.
    + destruct (IH true) as (H1 & H2 & H3). destruct in_run.
      * repeat split; assumption.
      * cbn [all_slug_chars no_double_dash starts_with_dash].
        rewrite H1, H2, (H3 eq_refl). repeat split. discriminate.
Qed.

Lemma strip_leading_shape (s : string) :
  all_slug_chars s = true -> no_double_dash s = true ->
  all_slug_chars (strip_leading s) = true
  /\ no_double_dash (strip_leading s) = true
  /\ starts_with_dash (strip_leading s) = false.
Proof.
  induction s as [|c s IH]; intros Ha Hn; [repeat split|].
  cbn [strip_leading]. destruct (is_dash c) eqn:Ec.
  - cbn in Ha, Hn.
    apply andb_prop in Ha. destruct Ha as [_ Ha].
    apply andb_prop in Hn. destruct Hn as [_ Hn].
    apply IH; assumption.
  - repeat split; assumption.
Qed.

Lemma strip_trailing_head (s : string) :
  starts_with_dash (strip_trailing s) = true -> starts_with_dash s = true.
Proof.
  destruct s as [|c s]; [intros H; exact H|].
  cbn [strip_trailing]. destruct (strip_trailing s).
  - destruct (is_dash c) eqn:Ec; cbn; intros H; [discriminate H|].
    rewrite Ec in H. discriminate H.
  - cbn. intros H. exact H.
Qed.

Lemma strip_trailing_start (s : string) :
  starts_with_dash s = false -> starts_with_dash (strip_trailing s) = false.
Proof.
  intros H. destruct (starts_with_dash (strip_trailing s)) eqn:E; [|reflexivity].
  rewrite (@strip_trailing_head s E) in H. discriminate H.
Qed.

Lemma strip_trailing_chars (s : string) :
  all_slug_chars s = true -> all_slug_chars (strip_trailing s) = true.
Proof.
  induction s as [|c s IH]; intros Ha; [reflexivity|].
  cbn in Ha. apply andb_prop in Ha. destruct Ha as [Hc Ha].
  specialize (IH Ha). cbn [strip_trailing].
  destruct (strip_trailing s) as [|c' k].
  - destruct (is_dash c) eqn:Ec; [reflexivity|].
    cbn [all_slug_chars]. rewrite Ec, Hc. reflexivity.
  - cbn [all_slug_chars] in *. rewrite Hc. exact IH.
Qed.

Lemma strip_trailing_single (s : string) :
  no_double_dash s = true -> no_double_dash (strip_trailing s) = true.
Proof.
  induction s as [|c s IH]; intros Hn; [reflexivity|].
  cbn in Hn. apply andb_prop in Hn. destruct Hn as [Hd Hn].
  specialize (IH Hn). cbn [strip_trailing].
  pose proof (strip_trailing_head s) as Hh.
  destruct (strip_trailing s) as [|c' k].
  - destruct (is_dash c); [reflexivity|]. cbn.
    rewrite andb_false_r. reflexivity.
  - cbn [no_double_dash starts_with_dash] in *. rewrite IH, andb_true_r.
    destruct (is_dash c'); [|rewrite andb_false_r; reflexivity].
    rewrite (Hh eq_refl) in Hd. exact Hd.
Qed.

Lemma strip_trailing_end (s : string) :
  ends_with_dash (strip_trailing s) = false.
Proof.
  induction s as [|c s IH]; [reflexivity|].
  cbn [strip_trailing]. destruct (strip_trailing s) as [|c' k].
  - destruct (is_dash c) eqn:Ec; [reflexivity|]. cbn. exact Ec.
  - exact IH.
Qed.

(** ** What each replacement keeps *)

Lemma is_dash_eq (c : ascii) : is_dash c = true -> c = "-"%char.
Proof. unfold is_dash. intros H. apply Ascii.eqb_eq. exact H. Qed.

Lemma dash_runs_fixed (s : string) :
  forall in_run,
    all_slug_chars s = true -> no_double_dash s = true ->
    (in_run = true -> starts_with_dash s = false) ->
    dash_runs in_run s = s.
Proof.
  induction s as [|c s IH]; intros in_run Ha Hn Hs; [reflexivity|].
  cbn in Ha, Hn, Hs. apply andb_prop in Ha. destruct Ha as [Hc Ha].
  apply andb_prop in Hn. destruct Hn as [Hd Hn].
  cbn [dash_runs]. destruct (is_alnum c) eqn:Ec.
  - rewrite (IH false Ha Hn); [reflexivity | discriminate].
  - cbn in Hc. rewrite Hc in Hd. cbn in Hd.
    destruct in_run; [rewrite (Hs eq_refl) in Hc; discriminate Hc|].
    rewrite (IH true Ha Hn).
    + rewrite (@is_dash_eq c Hc). reflexivity.
    + intros _. destruct (starts_with_dash s); [discriminate Hd | reflexivity].
Qed.

Lemma strip_leading_fixed (s : string) :
  starts_with_dash s = false -> strip_leading s = s.
Proof. destruct s as [|c s]; cbn; [reflexivity|]. intros ->. reflexivity. Qed.

Lemma strip_trailing_fixed (s : string) :
  ends_with_dash s = false -> strip_trailing s = s.
Proof.
  induction s as [|c s IH]; [reflexivity|].
  cbn [ends_with_dash strip_trailing]. destruct s as [|c' k].
  - cbn. intros ->. reflexivity.
  - intros H. rewrite (IH H). reflexivity.
Qed.

Lemma collapse_fixed (s : string) :
  no_double_dash s = true -> collapse s = s.
Proof.
  induction s as [|c s IH]; [reflexivity|].
  cbn [no_double_dash collapse]. intros H.
  apply andb_prop in H. destruct H as [Hd Hn].
  destruct (is_dash c && starts_with_dash s); [discriminate Hd|].
  rewrite (IH Hn). reflexivity.
Qed.

Lemma slugify_slug (value : string) : is_slug (slugify value) = true.
Proof.
  unfold slugify.
  destruct (dash_runs_shape (toLowerCase value) false) as (Ha & Hn & _).
  destruct (@strip_leading_shape _ Ha Hn) as (Ha' & Hn' & Hs').
  pose proof (@strip_trailing_chars _ Ha') as Ha''.
  pose proof (@strip_trailing_single _ Hn') as Hn''.
  pose proof (@strip_trailing_start _ Hs') as Hs''.
  pose proof (strip_trailing_end
                (strip_leading (dash_runs false (toLowerCase value)))) as He''.
  rewrite (@collapse_fixed _ Hn'').
  destruct (strip_trailing (strip_leading (dash_runs false (toLowerCase value))))
    as [|c k]; [reflexivity|].
  unfold is_slug. rewrite Ha'', Hn'', Hs'', He''. reflexivity.
Qed.

Lemma slug_fixed (s : string) : is_slug s = true -> slugify s = s.
Proof.
  intros H. destruct s as [|c k]; [discriminate H|].
  unfold is_slug in H.
  apply andb_prop in H. destruct H as [H He].
  apply andb_prop in H. destruct H as [H Hs].
  apply andb_prop in H. destruct H as [Ha Hn].
  apply negb_true_iff in He, Hs.
  unfold slugify.
  rewrite (@toLowerCase_slug _ Ha).
  rewrite (@dash_runs_fixed _ false Ha Hn) by discriminate.
  rewrite (@strip_leading_fixed _ Hs), (@strip_trailing_fixed _ He),
    (@collapse_fixed _ Hn).
  reflexivity.
Qed.

(** X18 -- Whatever the name, [slugify] returns a slug: a non-empty
    string of lower-case ASCII letters, digits and dashes in which no dash
    is first, last or next to another one; and slugifying a second time
    changes nothing. *)
Theorem slugify_normalises (value : string) :
  is_slug (slugify value) = true
  /\ slugify (slugify value) = slugify value.
Proof.
  split; [apply slugify_slug|]. apply slug_fixed, slugify_slug.
Qed.

(** X19 -- [slugify] leaves every slug as it is. *)
Theorem slugify_keeps_slugs (s : string) :
  is_slug s = true -> slugify s = s.
Proof. apply slug_fixed. Qed.

Lemma slugify_keeps_slugs_witness :
  is_slug "winter-cheer-42" = true
  /\ slugify "winter-cheer-42" = "winter-cheer-42"
  /\ slugify "Winter Cheer #42!" = "winter-cheer-42"
  /\ slugify "***" = "metadata".
Proof.
  split; [reflexivity|]. split; [|split; reflexivity].
  apply (slugify_keeps_slugs "winter-cheer-42"). reflexivity.
Defined.

End SlugFacts.

(* ===================================================================== *)
(** * Properties of the webhook route *)
(* ===================================================================== *)

Section WebhookFacts.

Import Json Webhook.
Local Open Scope string_scope.

Variable NEYNAR_API_KEY : option string.
Variable parseWebhookEvent : value -> Verification.
Variable type_error_message : option value -> string -> string.

Local Notation "'post'" :=
  (POST NEYNAR_API_KEY parseWebhookEvent type_error_message).
Local Notation "'handled'" := (handle NEYNAR_API_KEY type_error_message).

Lemma POST_goes_on (requestJson verifiedData : value) :
  goes_on_with NEYNAR_API_KEY parseWebhookEvent requestJson verifiedData ->
  post (Some requestJson) = handled verifiedData.
Proof.
  intros (Hr & Hv & [[Hk ->] | [Hk Hp]]); unfold POST; rewrite Hk.
  - destruct requestJson; try reflexivity. contradiction Hr; reflexivity.
  - rewrite Hp.
    destruct requestJson; try (contradiction Hr; reflexivity);
      destruct verifiedData; try reflexivity; contradiction Hv; reflexivity.
Qed.

(** What [handle] stores. *)
Lemma handle_calls (d : value) :
  snd (handled d) = []
  \/ status (fst (handled d)) = 200%Z
     /\ exists fid,
          usable (extractFidFromPayload d) = Some fid
          /\ (snd (handled d)
              = [SaveToken fid (get_opt "token" (get "notificationDetails" d))
                   (get_opt "url" (get "notificationDetails" d))]
              /\ saving_event (get "event" d) = true
              /\ truthy (get "notificationDetails" d) = true
              \/ snd (handled d) = [DeactivateToken fid]
                 /\ removing_event (get "event" d) = true).
Proof.
  unfold handle, saving_event, removing_event.
  destruct (is_string "miniapp_added" (get "event" d)) eqn:E1.
  { destruct (truthy (get "notificationDetails" d)) eqn:Ed;
      [|left; reflexivity].
    destruct (usable (extractFidFromPayload d)) as [fid|] eqn:Ef;
      [|left; reflexivity].
    destruct (get_opt "url" (get "notificationDetails" d)) as [[]|];
      try (left; reflexivity).
    destruct (get_opt "token" (get "notificationDetails" d)) as [[]|];
      try (left; reflexivity);
      (right; split; [reflexivity|]; exists fid; split; [reflexivity|];
       left; repeat split; reflexivity). }
  destruct (is_string "miniapp_removed" (get "event" d)) eqn:E2.
  { destruct (usable (extractFidFromPayload d)) as [fid|] eqn:Ef;
      [|left; reflexivity].
    right; split; [reflexivity|]; exists fid; split; [reflexivity|].
    right; split; reflexivity. }
  destruct (is_string "notifications_enabled" (get "event" d)) eqn:E3.
  { destruct (truthy (get "notificationDetails" d)) eqn:Ed;
      [|left; reflexivity].
    destruct (usable (extractFidFromPayload d)) as [fid|] eqn:Ef;
      [|left; reflexivity].
    right; split; [reflexivity|]; exists fid; split; [reflexivity|].
    left; repeat split; reflexivity. }
  destruct (is_string "notifications_disabled" (get "event" d)) eqn:E4.
  { destruct (usable (extractFidFromPayload d)) as [fid|] eqn:Ef;
      [|left; reflexivity].
    right; split; [reflexivity|]; exists fid; split; [reflexivity|].
    right; split; reflexivity. }
  left; reflexivity.
Qed.

(** X20 -- Whatever the request, the webhook calls the token store at
    most once, and only on a payload it goes on with (the verified one, or
    the body itself when no key is set), only with the non-zero FID
    [extractFidFromPayload] finds in it, and only when it answers 200: a
    save for [miniapp_added] and [notifications_enabled] with truthy
    notification details, carrying their [token] and [url]; a deactivation
    for [miniapp_removed] and [notifications_disabled]. *)
Theorem webhook_store_calls (requestJson : option value) :
  snd (post requestJson) = []
  \/ exists rj d fid,
       requestJson = Some rj
       /\ goes_on_with NEYNAR_API_KEY parseWebhookEvent rj d
       /\ status (fst (post requestJson)) = 200%Z
       /\ usable (extractFidFromPayload d) = Some fid
       /\ (snd (post requestJson)
           = [SaveToken fid (get_opt "token" (get "notificationDetails" d))
                (get_opt "url" (get "notificationDetails" d))]
           /\ saving_event (get "event" d) = true
           /\ truthy (get "notificationDetails" d) = true
           \/ snd (post requestJson) = [DeactivateToken fid]
              /\ removing_event (get "event" d) = true).
Proof.
  destruct requestJson as [rj|]; [|left; reflexivity].
  assert (Hnull : rj = Null -> snd (post (Some rj)) = [])
    by (intros ->; reflexivity).
  destruct (key_is_set NEYNAR_API_KEY) eqn:Hk.
  - destruct (parseWebhookEvent rj) as [d|e] eqn:Hp.
    + assert (Hd : d = Null -> snd (post (Some rj)) = []).
      { intros ->. unfold POST. rewrite Hk, Hp. destruct rj; reflexivity. }
      assert (Hrj : rj = Null \/ rj <> Null)
        by (destruct rj; (left; reflexivity) || (right; discriminate)).
      assert (Hdn : d = Null \/ d <> Null)
        by (destruct d; (left; reflexivity) || (right; discriminate)).
      destruct Hrj as [Hrj|Hrj]; [left; auto|].
      destruct Hdn as [Hdn|Hdn]; [left; auto|].
      assert (G : goes_on_with NEYNAR_API_KEY parseWebhookEvent rj d)
        by (split; [exact Hrj|]; split; [exact Hdn|]; right; split; assumption).
      rewrite (POST_goes_on G).
      destruct (handle_calls d) as [H | (Hs & fid & Hf & H)]; [left; exact H|].
      right. exists rj, d, fid.
      split; [reflexivity|]. split; [exact G|]. split; [exact Hs|].
      split; [exact Hf | exact H].
    + left. unfold POST. rewrite Hk, Hp. destruct rj; reflexivity.
  - assert (Hrj : rj = Null \/ rj <> Null)
      by (destruct rj; (left; reflexivity) || (right; discriminate)).
    destruct Hrj as [Hrj|Hrj]; [left; auto|].
    assert (G : goes_on_with NEYNAR_API_KEY parseWebhookEvent rj rj)
      by (split; [exact Hrj|]; split; [exact Hrj|]; left; split; auto).
    rewrite (POST_goes_on G).
    destruct (handle_calls rj) as [H | (Hs & fid & Hf & H)]; [left; exact H|].
    right. exists rj, rj, fid.
    split; [reflexivity|]. split; [exact G|]. split; [exact Hs|].
    split; [exact Hf | exact H].
Qed.

(** X21 -- With a key set, a request whose verification fails never
    reaches the token store, and is answered [success: false] with status
    400, 401 or 500: 401 exactly for an invalid app key, 400 exactly for
    invalid data. *)
Theorem webhook_rejects_unverified (requestJson : value) (e : Rejection) :
  key_is_set NEYNAR_API_KEY = true ->
  requestJson <> Null ->
  parseWebhookEvent requestJson = Rejected e ->
  snd (post (Some requestJson)) = []
  /\ success (fst (post (Some requestJson))) = false
  /\ (status (fst (post (Some requestJson))) = 400%Z
      \/ status (fst (post (Some requestJson))) = 401%Z
      \/ status (fst (post (Some requestJson))) = 500%Z)
  /\ (status (fst (post (Some requestJson))) = 401%Z
      <-> exists m,
            e = Named "VerifyJsonFarcasterSignature.InvalidAppKeyError" m)
  /\ (status (fst (post (Some requestJson))) = 400%Z
      <-> exists m,
            e = Named "VerifyJsonFarcasterSignature.InvalidDataError" m
            \/ e = Named "VerifyJsonFarcasterSignature.InvalidEventDataError" m).
Proof.
  intros Hk Hr Hp.
  assert (E : post (Some requestJson) = (verification_failure type_error_message e, [])).
  { unfold POST. rewrite Hk, Hp.
    destruct requestJson; try reflexivity. contradiction Hr; reflexivity. }
  rewrite E. cbn [fst snd]. split; [reflexivity|].
  unfold verification_failure.
  destruct e as [name m| |].
  - destruct (String.eqb_spec name "VerifyJsonFarcasterSignature.InvalidDataError")
      as [->|N1].
    { cbn. repeat split; auto; try discriminate.
      - intros (m' & H). discriminate H.
      - intros _. exists m. left. reflexivity. }
    destruct (String.eqb_spec name
                "VerifyJsonFarcasterSignature.InvalidEventDataError") as [->|N2].
    { cbn. repeat split; auto; try discriminate.
      - intros (m' & H). discriminate H.
      - intros _. exists m. right. reflexivity. }
    destruct (String.eqb_spec name
                "VerifyJsonFarcasterSignature.InvalidAppKeyError") as [->|N3].
    { cbn. repeat split; auto; try discriminate.
      - intros _. exists m. reflexivity.
      - intros (m' & [H|H]); discriminate H. }
    destruct (String.eqb_spec name
                "VerifyJsonFarcasterSignature.VerifyAppKeyError") as [->|N4].
    { cbn. repeat split; auto; try discriminate.
      - intros (m' & H). discriminate H.
      - intros (m' & [H|H]); discriminate H. }
    cbn. repeat split; auto; try discriminate.
    + intros (m' & H). injection H as H _. contradiction.
    + intros (m' & [H|H]); injection H as H _; contradiction.
  - cbn. repeat split; auto; try discriminate.
    + intros (m' & H). discriminate H.
    + intros (m' & [H|H]); discriminate H.
  - cbn. repeat split; auto; try discriminate.
    + intros (m' & H). discriminate H.
    + intros (m' & [H|H]); discriminate H.
Qed.

(** X22 -- Without a key (unset or empty) the body is taken at its word:
    [parseWebhookEvent] has no say in the answer, and a body that names
    [miniapp_removed] and any non-zero FID deactivates that FID's token
    and is answered 200 with [verified: false]. *)
Theorem webhook_without_key_trusts_the_body (fid : float) :
  key_is_set NEYNAR_API_KEY = false ->
  usable (Some fid) = Some fid ->
  post (Some (removal fid))
  = ({| status := 200; success := true; error := None;
        event := Some (Str "miniapp_removed"); verified := Some false |},
     [DeactivateToken fid])
  /\ forall requestJson,
       post requestJson
       = POST NEYNAR_API_KEY (fun _ => Rejected Nullish) type_error_message
           requestJson.
Proof.
  intros Hk Hf. split.
  - unfold POST, removal. rewrite Hk.
    unfold handle, received. rewrite Hk.
    change (extractFidFromPayload
              (Object [("event", Str "miniapp_removed"); ("fid", Number fid)]))
      with (Some fid).
    rewrite Hf. reflexivity.
  - intros [rj|]; [|reflexivity]. unfold POST. rewrite Hk. reflexivity.
Qed.

Lemma handle_without_fid (d : value) :
  usable (extractFidFromPayload d) = None -> snd (handled d) = [].
Proof.
  intros Hf. unfold handle. rewrite Hf.
  repeat match goal with
         | |- context [if ?b then _ else _] => destruct b
         end; reflexivity.
Qed.

(** X23 -- A payload whose top-level [fid] is the number 0 reaches the
    token store under no event, whatever FID its [user], [data] or
    [untrustedData] objects hold. *)
Theorem webhook_ignores_fid_zero (requestJson d : value) (n : float) :
  goes_on_with NEYNAR_API_KEY parseWebhookEvent requestJson d ->
  get "fid" d = Some (Number n) ->
  usable (Some n) = None ->
  snd (post (Some requestJson)) = [].
Proof.
  intros G Hn Hu. rewrite (POST_goes_on G).
  apply handle_without_fid.
  unfold extractFidFromPayload. rewrite Hn. exact Hu.
Qed.

(** X24 -- Notification details whose [url] is not a string: under
    [miniapp_added] the request is answered 500 and nothing is saved,
    under [notifications_enabled] it is answered 200 and the token is
    saved with that [url]. *)
Theorem webhook_details_without_url (requestJson d : value) (fid : float) :
  goes_on_with NEYNAR_API_KEY parseWebhookEvent requestJson d ->
  usable (extractFidFromPayload d) = Some fid ->
  truthy (get "notificationDetails" d) = true ->
  (forall s, get_opt "url" (get "notificationDetails" d) <> Some (Str s)) ->
  (is_string "miniapp_added" (get "event" d) = true ->
   status (fst (post (Some requestJson))) = 500%Z
   /\ snd (post (Some requestJson)) = [])
  /\ (is_string "notifications_enabled" (get "event" d) = true ->
      status (fst (post (Some requestJson))) = 200%Z
      /\ snd (post (Some requestJson))
         = [SaveToken fid (get_opt "token" (get "notificationDetails" d))
              (get_opt "url" (get "notificationDetails" d))]).
Proof.
  intros G Hf Hd Hu. rewrite (POST_goes_on G). unfold handle.
  rewrite Hf, Hd. split; intros He.
  - rewrite He.
    destruct (get_opt "url" (get "notificationDetails" d)) as [[]|];
      try (split; reflexivity).
    contradiction (Hu s). reflexivity.
  - destruct (is_string "miniapp_added" (get "event" d)) eqn:E1.
    + exfalso. unfold is_string in *.
      destruct (get "event" d) as [[]|]; try discriminate.
      apply String.eqb_eq in E1, He. rewrite E1 in He. discriminate He.
    + destruct (is_string "miniapp_removed" (get "event" d)) eqn:E2.
      * exfalso. unfold is_string in *.
        destruct (get "event" d) as [[]|]; try discriminate.
        apply String.eqb_eq in E2, He. rewrite E2 in He. discriminate He.
      * rewrite He. split; reflexivity.
Qed.

End WebhookFacts.

Lemma webhook_rejects_unverified_witness :
  snd (Webhook.POST (Some "key"%string) Webhook.sample_reject
         Webhook.sample_type_error (Some (Webhook.removal 7))) = []
  /\ Webhook.status
       (fst (Webhook.POST (Some "key"%string) Webhook.sample_reject
               Webhook.sample_type_error (Some (Webhook.removal 7)))) = 401%Z.
Proof.
  destruct (@webhook_rejects_unverified (Some "key"%string) Webhook.sample_reject
              Webhook.sample_type_error (Webhook.removal 7)
              (Webhook.Named "VerifyJsonFarcasterSignature.InvalidAppKeyError"
                 "bad key"))
    as (H1 & _ & _ & H2 & _).
  - reflexivity.
  - discriminate.
  - reflexivity.
  - split; [exact H1|]. apply H2. exists "bad key"%string. reflexivity.
Defined.

Lemma webhook_without_key_trusts_the_body_witness :
  snd (Webhook.POST None Webhook.sample_reject Webhook.sample_type_error
         (Some (Webhook.removal 7)))
  = [Webhook.DeactivateToken 7].
Proof.
  destruct (@webhook_without_key_trusts_the_body None Webhook.sample_reject
              Webhook.sample_type_error 7%float) as [H _].
  - reflexivity.
  - reflexivity.
  - rewrite H. reflexivity.
Defined.

Lemma webhook_ignores_fid_zero_witness :
  Webhook.extractFidFromPayload Webhook.sample_zero_fid = Some 0%float
  /\ snd (Webhook.POST None Webhook.sample_reject Webhook.sample_type_error
            (Some Webhook.sample_zero_fid)) = [].
Proof.
  split; [reflexivity|].
  apply (@webhook_ignores_fid_zero None Webhook.sample_reject
           Webhook.sample_type_error Webhook.sample_zero_fid
           Webhook.sample_zero_fid 0%float).
  - split; [discriminate|]. split; [discriminate|]. left. split; reflexivity.
  - reflexivity.
  - reflexivity.
Defined.

Lemma webhook_details_without_url_witness :
  Webhook.status
    (fst (Webhook.POST None Webhook.sample_reject Webhook.sample_type_error
            (Some Webhook.sample_added))) = 500%Z
  /\ snd (Webhook.POST None Webhook.sample_reject Webhook.sample_type_error
            (Some Webhook.sample_enabled))
     = [Webhook.SaveToken 7 (Some (Json.Str "t-7")) None].
Proof.
  split.
  - apply (@webhook_details_without_url None Webhook.sample_reject
             Webhook.sample_type_error Webhook.sample_added Webhook.sample_added
             7%float).
    + split; [discriminate|]. split; [discriminate|]. left. split; reflexivity.
    + reflexivity.
    + reflexivity.
    + intros s. discriminate.
    + reflexivity.
  - apply (@webhook_details_without_url None Webhook.sample_reject
             Webhook.sample_type_error Webhook.sample_enabled
             Webhook.sample_enabled 7%float).
    + split; [discriminate|]. split; [discriminate|]. left. split; reflexivity.
    + reflexivity.
    + reflexivity.
    + intros s. discriminate.
    + reflexivity.
Defined.

(* ===================================================================== *)
(** * Properties of the mint-status and record-mint routes *)
(* ===================================================================== *)

Section CheckMintStatusFacts.

Import JS MintHook Database DbOperations CheckMintStatus.
Local Open Scope string_scope.

Variable MintedNFT : Type.
Variable minted_query : float -> Outcome (QueryResult float).
Variable stats_query : Outcome (QueryResult MintStats).
Variable nft_query : float -> Outcome (QueryResult MintedNFT).
Variable now : string.

Local Notation "'get_status'" :=
  (GET minted_query stats_query nft_query now).

Lemma checkFIDMinted_true (query : Outcome (QueryResult float)) :
  checkFIDMinted query = true <-> row_found query.
Proof.
  unfold checkFIDMinted, row_found. cbn [isSupabaseConfigured negb].
  destruct query as [r|t].
  - destruct (other_error r) eqn:Eo.
    + split; [discriminate|]. intros (r' & row & H & _ & Ho).
      injection H as <-. rewrite Ho in Eo. discriminate Eo.
    + destruct (data r) as [row|] eqn:Ed.
      * split; [|reflexivity]. intros _. exists r, row. repeat split; assumption.
      * split; [discriminate|]. intros (r' & row & H & Hd & _).
        injection H as <-. rewrite Hd in Ed. discriminate Ed.
  - split; [discriminate|]. intros (r' & row & H & _). discriminate H.
Qed.

Lemma or_number_truthy (x : option float) (fallback : float) :
  ((fallback =? 0)%float || is_nan fallback) = false ->
  ((or_number x fallback =? 0)%float || is_nan (or_number x fallback)) = false.
Proof.
  intros Hf. unfold or_number. destruct x as [n|]; [|exact Hf].
  destruct ((n =? 0)%float || is_nan n) eqn:E; [exact Hf | exact E].
Qed.

(** X25 -- A request without an [fid], with an empty one, or with one
    that does not start (after white space and a sign) with a decimal
    digit is answered 400, and no query is made. *)
Theorem mint_status_needs_a_number (fidParam : option string) :
  (fidParam = None \/ fidParam = Some EmptyString
   \/ exists p, fidParam = Some p
                /\ dec_prefix None (snd (strip_sign (trim_start p))) = None) ->
  exists message, get_status fidParam = (Refused 400 message, []).
Proof.
  intros [-> | [-> | (p & -> & Hp)]]; try (eexists; reflexivity).
  unfold GET. destruct p as [|c p]; [eexists; reflexivity|].
  assert (E : parseInt10 (String c p) = nan).
  { unfold parseInt10. destruct (strip_sign (trim_start (String c p))) as [neg s1].
    cbn [snd] in Hp. rewrite Hp. reflexivity. }
  rewrite E. eexists; reflexivity.
Qed.

(** X26 -- For an [fid] that reads as a number the answer is always the
    200 one, whatever the three queries do, errors and rejections
    included: [hasMinted] is true exactly when the minted query found a
    row; otherwise the NFT is [null] and never asked for; the NFT query is
    the third and last one exactly when [hasMinted] is true; and the
    reported [maxSupply] is never zero. *)
Theorem mint_status_survives_the_database (p : string) :
  p <> EmptyString ->
  is_nan (parseInt10 p) = false ->
  exists hasMinted nft totalMinted maxSupply remaining,
    fst (get_status (Some p))
    = Status (parseInt10 p) hasMinted nft totalMinted maxSupply remaining
    /\ (hasMinted = true <-> row_found (minted_query (parseInt10 p)))
    /\ (hasMinted = false ->
        nft = None
        /\ snd (get_status (Some p)) = [CheckMinted (parseInt10 p); Stats])
    /\ (hasMinted = true ->
        nft = getNFTByFID (nft_query (parseInt10 p))
        /\ snd (get_status (Some p))
           = [CheckMinted (parseInt10 p); Stats; NftByFid (parseInt10 p)])
    /\ ((maxSupply =? 0)%float || is_nan maxSupply) = false.
Proof.
  intros Hp Hn. unfold GET.
  destruct p as [|c p]; [contradiction Hp; reflexivity|].
  rewrite Hn. cbn [fst snd].
  do 5 eexists. split; [reflexivity|].
  split; [apply checkFIDMinted_true|].
  split; [intros ->; split; reflexivity|].
  split; [intros ->; split; reflexivity|].
  apply or_number_truthy. reflexivity.
Qed.

(** X27 -- When the statistics cannot be read (the query is answered
    with an error, or rejects), the route reports 0 minted, a supply of
    10000 and 10000 remaining; and a stored supply of zero is reported as
    10000 as well. *)
Theorem mint_status_default_statistics (p : string) :
  p <> EmptyString ->
  is_nan (parseInt10 p) = false ->
  (query_fails stats_query ->
   exists hasMinted nft,
     fst (get_status (Some p)) = Status (parseInt10 p) hasMinted nft 0 10000 10000)
  /\ (forall r s,
        stats_query = Returned r -> db_error r = None -> data r = Some s ->
        max_supply s = 0%float ->
        exists hasMinted nft totalMinted remaining,
          fst (get_status (Some p))
          = Status (parseInt10 p) hasMinted nft totalMinted 10000 remaining).
Proof.
  intros Hp Hn. unfold GET.
  destruct p as [|c p]; [contradiction Hp; reflexivity|].
  rewrite Hn. cbn [fst]. split.
  - intros Hq.
    assert (E : getMintStats now stats_query = None).
    { unfold getMintStats. cbn [isSupabaseConfigured negb].
      destruct Hq as [(r & e & -> & He) | (t & ->)]; [rewrite He|]; reflexivity. }
    rewrite E. do 2 eexists. reflexivity.
  - intros r s -> He Hd Hm.
    unfold getMintStats. cbn [isSupabaseConfigured negb]. rewrite He, Hd.
    cbn [option_map or_number]. rewrite Hm.
    do 4 eexists. reflexivity.
Qed.

End CheckMintStatusFacts.

Lemma mint_status_needs_a_number_witness :
  exists message,
    CheckMintStatus.GET (MintedNFT := unit)
      (fun _ => CheckMintStatus.sample_down float)
      (CheckMintStatus.sample_down DbOperations.MintStats)
      (fun _ => CheckMintStatus.sample_down unit) "2025-12-01" (Some " -x12"%string)
    = (CheckMintStatus.Refused 400 message, []).
Proof.
  apply (@mint_status_needs_a_number unit).
  right. right. exists " -x12"%string. split; reflexivity.
Defined.

Lemma mint_status_survives_the_database_witness :
  CheckMintStatus.parseInt10 " 42abc" = 42%float
  /\ exists nft totalMinted maxSupply remaining,
       fst (CheckMintStatus.GET (MintedNFT := unit)
              (fun _ => CheckMintStatus.sample_down float)
              (CheckMintStatus.sample_down DbOperations.MintStats)
              (fun _ => CheckMintStatus.sample_down unit) "2025-12-01"
              (Some " 42abc"%string))
       = CheckMintStatus.Status 42 false nft totalMinted maxSupply remaining.
Proof.
  split; [reflexivity|].
  destruct (@mint_status_survives_the_database unit
              (fun _ => CheckMintStatus.sample_down float)
              (CheckMintStatus.sample_down DbOperations.MintStats)
              (fun _ => CheckMintStatus.sample_down unit) "2025-12-01"%string
              " 42abc"%string)
    as (hasMinted & nft & totalMinted & maxSupply & remaining & E & Hm & _).
  - discriminate.
  - reflexivity.
  - exists nft, totalMinted, maxSupply, remaining.
    rewrite E. destruct hasMinted; [exfalso | reflexivity].
    destruct (proj1 Hm eq_refl) as (r & row & Hq & Hd & _).
    injection Hq as <-. discriminate Hd.
Defined.

Lemma mint_status_default_statistics_witness :
  (exists hasMinted nft,
     fst (CheckMintStatus.GET (MintedNFT := unit)
            (fun _ => CheckMintStatus.sample_down float)
            (CheckMintStatus.sample_down DbOperations.MintStats)
            (fun _ => CheckMintStatus.sample_down unit) "2025-12-01"
            (Some "42"%string))
     = CheckMintStatus.Status 42 hasMinted nft 0 10000 10000)
  /\ exists hasMinted nft totalMinted remaining,
       fst (CheckMintStatus.GET (MintedNFT := unit)
              (fun _ => CheckMintStatus.sample_down float)
              CheckMintStatus.sample_stats
              (fun _ => CheckMintStatus.sample_down unit) "2025-12-01"
              (Some "42"%string))
       = CheckMintStatus.Status 42 hasMinted nft totalMinted 10000 remaining.
Proof.
  split.
  - apply (@mint_status_default_statistics unit
             (fun _ => CheckMintStatus.sample_down float)
             (CheckMintStatus.sample_down DbOperations.MintStats)
             (fun _ => CheckMintStatus.sample_down unit) "2025-12-01"%string
             "42"%string).
    + discriminate.
    + reflexivity.
    + left. do 2 eexists. split; reflexivity.
  - eapply (@mint_status_default_statistics unit
              (fun _ => CheckMintStatus.sample_down float)
              CheckMintStatus.sample_stats
              (fun _ => CheckMintStatus.sample_down unit) "2025-12-01"%string
              "42"%string).
    + discriminate.
    + reflexivity.
    + reflexivity.
    + reflexivity.
    + reflexivity.
    + reflexivity.
Defined.

Section RecordMintFacts.

Import Json MintHook Database DbOperations RecordMint.
Local Open Scope string_scope.

Variable insert : MintData -> Outcome (option DbError).
Variable increment_minted_count : Outcome (option DbError).
Variable type_error_message : string.

Local Notation "'post'" := (POST insert increment_minted_count type_error_message).

(** X28 -- A body in which [fid], [username], one of the four URIs,
    [traits] or [tx_hash] is missing or falsy (an FID of 0 included), or
    in which [token_id] is missing, is answered 400 and nothing is
    written; a [token_id] of 0 or [null] does not count as missing. *)
Theorem record_mint_needs_every_field (body : value) :
  body <> Null ->
  incomplete (fields_of body) = true ->
  post (Returned body) = (Refused 400 "Missing required fields", []).
Proof.
  intros Hb Hi. unfold POST. rewrite Hi.
  destruct body; try reflexivity. contradiction Hb; reflexivity.
Qed.

(** X29 -- For a complete body the row is inserted, once and first, with
    the nine fields of the body.  The counter is incremented exactly when
    the insert is answered without an error, and the answer is the 200 one
    exactly when, besides, the increment does not reject: an insert
    answered with an error gives 500 with the prefix twice, and an
    increment answered with an error still gives 200. *)
Theorem record_mint_outcomes (body : value) :
  body <> Null ->
  incomplete (fields_of body) = false ->
  (exists rest, snd (post (Returned body)) = Insert (fields_of body) :: rest
                /\ (rest = [] \/ rest = [IncrementMintedCount]))
  /\ (In IncrementMintedCount (snd (post (Returned body)))
      <-> insert (fields_of body) = Returned None)
  /\ (fst (post (Returned body)) = Recorded
      <-> insert (fields_of body) = Returned None
          /\ exists answer, increment_minted_count = Returned answer)
  /\ (forall e, insert (fields_of body) = Returned (Some e) ->
        fst (post (Returned body))
        = Refused 500
            ("Failed to record mint: Failed to record mint: " ++ db_message e)).
Proof.
  intros Hb Hi.
  assert (E : post (Returned body)
              = match recordMint insert increment_minted_count (fields_of body) with
                | (Returned _, writes) => (Recorded, writes)
                | (Threw t, writes) => (failure t, writes)
                end).
  { unfold POST. rewrite Hi. destruct body; try reflexivity.
    contradiction Hb; reflexivity. }
  rewrite E. unfold recordMint. cbn [isSupabaseConfigured negb].
  destruct (insert (fields_of body)) as [[e|]|t].
  - cbn [fst snd]. split; [exists []; split; [reflexivity | left; reflexivity]|].
    split; [split; [intros [H|[]]; discriminate H | discriminate]|].
    split; [split; [discriminate | intros [H _]; discriminate H]|].
    intros e' H. injection H as <-. reflexivity.
  - destruct increment_minted_count as [answer|t]; cbn [fst snd].
    + split; [exists [IncrementMintedCount]; split; [reflexivity | right; reflexivity]|].
      split; [split; [reflexivity | intros _; right; left; reflexivity]|].
      split; [split; [intros _; split; [reflexivity | exists answer; reflexivity]
                     | reflexivity]|].
      intros e H. discriminate H.
    + split; [exists [IncrementMintedCount]; split; [reflexivity | right; reflexivity]|].
      split; [split; [reflexivity | intros _; right; left; reflexivity]|].
      split; [split; [discriminate | intros [_ [answer H]]; discriminate H]|].
      intros e H. discriminate H.
  - cbn [fst snd]. split; [exists []; split; [reflexivity | left; reflexivity]|].
    split; [split; [intros [H|[]]; discriminate H | discriminate]|].
    split; [split; [discriminate | intros [H _]; discriminate H]|].
    intros e' H. discriminate H.
Qed.

End RecordMintFacts.

Lemma record_mint_needs_every_field_witness :
  RecordMint.incomplete (RecordMint.fields_of RecordMint.sample_mint) = false
  /\ RecordMint.POST RecordMint.sample_insert_ok (MintHook.Returned None) "TypeError"
       (MintHook.Returned RecordMint.sample_mint_zero)
     = (RecordMint.Refused 400 "Missing required fields", []).
Proof.
  split; [reflexivity|].
  apply (@record_mint_needs_every_field RecordMint.sample_insert_ok
           (MintHook.Returned None) "TypeError"%string RecordMint.sample_mint_zero).
  - discriminate.
  - reflexivity.
Defined.

Lemma record_mint_outcomes_witness :
  fst (RecordMint.POST RecordMint.sample_insert_ok
         RecordMint.sample_counter_refused "TypeError"
         (MintHook.Returned RecordMint.sample_mint))
  = RecordMint.Recorded
  /\ fst (RecordMint.POST RecordMint.sample_insert_refused
            RecordMint.sample_counter_refused "TypeError"
            (MintHook.Returned RecordMint.sample_mint))
     = RecordMint.Refused 500
         "Failed to record mint: Failed to record mint: duplicate key".
Proof.
  split.
  - apply (@record_mint_outcomes RecordMint.sample_insert_ok
             RecordMint.sample_counter_refused "TypeError"%string
             RecordMint.sample_mint).
    + discriminate.
    + reflexivity.
    + split; [reflexivity|]. eexists. reflexivity.
  - destruct (@record_mint_outcomes RecordMint.sample_insert_refused
                RecordMint.sample_counter_refused "TypeError"%string
                RecordMint.sample_mint) as (_ & _ & _ & H).
    + discriminate.
    + reflexivity.
    + apply (H {| Database.code := "23505"%string;
                  Database.db_message := "duplicate key"%string |}).
      reflexivity.
Defined.
